(** * HTTP push ingest of the Livepeer broadcaster: model and properties

    A shallow embedding of [server/mediaserver.go]: the connection
    registry ([rtmpConnections], [internalManifests]), the stream-id
    handler with its auth webhook, [registerConnection],
    [removeRTMPStream], the two watchdogs of [HandlePush] and the
    multipart responder; then the RTMP publish and play handlers, the
    HLS handlers, [GetNodeStatus], [getPlaylistsFromStore],
    [HandleRecordings] up to the point where the playlist files are
    found, and [NewLivepeerServer].

    Conventions.
    - Go pointers to [rtmpConnection] are addresses into [heap], an
      append-only list of allocated connection objects; an address that
      is not in the heap plays the part of a nil pointer, and
      dereferencing it is a panic.
    - A [[]ffmpeg.VideoProfile] slice is a reference to a backing array
      kept in [arrays]; two slices with the same reference share their
      elements, as in Go.
    - Every region between [connectionLock.Lock/RLock] and the matching
      unlock is one atomic transition of the [World]; goroutines are
      modelled by the transitions they perform.
    - A [range] over a Go map takes the list of its entries in the
      order of the iteration as an argument.
    - [processSegment] is not among the sources: the URLs or the
      error it returns and the bytes it adds to [sourceBytes] and
      [transcodedBytes] are given from outside.
    - A [float64] is an IEEE 754 binary64 with its infinities and NaN,
      products rounded to nearest with ties to even; a conversion to
      [int64] of a value that does not fit gives the least [int64], as
      the amd64 compiler has it.
    - [time.NewTicker] panics on an interval that is not positive.
    - Logging ([glog]) and metrics ([monitor]) are left out. *)

From stdpp Require Import gmap strings list fin_maps pretty.
From Stdlib Require Import ZArith Lia Ascii.

Local Open Scope string_scope.
Local Open Scope Z_scope.

(** ** Data model *)

Abbreviation ManifestID := string (only parsing).
Abbreviation Time := Z (only parsing).      (* nanoseconds *)
Abbreviation Duration := Z (only parsing).  (* time.Duration: int64 nanoseconds *)
Abbreviation addr := nat (only parsing).    (* *rtmpConnection *)

(** [ffmpeg.Format] is an [int]; the three named values of lpms. *)
Abbreviation Format := Z (only parsing).
Definition FormatNone : Format := 0.
Definition FormatMPEGTS : Format := 1.
Definition FormatMP4 : Format := 2.

(** The fields of [ffmpeg.VideoProfile] that the server reads or writes. *)
Record VideoProfile := mkVideoProfile {
  Name : string;
  Bitrate : string;
  Framerate : Z;
  FramerateDen : Z;
  Resolution : string;
  Profile : Z;
  GOP : Duration;
  VFormat : Format;
}.

Definition set_VFormat (f : Format) (p : VideoProfile) : VideoProfile :=
  {| Name := Name p; Bitrate := Bitrate p; Framerate := Framerate p;
     FramerateDen := FramerateDen p; Resolution := Resolution p;
     Profile := Profile p; GOP := GOP p; VFormat := f |}.

(** A slice value: [None] is the nil slice, [Some r] the slice that spans
    the whole backing array [r]. *)
Abbreviation slice := (option nat) (only parsing).

Record OSDriver := mkOSDriver {
  drv_uri : string;
  drv_memory : bool;   (* a [*drivers.MemoryOS] *)
}.

Record OSSession := mkOSSession {
  oss_driver : OSDriver;
  oss_path : string;
}.

Definition NewSession (d : OSDriver) (path : string) : OSSession :=
  {| oss_driver := d; oss_path := path |}.

Record StreamID := mkStreamID {
  sid_ManifestID : ManifestID;
  sid_Rendition : string;
}.

(** [core.StreamParameters]. *)
Record StreamParameters := mkStreamParameters {
  p_ManifestID : ManifestID;
  p_RtmpKey : string;
  p_Profiles : slice;
  p_Resolution : string;
  p_Format : Format;
  p_OS : option OSSession;
  p_RecordOS : option OSSession;
  p_Capabilities : option Z;
}.

Record PlaylistManager := mkPlaylistManager {
  pl_mid : ManifestID;
  pl_os : OSSession;
  pl_recordOS : option OSSession;
  pl_cleaned : bool;
}.

Record BroadcastSessionsManager := mkSessManager {
  sm_mid : ManifestID;
  sm_cleaned : bool;
}.

(** [stream.BasicRTMPVideoStream], as far as the server observes it. *)
Record RTMPVideoStream := mkStream {
  strm_width : Z;
  strm_height : Z;
  strm_closed : bool;
}.

Record rtmpConnection := mkConn {
  mid : ManifestID;
  nonce : Z;
  stream : RTMPVideoStream;
  pl : option PlaylistManager;     (* interface value, [None] is nil *)
  profile : VideoProfile;
  params : StreamParameters;
  sessManager : BroadcastSessionsManager;
  lastUsed : Time;
  sourceBytes : Z;
  transcodedBytes : Z;
}.

Inductive goerr :=
| errAlreadyExists
| errStorage
| errDiscovery
| errNoOrchs
| errUnknownStream
| errMismatchedParams
| errOther (msg : string).

(** The server together with the package-level variables it reads. *)
Record World := mkWorld {
  rtmpConnections : gmap string addr;
  internalManifests : gmap string string;
  lastHLSStreamID : StreamID;
  lastManifestID : ManifestID;
  heap : list rtmpConnection;
  arrays : list (list VideoProfile);
  BroadcastJobVideoProfiles : slice;
  AuthWebhookURL : string;
  httpPushTimeout : Duration;
  NodeStorage : option OSDriver;
  RecordStorage : option OSDriver;
  MaxSessions : Z;
  watchdogs : list (ManifestID * ManifestID);  (* reapers started: (intmid, extmid) *)
  posts : list (string * string);              (* webhook POSTs: (endpoint, body) *)
}.

Definition set_registry (rc : gmap string addr) (im : gmap string string)
    (w : World) : World :=
  {| rtmpConnections := rc; internalManifests := im;
     lastHLSStreamID := lastHLSStreamID w; lastManifestID := lastManifestID w;
     heap := heap w; arrays := arrays w;
     BroadcastJobVideoProfiles := BroadcastJobVideoProfiles w;
     AuthWebhookURL := AuthWebhookURL w; httpPushTimeout := httpPushTimeout w;
     NodeStorage := NodeStorage w; RecordStorage := RecordStorage w;
     MaxSessions := MaxSessions w; watchdogs := watchdogs w; posts := posts w |}.

Definition set_last (m : ManifestID) (h : StreamID) (w : World) : World :=
  {| rtmpConnections := rtmpConnections w; internalManifests := internalManifests w;
     lastHLSStreamID := h; lastManifestID := m;
     heap := heap w; arrays := arrays w;
     BroadcastJobVideoProfiles := BroadcastJobVideoProfiles w;
     AuthWebhookURL := AuthWebhookURL w; httpPushTimeout := httpPushTimeout w;
     NodeStorage := NodeStorage w; RecordStorage := RecordStorage w;
     MaxSessions := MaxSessions w; watchdogs := watchdogs w; posts := posts w |}.

Definition set_heap (h : list rtmpConnection) (w : World) : World :=
  {| rtmpConnections := rtmpConnections w; internalManifests := internalManifests w;
     lastHLSStreamID := lastHLSStreamID w; lastManifestID := lastManifestID w;
     heap := h; arrays := arrays w;
     BroadcastJobVideoProfiles := BroadcastJobVideoProfiles w;
     AuthWebhookURL := AuthWebhookURL w; httpPushTimeout := httpPushTimeout w;
     NodeStorage := NodeStorage w; RecordStorage := RecordStorage w;
     MaxSessions := MaxSessions w; watchdogs := watchdogs w; posts := posts w |}.

Definition set_arrays (a : list (list VideoProfile)) (w : World) : World :=
  {| rtmpConnections := rtmpConnections w; internalManifests := internalManifests w;
     lastHLSStreamID := lastHLSStreamID w; lastManifestID := lastManifestID w;
     heap := heap w; arrays := a;
     BroadcastJobVideoProfiles := BroadcastJobVideoProfiles w;
     AuthWebhookURL := AuthWebhookURL w; httpPushTimeout := httpPushTimeout w;
     NodeStorage := NodeStorage w; RecordStorage := RecordStorage w;
     MaxSessions := MaxSessions w; watchdogs := watchdogs w; posts := posts w |}.

Definition add_watchdog (g : ManifestID * ManifestID) (w : World) : World :=
  {| rtmpConnections := rtmpConnections w; internalManifests := internalManifests w;
     lastHLSStreamID := lastHLSStreamID w; lastManifestID := lastManifestID w;
     heap := heap w; arrays := arrays w;
     BroadcastJobVideoProfiles := BroadcastJobVideoProfiles w;
     AuthWebhookURL := AuthWebhookURL w; httpPushTimeout := httpPushTimeout w;
     NodeStorage := NodeStorage w; RecordStorage := RecordStorage w;
     MaxSessions := MaxSessions w; watchdogs := watchdogs w ++ [g]; posts := posts w |}.

Definition add_post (p : string * string) (w : World) : World :=
  {| rtmpConnections := rtmpConnections w; internalManifests := internalManifests w;
     lastHLSStreamID := lastHLSStreamID w; lastManifestID := lastManifestID w;
     heap := heap w; arrays := arrays w;
     BroadcastJobVideoProfiles := BroadcastJobVideoProfiles w;
     AuthWebhookURL := AuthWebhookURL w; httpPushTimeout := httpPushTimeout w;
     NodeStorage := NodeStorage w; RecordStorage := RecordStorage w;
     MaxSessions := MaxSessions w; watchdogs := watchdogs w; posts := posts w ++ [p] |}.

(** Field updates of a connection object. *)
Definition set_lastUsed (t : Time) (c : rtmpConnection) : rtmpConnection :=
  {| mid := mid c; nonce := nonce c; stream := stream c; pl := pl c;
     profile := profile c; params := params c; sessManager := sessManager c;
     lastUsed := t; sourceBytes := sourceBytes c;
     transcodedBytes := transcodedBytes c |}.

(** [atomic.AddUint64] on the two byte counters. *)
Definition add_bytes (sb tb : Z) (c : rtmpConnection) : rtmpConnection :=
  {| mid := mid c; nonce := nonce c; stream := stream c; pl := pl c;
     profile := profile c; params := params c; sessManager := sessManager c;
     lastUsed := lastUsed c;
     sourceBytes := (sourceBytes c + sb) mod 2 ^ 64;
     transcodedBytes := (transcodedBytes c + tb) mod 2 ^ 64 |}.

Definition stream_Close (s : RTMPVideoStream) : RTMPVideoStream :=
  {| strm_width := strm_width s; strm_height := strm_height s; strm_closed := true |}.

Definition sessManager_cleanup (m : BroadcastSessionsManager) : BroadcastSessionsManager :=
  {| sm_mid := sm_mid m; sm_cleaned := true |}.

Definition pl_Cleanup (p : PlaylistManager) : PlaylistManager :=
  {| pl_mid := pl_mid p; pl_os := pl_os p; pl_recordOS := pl_recordOS p;
     pl_cleaned := true |}.

(** What [removeRTMPStream] does to the connection object it ends:
    [cxn.stream.Close(); cxn.sessManager.cleanup(); cxn.pl.Cleanup()]. *)
Definition end_connection (c : rtmpConnection) (p : PlaylistManager) : rtmpConnection :=
  {| mid := mid c; nonce := nonce c; stream := stream_Close (stream c);
     pl := Some (pl_Cleanup p);
     profile := profile c; params := params c;
     sessManager := sessManager_cleanup (sessManager c);
     lastUsed := lastUsed c; sourceBytes := sourceBytes c;
     transcodedBytes := transcodedBytes c |}.

Definition cleanup_sessManager (c : rtmpConnection) : rtmpConnection :=
  {| mid := mid c; nonce := nonce c; stream := stream c; pl := pl c;
     profile := profile c; params := params c;
     sessManager := sessManager_cleanup (sessManager c);
     lastUsed := lastUsed c; sourceBytes := sourceBytes c;
     transcodedBytes := transcodedBytes c |}.

(** The result of a Go function that may panic; a panic in a request
    handler is recovered by net/http, so the world it leaves stays. *)
Inductive outcome (A : Type) :=
| Ok (a : A) (w : World)
| Panicked (w : World).
Arguments Ok {A} a w.
Arguments Panicked {A} w.

(** ** removeRTMPStream *)

Definition resolve (w : World) (extmid : ManifestID) : ManifestID :=
  match internalManifests w !! extmid with
  | Some _intmid => _intmid
  | None => extmid
  end.

Definition removeRTMPStream (w : World) (extmid : ManifestID)
    : outcome (option goerr) :=
  let intmid := resolve w extmid in
  match rtmpConnections w !! intmid with
  | None => Ok (Some errUnknownStream) w
  | Some a =>
      match heap w !! a with
      | None => Panicked w
      | Some cxn =>
          match pl cxn with
          | None => Ok (Some errUnknownStream) w
          | Some p =>
              let w1 := set_heap (<[a := end_connection cxn p]> (heap w)) w in
              Ok None
                 (set_registry (delete intmid (rtmpConnections w1))
                               (delete extmid (internalManifests w1)) w1)
          end
      end
  end.

(** ** float64 arithmetic

    A binary64 value is a finite [m * 2^e], an infinity or a NaN.  A
    result is rounded to 53 bits of mantissa (to fewer below 2^-1022,
    where the exponent stays at -1074), to nearest, ties to even, and
    becomes an infinity from 2^1024 on, as the hardware does.  The sign
    of a zero is not represented: nothing here divides by one or prints
    one. *)
Inductive float64 :=
| Finite (m e : Z)
| Infinity (negative : bool)
| NaN.

(** [m * 2^e] rounded to nearest, ties to even: mantissa and exponent. *)
Definition rne53 (m e : Z) : Z * Z :=
  let a := Z.abs m in
  let s := Z.max (Z.log2 a - 52) (- 1074 - e) in
  if s <=? 0 then (m, e)
  else
    let q := a / 2 ^ s in
    let r := a mod 2 ^ s in
    let half := 2 ^ (s - 1) in
    let q' := if (half <? r) || ((r =? half) && Z.odd q) then q + 1 else q in
    (Z.sgn m * q', e + s).

Definition round64 (m e : Z) : float64 :=
  let '(m', e') := rne53 m e in
  if negb (m' =? 0) && (1024 <=? Z.log2 (Z.abs m') + e')
  then Infinity (m <? 0)
  else Finite m' e'.

Definition float64_of_int64 (x : Z) : float64 := round64 x 0.

Definition float64_mul (a b : float64) : float64 :=
  match a, b with
  | NaN, _ | _, NaN => NaN
  | Finite m1 e1, Finite m2 e2 => round64 (m1 * m2) (e1 + e2)
  | Infinity s, Infinity t => Infinity (xorb s t)
  | Infinity s, Finite m _ | Finite m _, Infinity s =>
      if m =? 0 then NaN else Infinity (xorb s (m <? 0))
  end.

(** [f <= 0.0]; a comparison with a NaN is false. *)
Definition le_zero (f : float64) : bool :=
  match f with
  | Finite m _ => m <=? 0
  | Infinity negative => negative
  | NaN => false
  end.

(** Conversion to [int64] truncates toward zero.  For a value that an
    [int64] cannot hold, a NaN among them, Go leaves the result to the
    implementation; this is the one of amd64, the smallest [int64]. *)
Definition int64_of_float64 (f : float64) : Z :=
  match f with
  | Finite m e =>
      let t := if 0 <=? e then m * 2 ^ e else Z.quot m (2 ^ (- e)) in
      if (- 2 ^ 63 <=? t) && (t <? 2 ^ 63) then t else - 2 ^ 63
  | _ => - 2 ^ 63
  end.

(** The constant [0.9] as a float64: 0x3FECCCCCCCCCCCCD. *)
Definition f64_0_9 : float64 := Finite 8106479329266893 (-53).

(** [httpPushResetTimer]: the timeout of the context it returns,
    [time.Duration(int64(float64(httpPushTimeout) * 0.9))]. *)
Definition httpPushResetTimer (w : World) : Duration :=
  let sleepDur :=
    int64_of_float64 (float64_mul (float64_of_int64 (httpPushTimeout w)) f64_0_9) in
  sleepDur.

(** ** Strings: the functions of [path], [strings] and [strconv] in use *)

Definition slash : ascii := "/"%char.
Definition dot : ascii := "."%char.

Fixpoint ext_scan (r acc : list ascii) : list ascii :=
  match r with
  | [] => []
  | c :: r' =>
      if Ascii.eqb c slash then []
      else if Ascii.eqb c dot then c :: acc
      else ext_scan r' (c :: acc)
  end.

(** [path.Ext]: the suffix beginning at the final dot of the final
    slash-separated element. *)
Definition path_Ext (p : string) : string :=
  String.string_of_list_ascii (ext_scan (rev (String.list_ascii_of_string p)) []).

Fixpoint drop_slashes (r : list ascii) : list ascii :=
  match r with
  | c :: r' => if Ascii.eqb c slash then drop_slashes r' else r
  | [] => []
  end.

Fixpoint last_element (r acc : list ascii) : list ascii :=
  match r with
  | [] => acc
  | c :: r' => if Ascii.eqb c slash then acc else last_element r' (c :: acc)
  end.

(** [path.Base]. *)
Definition path_Base (p : string) : string :=
  if String.eqb p "" then "."
  else
    let r := drop_slashes (rev (String.list_ascii_of_string p)) in
    let b := String.string_of_list_ascii (last_element r []) in
    if String.eqb b "" then "/" else b.

Fixpoint strip_prefix (pre s : list ascii) : option (list ascii) :=
  match pre, s with
  | [], _ => Some s
  | a :: pre', b :: s' => if Ascii.eqb a b then strip_prefix pre' s' else None
  | _ :: _, [] => None
  end.

(** [strings.TrimSuffix]. *)
Definition strings_TrimSuffix (s suffix : string) : string :=
  match strip_prefix (rev (String.list_ascii_of_string suffix))
                     (rev (String.list_ascii_of_string s)) with
  | Some r => String.string_of_list_ascii (rev r)
  | None => s
  end.

Definition digit_of (c : ascii) : option Z :=
  let n := Z.of_N (N_of_ascii c) in
  if (48 <=? n) && (n <=? 57) then Some (n - 48) else None.

Fixpoint parse_digits (l : list ascii) (acc : Z) : option Z :=
  match l with
  | [] => Some acc
  | c :: l' =>
      match digit_of c with
      | Some d => parse_digits l' (10 * acc + d)
      | None => None
      end
  end.

(** [strconv.ParseUint(s, 10, 64)]; [None] is an error. *)
Definition strconv_ParseUint (s : string) : option Z :=
  match String.list_ascii_of_string s with
  | [] => None
  | l =>
      match parse_digits l 0 with
      | Some n => if n <? 2 ^ 64 then Some n else None
      | None => None
      end
  end.

(** [strconv.Atoi] on a 64-bit platform; [None] is an error. *)
Definition strconv_Atoi (s : string) : option Z :=
  let l := String.list_ascii_of_string s in
  let '(neg, ds) :=
    match l with
    | c :: l' =>
        if Ascii.eqb c "-"%char then (true, l')
        else if Ascii.eqb c "+"%char then (false, l')
        else (false, l)
    | [] => (false, [])
    end in
  match ds with
  | [] => None
  | _ =>
      match parse_digits ds 0 with
      | Some n =>
          let v := if neg then - n else n in
          if (- 2 ^ 63 <=? v) && (v <? 2 ^ 63) then Some v else None
      | None => None
      end
  end.

(** [fmt]'s decimal rendering of an integer. *)
Definition itoa (n : Z) : string := pretty n.

(** ** Requests, URLs and the webhook's answer *)

(** [url.URL], without user information. *)
Record URL := mkURL {
  Scheme : string;
  Opaque : string;
  Host : string;
  Path : string;
  RawQuery : string;
  Fragment : string;
}.

Record JSONProfile := mkJSONProfile {
  jp_Name : string;
  jp_Width : Z;
  jp_Height : Z;
  jp_Bitrate : Z;
  jp_FPS : Z;
  jp_FPSDen : Z;
  jp_Profile : string;
  jp_GOP : string;
}.

Record authWebhookResponse := mkAuthResp {
  r_ManifestID : string;
  r_StreamKey : string;
  r_Presets : list string;
  r_ObjectStore : string;
  r_RecordObjectStore : string;
  r_RecordObjectStoreURL : string;
  r_Profiles : list JSONProfile;
  r_PreviousSessions : list string;
}.

(** What [http.Post] and the [ioutil.ReadAll] after it give. *)
Inductive PostOutcome :=
| PostError (err : string)
| PostResponse (StatusCode : Z) (rbody : string).

(** Pure functions of the Go library, of lpms and of the packages of
    this repository other than [server]; the server is verified for any
    implementation of them. *)
Class Externals := {
  (* encoding/json, net/url, regexp, strconv, strings *)
  json_Marshal : list (string * string) -> string;
  json_Unmarshal : string -> authWebhookResponse + string;
  url_escapeHost : string -> string;
  url_EscapedPath : string -> string;
  url_EscapedFragment : string -> string;
  StreamPrefix_ReplaceAllString : string -> string;
  strconv_ParseFloat : string -> float64 + string;
  strings_TrimSpace : string -> string;
  (* lpms/ffmpeg *)
  VideoProfileLookup : string -> option VideoProfile;
  GOPIntraOnly : Duration;
  (* common, core, drivers, monitor *)
  SplitStreamIDString : string -> StreamID;
  MakeStreamID : ManifestID -> VideoProfile -> StreamID;
  ProfileExtensionFormat : string -> Format;
  ProfileFormatExtension : Format -> string + string;
  ProfileFormatMimeType : Format -> string + string;
  EncoderProfileNameToValue : string -> Z + string;
  DefaultProfileName : Z -> Z -> Z -> string;
  ParseOSURL : string -> bool -> OSDriver + string;
  JobCapabilities : StreamParameters -> list VideoProfile -> Z + string;
  NodeID : string;
}.

Section Server.
Context `{X : Externals}.

Definition nonempty (s : string) : bool := negb (String.eqb s "").

Definition first_is_slash (s : string) : bool :=
  match s with
  | String c _ => Ascii.eqb c slash
  | EmptyString => false
  end.

Fixpoint colon_before_slash (l : list ascii) : bool :=
  match l with
  | [] => false
  | c :: l' =>
      if Ascii.eqb c ":"%char then true
      else if Ascii.eqb c slash then false
      else colon_before_slash l'
  end.

(** The [String] method of [url.URL]. *)
Definition URL_String (u : URL) : string :=
  let scheme := if nonempty (Scheme u) then Scheme u +:+ ":" else "" in
  let rest :=
    if nonempty (Opaque u) then Opaque u
    else
      let authority :=
        if nonempty (Scheme u) || nonempty (Host u) then
          (if nonempty (Host u) || nonempty (Path u) then "//" else "")
          +:+ (if nonempty (Host u) then url_escapeHost (Host u) else "")
        else "" in
      let path := url_EscapedPath (Path u) in
      let sep :=
        if nonempty path && negb (first_is_slash path) && nonempty (Host u)
        then "/" else "" in
      let rel :=
        if negb (nonempty scheme) && negb (nonempty authority) && negb (nonempty sep)
        then (if colon_before_slash (String.list_ascii_of_string path) then "./" else "")
        else "" in
      authority +:+ sep +:+ rel +:+ path in
  let query := if nonempty (RawQuery u) then "?" +:+ RawQuery u else "" in
  let fragment :=
    if nonempty (Fragment u) then "#" +:+ url_EscapedFragment (Fragment u) else "" in
  scheme +:+ rest +:+ query +:+ fragment.

(** ** Path parsing *)

Definition cleanStreamPrefix (reqPath : string) : string :=
  StreamPrefix_ReplaceAllString reqPath.

Definition parseStreamID (reqPath : string) : StreamID :=
  let p := strings_TrimSuffix reqPath (path_Ext reqPath) in
  SplitStreamIDString (cleanStreamPrefix p).

Definition parseManifestID (reqPath : string) : ManifestID :=
  sid_ManifestID (parseStreamID reqPath).

Definition parsePresets (presets : list string) : list VideoProfile :=
  omap (fun v => VideoProfileLookup (strings_TrimSpace v)) presets.

(** ** authenticateStream *)

(** [json.Marshal] of a [map[string]string] cannot fail, so the error
    return after it is dead.  [post] is the answer of the webhook to the
    request body it is sent. *)
Definition authenticateStream (w : World) (post : string -> PostOutcome)
    (url : string) : (option authWebhookResponse + string) * World :=
  if String.eqb (AuthWebhookURL w) "" then (inl None, w)
  else
    let values := [("url", url)] in
    let jsonValue := json_Marshal values in
    let w := add_post (AuthWebhookURL w, jsonValue) w in
    match post jsonValue with
    | PostError err => (inr err, w)
    | PostResponse StatusCode rbody =>
        if negb (StatusCode =? 200) then
          (inr ("status=" +:+ itoa StatusCode +:+ " error=" +:+ rbody), w)
        else if (String.length rbody =? 0)%nat then (inl None, w)
        else
          match json_Unmarshal rbody with
          | inr err => (inr err, w)
          | inl authResp =>
              if String.eqb (r_ManifestID authResp) "" then
                (inr "Empty manifest id not allowed", w)
              else (inl (Some authResp), w)
          end
    end.

(** ** jsonProfileToVideoProfile *)

Definition time_Second : Duration := 1000000000.

Definition jsonProfile_gop (g : string) : Duration + string :=
  if nonempty g then
    if String.eqb g "intra" then inl GOPIntraOnly
    else
      match strconv_ParseFloat g with
      | inr err => inr err
      | inl gopFloat =>
          if le_zero gopFloat then inr "invalid gop value"
          else inl (int64_of_float64
                      (float64_mul gopFloat (float64_of_int64 time_Second)))
      end
  else inl 0.

Fixpoint jsonProfileToVideoProfile_loop (ps : list JSONProfile)
    (profiles : list VideoProfile) : list VideoProfile + string :=
  match ps with
  | [] => inl profiles
  | profile :: ps' =>
      let name :=
        if String.eqb (jp_Name profile) "" then
          "webhook_" +:+ DefaultProfileName (jp_Width profile) (jp_Height profile)
                                            (jp_Bitrate profile)
        else jp_Name profile in
      match jsonProfile_gop (jp_GOP profile) with
      | inr err => inr err
      | inl gop =>
          match EncoderProfileNameToValue (jp_Profile profile) with
          | inr err => inr err
          | inl encodingProfile =>
              let prof :=
                {| Name := name;
                   Bitrate := itoa (jp_Bitrate profile);
                   Framerate := jp_FPS profile;
                   FramerateDen := jp_FPSDen profile;
                   Resolution := itoa (jp_Width profile) +:+ "x"
                                 +:+ itoa (jp_Height profile);
                   Profile := encodingProfile;
                   GOP := gop;
                   VFormat := FormatNone |} in
              jsonProfileToVideoProfile_loop ps' (profiles ++ [prof])
          end
      end
  end.

Definition jsonProfileToVideoProfile (resp : authWebhookResponse)
    : list VideoProfile + string :=
  jsonProfileToVideoProfile_loop (r_Profiles resp) [].

(** ** Slices of profiles *)

Definition slice_elems (w : World) (s : slice) : list VideoProfile :=
  match s with
  | None => []
  | Some r => default [] (arrays w !! r)
  end.

(** A new backing array. *)
Definition alloc_array (l : list VideoProfile) (w : World) : nat * World :=
  (length (arrays w), set_arrays (arrays w ++ [l]) w).

(** [append(dst, src...)]: nothing to add gives [dst] back; otherwise the
    result lives in a backing array that no other slice refers to. *)
Definition slice_append (w : World) (dst : slice) (src : list VideoProfile)
    : slice * World :=
  match src with
  | [] => (dst, w)
  | _ :: _ =>
      let '(r, w') := alloc_array (slice_elems w dst ++ src) w in
      (Some r, w')
  end.

(** [s[i] = f(s[i])], written through to the backing array. *)
Definition slice_update (w : World) (s : slice) (i : nat)
    (f : VideoProfile -> VideoProfile) : World :=
  match s with
  | None => w
  | Some r => set_arrays (alter (alter f i) r (arrays w)) w
  end.

Record HLSSegment := mkSegment {
  seg_Data : string;
  seg_Name : string;
  seg_SeqNo : Z;
  seg_DurationMs : Z;     (* Duration is this, divided by 1000.0 *)
}.

(** ** What one request meets from outside: clocks, random sources, the
    webhook, the transcoding pipeline and the client's socket. *)
Record PushEnv := mkEnv {
  e_now : Time;                         (* now := time.Now() *)
  e_post : string -> PostOutcome;       (* http.Post to the webhook *)
  e_RandomManifestID : ManifestID;      (* core.RandomManifestID() *)
  e_RandomKey : string;                 (* common.RandomIDGenerator *)
  e_nonce : Z;                          (* rand.Uint64() *)
  e_regNow : Time;                      (* time.Now() in registerConnection *)
  e_range : gmap string string -> list (string * string);
                                        (* order of range over a map *)
  e_kicks : list Time;                  (* ticks of the kicker: time.Now() of each *)
  e_processSegment : addr -> HLSSegment -> list string + string;
  e_processBytes : addr -> HLSSegment -> Z * Z;
                                        (* what processSegment adds to
                                           sourceBytes and transcodedBytes *)
  e_ctxDone : bool;                     (* r.Context().Done() after processSegment *)
  e_GetData : string -> option string;  (* memOS.GetData, nil is None *)
  e_boundary : string;                  (* common.RandName() *)
  e_createPartErr : nat -> bool;        (* mw.CreatePart fails at part i *)
  e_writeErr : nat -> bool;             (* writing the body of part i fails *)
  e_closeErr : bool;                    (* mw.Close() fails *)
}.

(** ** createRTMPStreamIDHandler *)

Definition parse_os (s : string) (useFullAPI : bool) : option (option OSDriver) :=
  if nonempty s then
    match ParseOSURL s useFullAPI with
    | inl d => Some (Some d)
    | inr _ => None
    end
  else Some None.

Record resolved := mkResolved {
  rs_mid : ManifestID;
  rs_key : string;
  rs_profiles : slice;
  rs_os : option OSDriver;
  rs_ros : option OSDriver;
}.

(** The branch on the webhook's answer: identity, key, profiles and
    object stores, or [None] where the handler returns nil. *)
Definition resolve_auth (w : World) (profiles : slice)
    (resp : option authWebhookResponse) : option resolved * World :=
  match resp with
  | Some resp =>
      let mid := parseManifestID (r_ManifestID resp) in
      let key := r_StreamKey resp in
      let '(profiles, w) :=
        if (0 <? length (r_Presets resp))%nat then
          let '(r, w') := alloc_array (parsePresets (r_Presets resp)) w in
          (Some r, w')
        else (profiles, w) in
      match jsonProfileToVideoProfile resp with
      | inr _ => (None, w)
      | inl parsedProfiles =>
          let '(profiles, w) := slice_append w profiles parsedProfiles in
          let profiles :=
            if (length (r_Profiles resp) <=? 0)%nat
               && (length (r_Presets resp) <=? 0)%nat
            then BroadcastJobVideoProfiles w else profiles in
          match parse_os (r_ObjectStore resp) false with
          | None => (None, w)
          | Some os =>
              match parse_os (r_RecordObjectStore resp) true with
              | None => (None, w)
              | Some ros =>
                  (Some {| rs_mid := mid; rs_key := key; rs_profiles := profiles;
                           rs_os := os; rs_ros := ros |}, w)
              end
          end
      end
  | None =>
      (Some {| rs_mid := ""; rs_key := ""; rs_profiles := BroadcastJobVideoProfiles w;
               rs_os := None; rs_ros := None |}, w)
  end.

Definition createRTMPStreamIDHandler (w : World) (env : PushEnv) (url : URL)
    : option StreamParameters * World :=
  let '(r0, w) := alloc_array [] w in
  let profiles : slice := Some r0 in
  match authenticateStream w (e_post env) (URL_String url) with
  | (inr _, w) => (None, w)
  | (inl resp, w) =>
      match resolve_auth w profiles resp with
      | (None, w) => (None, w)
      | (Some rs, w) =>
          let sid := parseStreamID (Path url) in
          let extmid := sid_ManifestID sid in
          let '(mid, key) :=
            if String.eqb (rs_mid rs) ""
            then (sid_ManifestID sid, sid_Rendition sid)
            else (rs_mid rs, rs_key rs) in
          let mid := if String.eqb mid "" then e_RandomManifestID env else mid in
          let key := if String.eqb key "" then e_RandomKey env else key in
          let oss := (fun os => NewSession os mid) <$> rs_os rs in
          let recordPath := extmid +:+ "/" +:+ NodeID in
          let ross :=
            match rs_ros rs with
            | Some ros => Some (NewSession ros recordPath)
            | None => (fun d => NewSession d recordPath) <$> RecordStorage w
            end in
          if (0 <? MaxSessions w)
             && (MaxSessions w <=? Z.of_nat (size (rtmpConnections w)))
          then (None, w)
          else
            (* HTTP push mutates `profiles` so make a copy of it *)
            let '(copy, w) := slice_append w None (slice_elems w (rs_profiles rs)) in
            (Some {| p_ManifestID := mid; p_RtmpKey := key; p_Profiles := copy;
                     p_Resolution := ""; p_Format := FormatNone;
                     p_OS := oss; p_RecordOS := ross; p_Capabilities := None |}, w)
      end
  end.

(** ** registerConnection *)

Definition set_Resolution_Format (res : string) (f : Format) (p : StreamParameters)
    : StreamParameters :=
  {| p_ManifestID := p_ManifestID p; p_RtmpKey := p_RtmpKey p;
     p_Profiles := p_Profiles p; p_Resolution := res; p_Format := f;
     p_OS := p_OS p; p_RecordOS := p_RecordOS p;
     p_Capabilities := p_Capabilities p |}.

Definition set_OS_Capabilities (os : option OSSession) (caps : option Z)
    (p : StreamParameters) : StreamParameters :=
  {| p_ManifestID := p_ManifestID p; p_RtmpKey := p_RtmpKey p;
     p_Profiles := p_Profiles p; p_Resolution := p_Resolution p;
     p_Format := p_Format p;
     p_OS := os; p_RecordOS := p_RecordOS p; p_Capabilities := caps |}.

Definition NewBasicPlaylistManager (m : ManifestID) (storage : OSSession)
    (recordStorage : option OSSession) : PlaylistManager :=
  {| pl_mid := m; pl_os := storage; pl_recordOS := recordStorage;
     pl_cleaned := false |}.

Definition NewSessionManager (p : StreamParameters) : BroadcastSessionsManager :=
  {| sm_mid := p_ManifestID p; sm_cleaned := false |}.

(** The section of [registerConnection] under the write lock: the second
    check, and the insertion.  [a] is the connection just built. *)
Definition registerConnection_commit (w : World) (a : addr) (m : ManifestID)
    (hlsStrmID : StreamID) : option addr * option goerr * World :=
  match rtmpConnections w !! m with
  | Some oldCxn =>
      (Some oldCxn, Some errAlreadyExists,
       set_heap (alter cleanup_sessManager a (heap w)) w)
  | None =>
      (Some a, None,
       set_last m hlsStrmID
         (set_registry (<[m := a]> (rtmpConnections w)) (internalManifests w) w))
  end.

(** [registerConnection], run without another goroutine in between its
    two locked sections.  [appData] is [rtmpStrm.AppData()]; [None] there
    is app data of another type. *)
Definition registerConnection (w : World) (rtmpStrm : RTMPVideoStream)
    (appData : option StreamParameters) (nonce0 : Z) (now : Time)
    : option addr * option goerr * World :=
  match appData with
  | None => (None, Some errMismatchedParams, w)
  | Some params0 =>
      let m := p_ManifestID params0 in
      match NodeStorage w with
      | None => (None, Some errStorage, w)
      | Some nodeStorage =>
          let params1 :=
            if String.eqb (p_Resolution params0) ""
            then set_Resolution_Format
                   (itoa (strm_width rtmpStrm) +:+ "x" +:+ itoa (strm_height rtmpStrm))
                   (p_Format params0) params0
            else params0 in
          let storage :=
            match p_OS params1 with
            | Some os => os
            | None => NewSession nodeStorage m
            end in
          let params2 := set_OS_Capabilities (Some storage) (p_Capabilities params1) params1 in
          match JobCapabilities params2 (slice_elems w (p_Profiles params2)) with
          | inr err => (None, Some (errOther err), w)
          | inl caps =>
              let params3 := set_OS_Capabilities (p_OS params2) (Some caps) params2 in
              let recordStorage := p_RecordOS params3 in
              let vProfile :=
                {| Name := "source"; Bitrate := "4000k"; Framerate := 0;
                   FramerateDen := 0; Resolution := p_Resolution params3;
                   Profile := 0; GOP := 0; VFormat := p_Format params3 |} in
              let hlsStrmID := MakeStreamID m vProfile in
              (* fast path, under the read lock *)
              match rtmpConnections w !! m with
              | Some oldCxn => (Some oldCxn, Some errAlreadyExists, w)
              | None =>
                  let playlist := NewBasicPlaylistManager m storage recordStorage in
                  let cxn :=
                    {| mid := m; nonce := nonce0; stream := rtmpStrm;
                       pl := Some playlist; profile := vProfile; params := params3;
                       sessManager := NewSessionManager params3;
                       lastUsed := now; sourceBytes := 0; transcodedBytes := 0 |} in
                  let a := length (heap w) in
                  registerConnection_commit (set_heap (heap w ++ [cxn]) w) a m hlsStrmID
              end
          end
      end
  end.

(** ** The two watchdogs *)

(** One tick of the kicker of [HandlePush]: under the lock, look the
    connection up by identity and set its [lastUsed]. *)
Definition kicker_tick (w : World) (m : ManifestID) (now : Time) : outcome unit :=
  match rtmpConnections w !! m with
  | Some a =>
      match heap w !! a with
      | Some cxn => Ok tt (set_heap (<[a := set_lastUsed now cxn]> (heap w)) w)
      | None => Panicked w
      end
  | None => Ok tt w
  end.

(** What the [select] of the kicker receives. *)
Inductive kickerEvent :=
| RequestEnded
| TickDone (now : Time).

Inductive kickerState :=
| KickerReturned
| KickerWaiting.

(** The kicker goroutine over the events it receives; beside its state
    it gives the timeout of each timer it armed with
    [httpPushResetTimer()], oldest first. *)
Fixpoint kicker (w : World) (m : ManifestID) (evs : list kickerEvent)
    : outcome (kickerState * list Duration) :=
  let timer := httpPushResetTimer w in
  match evs with
  | [] => Ok (KickerWaiting, [timer]) w
  | RequestEnded :: _ => Ok (KickerReturned, [timer]) w
  | TickDone now :: evs' =>
      match kicker_tick w m now with
      | Ok _ w' =>
          match kicker w' m evs' with
          | Ok (st, timers) w'' => Ok (st, timer :: timers) w''
          | Panicked w'' => Panicked w''
          end
      | Panicked w' => Panicked w'
      end
  end.

(** One tick of the reaper started for [(intmid, extmid)]; the boolean
    tells whether the goroutine returns.  [now] is the clock read by
    [time.Since]; a connection that is gone leaves the zero time, which
    is always too old. *)
Definition watchdog_tick (w : World) (intmid extmid : ManifestID) (now : Time)
    : outcome bool :=
  match
    match rtmpConnections w !! intmid with
    | Some a =>
        match heap w !! a with
        | Some cxn => Some (Some (lastUsed cxn))
        | None => None
        end
    | None => Some None
    end
  with
  | None => Panicked w
  | Some lastUsed0 =>
      if bool_decide (internalManifests w !! extmid = None)
         && negb (String.eqb intmid extmid)
      then Ok true w
      else
        let expired :=
          match lastUsed0 with
          | Some t => httpPushTimeout w <? now - t
          | None => true
          end in
        if expired then
          match removeRTMPStream w extmid with
          | Ok _ w' => Ok true w'
          | Panicked w' => Panicked w'
          end
        else Ok false w
  end.

(** ** HandlePush *)

Record Header := mkHeader {
  h_Accept : string;
  h_ContentDuration : string;
  h_ContentResolution : string;
}.

Record Request := mkRequest {
  Method : string;
  r_URL : URL;
  r_Host : string;
  r_Header : Header;
  r_Body : string + string;     (* ioutil.ReadAll: the bytes, or an error *)
}.

Record Part := mkPart {
  part_ContentType : string;
  part_ContentLength : string;
  part_ContentDisposition : string;
  part_RenditionName : string;
  part_body : string;
}.

Record Response := mkResponse {
  status : Z;
  resp_ContentType : string;
  resp_text : string;
  resp_parts : list Part;
  resp_closed : bool;     (* the closing boundary of the multipart body was sent *)
}.

Definition newline : string := String (ascii_of_nat 10) "".
Definition dquote : string := String (ascii_of_nat 34) "".

Definition http_Error (msg : string) (code : Z) : Response :=
  {| status := code; resp_ContentType := "text/plain; charset=utf-8";
     resp_text := msg +:+ newline; resp_parts := []; resp_closed := false |}.

Definition goerr_Error (e : goerr) : string :=
  match e with
  | errAlreadyExists => "StreamAlreadyExists"
  | errStorage => "ErrStorage"
  | errDiscovery => "ErrDiscovery"
  | errNoOrchs => "ErrNoOrchs"
  | errUnknownStream => "ErrUnknownStream"
  | errMismatchedParams => "Mismatched type for stream params"
  | errOther msg => msg
  end.

(** The loop that sets the output formats which are not given:
    [for i, v := range params.Profiles]. *)
Definition set_output_formats (w : World) (profiles : slice) (format : Format)
    : World :=
  foldl (fun w i =>
           match slice_elems w profiles !! i with
           | Some v =>
               if VFormat v =? FormatNone
               then slice_update w profiles i (set_VFormat format)
               else w
           | None => w
           end)
        w (seq 0 (length (slice_elems w profiles))).

(** [for k, v := range s.internalManifests] up to its [break]. *)
Definition find_oldStreamID (order : list (string * string)) (m : ManifestID)
    : ManifestID :=
  match List.find (fun kv => String.eqb (snd kv) m) order with
  | Some kv => fst kv
  | None => ""
  end.

(** [s.rtmpConnections[m] != nil]. *)
Definition has_connection (w : World) (m : ManifestID) : bool :=
  match rtmpConnections w !! m with
  | Some a => bool_decide (is_Some (heap w !! a))
  | None => false
  end.

(** Regardless of old or new cxn returned by [registerConnection],
    [HandlePush] sets the [internalManifests] mapping when the webhook
    provided a different manifest id; the result is the identity the
    request goes on with. *)
Definition rebindExternal (w : World) (cxn : addr) (mid0 : ManifestID)
    : outcome ManifestID :=
  match heap w !! cxn with
  | None => Panicked w
  | Some c =>
      if negb (String.eqb (mid c) mid0) then
        (* AuthWebhook provided different ManifestID *)
        Ok (mid c)
           (set_registry (rtmpConnections w)
              (<[mid0 := mid c]> (internalManifests w)) w)
      else Ok mid0 w
  end.

(** The check of [HandlePush] for a connection that exists already
    under the manifest id [m] of the new stream parameters, while the
    identity [mid0] of the request is not bound. *)
Definition HandlePush_collision (w : World) (env : PushEnv) (m mid0 : ManifestID)
    : outcome unit :=
  if negb (String.eqb mid0 m)
     && has_connection w m
     && String.eqb (default "" (internalManifests w !! mid0)) ""
  then
    (* Pre-existing connection found for this new stream with the same
       underlying manifestID *)
    let oldStreamID := find_oldStreamID (e_range env (internalManifests w)) m in
    if nonempty oldStreamID && negb (String.eqb mid0 oldStreamID)
    then
      (* Close the old connection, and open a new one *)
      match removeRTMPStream w oldStreamID with
      | Ok _ w' => Ok tt w'
      | Panicked w' => Panicked w'
      end
    else Ok tt w
  else Ok tt w.

(** [time.NewTicker] panics when its interval is not positive; the
    boolean tells whether it returns. *)
Definition time_NewTicker (d : Duration) : bool := 0 <? d.

(** The branch of [HandlePush] for a connection that does not exist yet:
    it gives the response of an early return, or the connection and the
    identity the request goes on with. *)
Definition HandlePush_register (w : World) (env : PushEnv) (url : URL)
    (hdr : Header) (format : Format) (mid0 : ManifestID)
    : outcome (Response + (addr * ManifestID)) :=
  match createRTMPStreamIDHandler w env url with
  | (None, w) =>
      Ok (inl (http_Error ("Could not create stream ID: url=" +:+ URL_String url) 500)) w
  | (Some params0, w) =>
      let params1 := set_Resolution_Format (h_ContentResolution hdr) format params0 in
      match HandlePush_collision w env (p_ManifestID params1) mid0 with
      | Panicked w => Panicked w
      | Ok _ w =>
          let st := {| strm_width := 0; strm_height := 0; strm_closed := false |} in
          (* Set output formats if not explicitly specified *)
          let w := set_output_formats w (p_Profiles params1) format in
          match registerConnection w st (Some params1) (e_nonce env) (e_regNow env) with
          | (cxn, Some err, w) =>
              match err, cxn with
              | errAlreadyExists, Some a =>
                  (* we continue with the old cxn *)
                  match rebindExternal w a mid0 with
                  | Ok m w => Ok (inr (a, m)) w
                  | Panicked w => Panicked w
                  end
              | errAlreadyExists, None => Panicked w
              | _, _ =>
                  Ok (inl (http_Error ("http push error url=" +:+ URL_String url
                                       +:+ " err=" +:+ goerr_Error err) 500)) w
              end
          | (None, None, w) => Panicked w
          | (Some a, None, w) =>
              (* Start a watchdog to remove session after a period of inactivity *)
              if negb (time_NewTicker (httpPushTimeout w)) then Panicked w
              else
                match heap w !! a with
                | None => Panicked w
                | Some c =>
                    let w := add_watchdog (mid c, mid0) w in
                    match rebindExternal w a mid0 with
                    | Ok m w => Ok (inr (a, m)) w
                    | Panicked w => Panicked w
                    end
                end
          end
      end
  end.

(** *** The multipart responder *)

Inductive loop_exit :=
| LoopEnd       (* the range is exhausted, err is nil *)
| LoopBreak     (* left by [break], err is not nil *)
| LoopPanic.    (* index out of range *)

Definition part_of (typ ext : string) (len : nat) (profile0 : string) (seq0 : Z)
    (body : string) : Part :=
  let fname := dquote +:+ profile0 +:+ "_" +:+ itoa seq0 +:+ ext +:+ dquote in
  {| part_ContentType := typ +:+ "; name=" +:+ fname;
     part_ContentLength := itoa (Z.of_nat len);
     part_ContentDisposition := "attachment; filename=" +:+ fname;
     part_RenditionName := profile0;
     part_body := body |}.

(** The loop [for i, url := range urls] of the responder, from index
    [i] on; [items] pairs each remaining url with [renditionData] at its
    index.  It gives the parts written in full and how the loop ended. *)
Fixpoint write_parts (Profiles : list VideoProfile) (seq0 : Z) (env : PushEnv)
    (i : nat) (items : list (string * string)) : list Part * loop_exit :=
  match items with
  | [] => ([], LoopEnd)
  | (url, data) :: rest =>
      let length0 := String.length data in
      match
        if (length0 =? 0)%nat
        then Some (inl ("application/vnd+livepeer.uri", ".txt", String.length url))
        else
          match Profiles !! i with
          | None => None
          | Some p =>
              let format := VFormat p in
              match ProfileFormatExtension format with
              | inr _ => Some (inr tt)
              | inl ext =>
                  let typ :=
                    match ProfileFormatMimeType format with
                    | inl t => t
                    | inr _ => ""
                    end in
                  Some (inl (typ, ext, length0))
              end
          end
      with
      | None => ([], LoopPanic)
      | Some (inr _) => ([], LoopBreak)
      | Some (inl (typ, ext, len)) =>
          match Profiles !! i with
          | None => ([], LoopPanic)
          | Some p =>
              let profile0 := Name p in
              if e_createPartErr env i then ([], LoopBreak)
              else
                let body := if (0 <? String.length data)%nat then data else url in
                if e_writeErr env i then ([], LoopBreak)
                else
                  let '(parts, ex) := write_parts Profiles seq0 env (S i) rest in
                  (part_of typ ext len profile0 seq0 body :: parts, ex)
          end
      end
  end.

(** [renditionData]: what the in-memory session of the connection holds
    for each url; nothing when the session is of another driver. *)
Definition renditionData (memOS : bool) (env : PushEnv) (urls : list string)
    : list string :=
  (fun fname => if memOS then default "" (e_GetData env fname) else "") <$> urls.

(** The end of [HandlePush], from [renditionData := make(...)] on. *)
Definition respond (w : World) (env : PushEnv) (accept : string) (seq0 : Z)
    (cxn : addr) (urls : list string) : outcome Response :=
  match heap w !! cxn with
  | None => Panicked w
  | Some c =>
      match pl c with
      | None => Panicked w
      | Some playlist =>
          let memOS := drv_memory (oss_driver (pl_os playlist)) in
          let data := renditionData memOS env urls in
          if negb (String.eqb accept "multipart/mixed") then
            Ok {| status := 200; resp_ContentType := ""; resp_text := "";
                  resp_parts := []; resp_closed := false |} w
          else
            let contentType := "multipart/mixed; boundary=" +:+ e_boundary env in
            match write_parts (slice_elems w (p_Profiles (params c))) seq0 env 0
                              (zip urls data) with
            | (parts, LoopPanic) => Panicked w
            | (parts, LoopBreak) =>
                Ok {| status := 200; resp_ContentType := contentType; resp_text := "";
                      resp_parts := parts; resp_closed := false |} w
            | (parts, LoopEnd) =>
                Ok {| status := 200; resp_ContentType := contentType; resp_text := "";
                      resp_parts := parts; resp_closed := negb (e_closeErr env) |} w
            end
      end
  end.

(** The result of a handler that returns without writing: net/http
    answers 200 with an empty body. *)
Definition silent : Response :=
  {| status := 200; resp_ContentType := ""; resp_text := "";
     resp_parts := []; resp_closed := false |}.

(** Modelled from the spec: [processSegment] is not among the sources.
    Given a connection and a segment it returns the urls of the
    renditions or an error, and it adds to the two byte counters of the
    connection, as the tests of the server observe; the result and the
    amounts come from outside.  It works on the connection it is given,
    so that a nil connection is a panic. *)
Definition processSegment (w : World) (env : PushEnv) (cxn : addr) (seg : HLSSegment)
    : outcome (list string + string) :=
  match heap w !! cxn with
  | None => Panicked w
  | Some c =>
      let '(sb, tb) := e_processBytes env cxn seg in
      Ok (e_processSegment env cxn seg)
         (set_heap (<[cxn := add_bytes sb tb c]> (heap w)) w)
  end.

(** From the segment on: the kicker runs while [processSegment] does. *)
Definition HandlePush_process (w : World) (env : PushEnv) (r : Request)
    (url : URL) (ext : string) (body : string) (cxn : addr) (m : ManifestID)
    : outcome Response :=
  let fname := path_Base (Path url) in
  let seq0 :=
    match strconv_ParseUint (strings_TrimSuffix fname ext) with
    | Some n => n
    | None => 0
    end in
  let duration :=
    match strconv_Atoi (h_ContentDuration (r_Header r)) with
    | Some d => d
    | None => 2000
    end in
  let seg := {| seg_Data := body; seg_Name := fname; seg_SeqNo := seq0;
                seg_DurationMs := duration |} in
  (* Kick watchdog periodically so session doesn't time out during long transcodes *)
  match kicker w m ((TickDone <$> e_kicks env) ++ [RequestEnded]) with
  | Panicked w => Panicked w
  | Ok _ w =>
      (* Do the transcoding! *)
      match processSegment w env cxn seg with
      | Panicked w => Panicked w
      | Ok (inr err) w =>
          Ok (http_Error ("http push error processing segment url=" +:+ URL_String url
                          +:+ " manifestID=" +:+ m +:+ " err=" +:+ err) 500) w
      | Ok (inl urls) w =>
          if e_ctxDone env then Ok silent w
          else if (length urls =? 0)%nat then
            Ok (http_Error "No sessions available" 503) w
          else respond w env (h_Accept (r_Header r)) seq0 cxn urls
      end
  end.

Definition HandlePush (w : World) (env : PushEnv) (r : Request) : outcome Response :=
  if negb (String.eqb (Method r) "POST") && negb (String.eqb (Method r) "PUT") then
    Ok (http_Error ("http push request wrong method=" +:+ Method r +:+ " url="
                    +:+ URL_String (r_URL r) +:+ " host=" +:+ r_Host r) 405) w
  else
    match r_Body r with
    | inr err => Ok (http_Error ("Error reading http request body: " +:+ err) 500) w
    | inl body =>
        let url := {| Scheme := "http"; Opaque := ""; Host := r_Host r;
                      Path := Path (r_URL r); RawQuery := ""; Fragment := "" |} in
        (* Determine the input format the request is claiming to have *)
        let ext := path_Ext (Path url) in
        let format := ProfileExtensionFormat ext in
        if FormatNone =? format then
          Ok (http_Error ("ignoring file extension: " +:+ ext) 400) w
        else
          let now := e_now env in
          let mid0 := parseManifestID (Path url) in
          if String.eqb mid0 "" then
            Ok (http_Error ("Bad URL url=" +:+ URL_String url) 400) w
          else
            let mid1 := resolve w mid0 in
            match rtmpConnections w !! mid1 with
            | Some cxn =>
                let w := set_heap (alter (set_lastUsed now) cxn (heap w)) w in
                HandlePush_process w env r url ext body cxn mid1
            | None =>
                (* Check for presence and register if a fresh cxn *)
                match HandlePush_register w env url (r_Header r) format mid1 with
                | Panicked w => Panicked w
                | Ok (inl resp) w => Ok resp w
                | Ok (inr (cxn, mid2)) w =>
                    HandlePush_process w env r url ext body cxn mid2
                end
            end
    end.

(** The request with another URL. *)
Definition with_URL (u : URL) (r : Request) : Request :=
  {| Method := Method r; r_URL := u; r_Host := r_Host r;
     r_Header := r_Header r; r_Body := r_Body r |}.

(** ** Runs *)

Definition world_of {A : Type} (o : outcome A) : World :=
  match o with
  | Ok _ w => w
  | Panicked w => w
  end.

(** A sequence of push requests, one after the other. *)
Definition pushes (w : World) (reqs : list (PushEnv * Request)) : World :=
  foldl (fun w er => world_of (HandlePush w (fst er) (snd er))) w reqs.

(** The operations on the registry. *)
Inductive RegistryOp :=
| OpRegister (rtmpStrm : RTMPVideoStream) (appData : option StreamParameters)
             (nonce0 : Z) (now : Time)
| OpRemove (extmid : ManifestID)
| OpRebind (cxn : addr) (extmid : ManifestID).

Definition run_op (w : World) (op : RegistryOp) : World :=
  match op with
  | OpRegister rtmpStrm appData nonce0 now =>
      snd (registerConnection w rtmpStrm appData nonce0 now)
  | OpRemove extmid => world_of (removeRTMPStream w extmid)
  | OpRebind cxn extmid => world_of (rebindExternal w cxn extmid)
  end.

Definition run_ops (w : World) (ops : list RegistryOp) : World :=
  foldl run_op w ops.

(** Every external identity refers to a registered internal one. *)
Definition registry_inv (w : World) : Prop :=
  forall e i, internalManifests w !! e = Some i -> is_Some (rtmpConnections w !! i).

(** [extmid] is the only external identity bound to the internal
    identity that [removeRTMPStream w extmid] ends. *)
Definition sole_referrer (w : World) (extmid : ManifestID) : Prop :=
  forall e, internalManifests w !! e = Some (resolve w extmid) -> e = extmid.

(** The connection of a rebind is a registered one, as the pointer that
    [registerConnection] returns is. *)
Definition registered (w : World) (cxn : addr) : Prop :=
  forall c, heap w !! cxn = Some c -> is_Some (rtmpConnections w !! mid c).

Definition op_guard (w : World) (op : RegistryOp) : Prop :=
  match op with
  | OpRegister _ _ _ _ => True
  | OpRemove extmid => sole_referrer w extmid
  | OpRebind cxn _ => registered w cxn
  end.

Fixpoint ops_guard (w : World) (ops : list RegistryOp) : Prop :=
  match ops with
  | [] => True
  | op :: ops' => op_guard w op /\ ops_guard (run_op w op) ops'
  end.


(** No nil pointer in the registry. *)
Definition connections_allocated (w : World) : Prop :=
  forall m a, rtmpConnections w !! m = Some a -> is_Some (heap w !! a).

(** The backing array of the default profiles exists. *)
Definition defaults_allocated (w : World) : Prop :=
  match BroadcastJobVideoProfiles w with
  | Some r => (r < length (arrays w))%nat
  | None => True
  end.

End Server.

(** ** A concrete instance of the external functions

    Enough of each function to run the server on the requests of the
    test suite: identifiers and paths without characters that need
    escaping, and webhook answers that carry a manifest id only. *)
Module Std.

(** [s] between double quotes. *)
Definition quoted (s : string) : string := dquote +:+ s +:+ dquote.

(** [json.Marshal] of a map of strings, for keys and values that need
    no escaping. *)
Definition marshal (values : list (string * string)) : string :=
  "{" +:+ String.concat ","
            ((fun kv => quoted (fst kv) +:+ ":" +:+ quoted (snd kv)) <$> values)
      +:+ "}".

(** [s] without the prefix [pre], when it has it. *)
Definition strip_string_prefix (pre s : string) : option string :=
  String.string_of_list_ascii <$>
    strip_prefix (String.list_ascii_of_string pre) (String.list_ascii_of_string s).

(** Decodes a document with the one field manifestID. *)
Definition unmarshal (body : string) : authWebhookResponse + string :=
  match strip_string_prefix ("{" +:+ quoted "manifestID" +:+ ":" +:+ dquote) body with
  | Some rest =>
      let m := strings_TrimSuffix rest (dquote +:+ "}") in
      if (String.length m <? String.length rest)%nat then
        inl {| r_ManifestID := m; r_StreamKey := ""; r_Presets := [];
               r_ObjectStore := ""; r_RecordObjectStore := "";
               r_RecordObjectStoreURL := ""; r_Profiles := [];
               r_PreviousSessions := [] |}
      else inr "unexpected end of JSON input"
  | None => inr "invalid character"
  end.

(** The match of [^[ /]*]: leading spaces and slashes. *)
Fixpoint strip_lead (l : list ascii) : list ascii :=
  match l with
  | c :: l' =>
      if Ascii.eqb c slash || Ascii.eqb c " "%char then strip_lead l' else l
  | [] => []
  end.

(** Every occurrence of [live/] removed, from left to right. *)
Fixpoint remove_live (fuel : nat) (l : list ascii) : list ascii :=
  match fuel with
  | O => l
  | S fuel' =>
      match strip_prefix (String.list_ascii_of_string "live/") l with
      | Some rest => remove_live fuel' rest
      | None =>
          match l with
          | c :: l' => c :: remove_live fuel' l'
          | [] => []
          end
      end
  end.

(** The replacement of every match of [^[ /]*(stream/)?|(live/)?] by the
    empty string. *)
Definition stream_prefix_replace (reqPath : string) : string :=
  let l := String.list_ascii_of_string reqPath in
  let l1 := strip_lead l in
  let l2 :=
    match strip_prefix (String.list_ascii_of_string "stream/") l1 with
    | Some rest => rest
    | None => l1
    end in
  String.string_of_list_ascii
    (if (length l2 <? length l)%nat then remove_live (length l2) l2
     else
       match l2 with
       | c :: l' => c :: remove_live (length l') l'
       | [] => []
       end).

(** The list before the first slash, and the list after it. *)
Fixpoint split_slash (l acc : list ascii) : list ascii * list ascii :=
  match l with
  | [] => (rev acc, [])
  | c :: l' => if Ascii.eqb c slash then (rev acc, l') else split_slash l' (c :: acc)
  end.

(** Modelled from the spec: [core.SplitStreamIDString] is not among the
    sources; a path [<manifestID>/<rest>] gives the manifest id and the
    rest as rendition. *)
Definition split_stream_id (str : string) : StreamID :=
  let '(a, b) := split_slash (String.list_ascii_of_string str) [] in
  {| sid_ManifestID := String.string_of_list_ascii a;
     sid_Rendition := String.string_of_list_ascii b |}.

(** Modelled from the spec: [common.ProfileExtensionFormat] is not among
    the sources; [.ts] is MPEG-TS, [.mp4] is MP4, any other extension is
    [FormatNone]. *)
Definition extension_format (ext : string) : Format :=
  if String.eqb ext ".ts" then FormatMPEGTS
  else if String.eqb ext ".mp4" then FormatMP4
  else FormatNone.

(** Modelled from the spec: [common.ProfileFormatExtension] is not among
    the sources; binary parts are [.ts] or [.mp4], and a profile without
    format is sent as [.ts], as in the multipart test of the suite. *)
Definition format_extension (f : Format) : string + string :=
  if (f =? FormatNone) || (f =? FormatMPEGTS) then inl ".ts"
  else if f =? FormatMP4 then inl ".mp4"
  else inr "unknown VideoProfile format for extension".

(** Modelled from the spec: [common.ProfileFormatMimeType] is not among
    the sources; [video/mp2t] goes with [.ts] and [video/mp4] with
    [.mp4]. *)
Definition format_mime (f : Format) : string + string :=
  match format_extension f with
  | inl ext => if String.eqb ext ".ts" then inl "video/mp2t" else inl "video/mp4"
  | inr e => inr e
  end.

(** A preset of the transcoding library: a name, a bitrate, a
    resolution and a frame rate, and no format. *)
Definition preset (name bitrate res : string) (fps : Z) : VideoProfile :=
  {| Name := name; Bitrate := bitrate; Framerate := fps; FramerateDen := 0;
     Resolution := res; Profile := 0; GOP := 0; VFormat := FormatNone |}.

Definition P144p30fps16x9 := preset "P144p30fps16x9" "400k" "256x144" 30.
Definition P144p25fps16x9 := preset "P144p25fps16x9" "400k" "256x144" 25.
Definition P240p30fps4x3 := preset "P240p30fps4x3" "600k" "320x240" 30.
Definition P360p30fps16x9 := preset "P360p30fps16x9" "1200k" "640x360" 30.
Definition P720p25fps16x9 := preset "P720p25fps16x9" "3500k" "1280x720" 25.

(** [ffmpeg.VideoProfileLookup], on the presets above. *)
Definition lookup_preset (name : string) : option VideoProfile :=
  List.find (fun p => String.eqb (Name p) name)
    [P144p30fps16x9; P144p25fps16x9; P240p30fps4x3; P360p30fps16x9; P720p25fps16x9].

(** A stand-in for [common.EncoderProfileNameToValue], which is not
    among the sources.  The webhook answers below carry no profile, so
    nothing that is computed with this instance depends on it. *)
Definition encoder_profile (name : string) : Z + string :=
  if String.eqb name "" || String.eqb name "none" then inl 0
  else if String.eqb name "h264baseline" then inl 1
  else if String.eqb name "h264main" then inl 2
  else if String.eqb name "h264high" then inl 3
  else if String.eqb name "h264constrainedhigh" then inl 4
  else inr "Unknown encoder profile".

(** A stand-in for [drivers.ParseOSURL], which is not among the
    sources.  The webhook answers below name no object store, so
    nothing that is computed with this instance depends on it. *)
Definition parse_os_url (s : string) (useFullAPI : bool) : OSDriver + string :=
  match strip_string_prefix "memory://" s with
  | Some _ => inl {| drv_uri := s; drv_memory := true |}
  | None => inr "unrecognized OS scheme"
  end.

(** [strconv.ParseFloat], on decimal integers and on the names of the
    values that are no numbers. *)
Definition parse_float (s : string) : float64 + string :=
  if String.eqb s "NaN" then inl NaN
  else if String.eqb s "Inf" || String.eqb s "+Inf" then inl (Infinity false)
  else if String.eqb s "-Inf" then inl (Infinity true)
  else
    match strconv_Atoi s with
    | Some n => inl (float64_of_int64 n)
    | None => inr "invalid syntax"
    end.

(** The instance.  Modelled from the spec: [core.MakeStreamID],
    [common.DefaultProfileName], [core.JobCapabilities] and the node id
    are not among the sources; a stream id is the manifest id with the
    name of the profile, a profile without name is called after its
    size and bitrate, and the capabilities of a stream are always
    found. *)
#[export] Instance externals : Externals := {|
  json_Marshal := marshal;
  json_Unmarshal := unmarshal;
  url_escapeHost := fun h => h;
  url_EscapedPath := fun p => p;
  url_EscapedFragment := fun f => f;
  StreamPrefix_ReplaceAllString := stream_prefix_replace;
  strconv_ParseFloat := parse_float;
  strings_TrimSpace := fun s => s;
  VideoProfileLookup := lookup_preset;
  GOPIntraOnly := -1;
  SplitStreamIDString := split_stream_id;
  MakeStreamID := fun m p => {| sid_ManifestID := m; sid_Rendition := Name p |};
  ProfileExtensionFormat := extension_format;
  ProfileFormatExtension := format_extension;
  ProfileFormatMimeType := format_mime;
  EncoderProfileNameToValue := encoder_profile;
  DefaultProfileName := fun w h b => itoa w +:+ "x" +:+ itoa h +:+ "_" +:+ itoa b;
  ParseOSURL := parse_os_url;
  JobCapabilities := fun _ _ => inl 0;
  NodeID := "testNode";
|}.

(** The server of the test suite: no connection, the default profiles
    of the package, a memory driver as node storage. *)
Definition setupServer : World :=
  {| rtmpConnections := ∅; internalManifests := ∅;
     lastHLSStreamID := {| sid_ManifestID := ""; sid_Rendition := "" |};
     lastManifestID := "";
     heap := [];
     arrays := [[P240p30fps4x3; P360p30fps16x9]];
     BroadcastJobVideoProfiles := Some 0%nat;
     AuthWebhookURL := "";
     httpPushTimeout := 60 * time_Second;
     NodeStorage := Some {| drv_uri := "memory://"; drv_memory := true |};
     RecordStorage := None;
     MaxSessions := 10;
     watchdogs := []; posts := [] |}.

Definition with_webhook (endpoint : string) (w : World) : World :=
  {| rtmpConnections := rtmpConnections w; internalManifests := internalManifests w;
     lastHLSStreamID := lastHLSStreamID w; lastManifestID := lastManifestID w;
     heap := heap w; arrays := arrays w;
     BroadcastJobVideoProfiles := BroadcastJobVideoProfiles w;
     AuthWebhookURL := endpoint; httpPushTimeout := httpPushTimeout w;
     NodeStorage := NodeStorage w; RecordStorage := RecordStorage w;
     MaxSessions := MaxSessions w; watchdogs := watchdogs w; posts := posts w |}.

(** A quiet environment: the pool of orchestrators is empty, the
    webhook is the one given, nothing fails. *)
Definition env0 (post : string -> PostOutcome) (now : Time) (nonce0 : Z) : PushEnv :=
  {| e_now := now; e_post := post;
     e_RandomManifestID := "random"; e_RandomKey := "key";
     e_nonce := nonce0; e_regNow := now;
     e_range := map_to_list;
     e_kicks := [];
     e_processSegment := fun _ _ => inl [];
     e_processBytes := fun _ seg => (Z.of_nat (String.length (seg_Data seg)), 0);
     e_ctxDone := false;
     e_GetData := fun _ => None;
     e_boundary := "boundary";
     e_createPartErr := fun _ => false;
     e_writeErr := fun _ => false;
     e_closeErr := false |}.

Definition push (target : string) : Request :=
  {| Method := "POST";
     r_URL := {| Scheme := ""; Opaque := ""; Host := ""; Path := target;
                 RawQuery := ""; Fragment := "" |};
     r_Host := "example.com";
     r_Header := {| h_Accept := ""; h_ContentDuration := "";
                    h_ContentResolution := "" |};
     r_Body := inl "" |}.

(** A webhook that always answers with the manifest id [m]. *)
Definition hook (m : string) (body : string) : PostOutcome :=
  PostResponse 200 ("{" +:+ quoted "manifestID" +:+ ":" +:+ quoted m +:+ "}").

(** The requests of the test of two external identities for one
    internal identity: the webhook answers intmid to both. *)
Definition hooked : World := with_webhook "http://hook" setupServer.
Definition env1 : PushEnv := env0 (hook "intmid") 100 7.
Definition env2 : PushEnv := env0 (hook "intmid") 200 8.
Definition after_extmid1 : World :=
  world_of (HandlePush hooked env1 (push "/live/extmid1/0.ts")).

(** The connection object at an address; the connection of no stream
    where there is none. *)
Definition no_connection : rtmpConnection :=
  {| mid := ""; nonce := 0;
     stream := {| strm_width := 0; strm_height := 0; strm_closed := true |};
     pl := None; profile := preset "" "" "" 0;
     params := {| p_ManifestID := ""; p_RtmpKey := ""; p_Profiles := None;
                  p_Resolution := ""; p_Format := FormatNone; p_OS := None;
                  p_RecordOS := None; p_Capabilities := None |};
     sessManager := {| sm_mid := ""; sm_cleaned := true |};
     lastUsed := 0; sourceBytes := 0; transcodedBytes := 0 |}.

Definition conn_at (w : World) (a : addr) : rtmpConnection :=
  default no_connection (heap w !! a).

(** A push that asks for a multipart answer, and a pipeline that
    returns the given urls and has stored a payload for the first of
    them. *)
Definition push_multipart (target : string) : Request :=
  {| Method := "POST";
     r_URL := {| Scheme := ""; Opaque := ""; Host := ""; Path := target;
                 RawQuery := "x=1"; Fragment := "" |};
     r_Host := "example.com";
     r_Header := {| h_Accept := "multipart/mixed"; h_ContentDuration := "";
                    h_ContentResolution := "" |};
     r_Body := inl "InsteadOf.TS" |}.

Definition env_transcoded (urls : list string) : PushEnv :=
  {| e_now := 100; e_post := fun _ => PostError "no webhook";
     e_RandomManifestID := "random"; e_RandomKey := "key";
     e_nonce := 7; e_regNow := 100;
     e_range := map_to_list;
     e_kicks := [130; 160];
     e_processSegment := fun _ _ => inl urls;
     e_processBytes := fun _ seg => (Z.of_nat (String.length (seg_Data seg)), 22);
     e_ctxDone := false;
     e_GetData := fun fname =>
       if String.eqb fname "https://stub/transcoded/a.ts"
       then Some "transcoded binary data" else None;
     e_boundary := "boundary";
     e_createPartErr := fun _ => false;
     e_writeErr := fun _ => false;
     e_closeErr := false |}.

Definition two_urls : list string :=
  ["https://stub/transcoded/a.ts"; "https://stub/transcoded/b.ts"].

Definition three_urls : list string :=
  two_urls ++ ["https://stub/transcoded/c.ts"].

(** The parameters of a stream that comes without webhook. *)
Definition params_of (m : ManifestID) : StreamParameters :=
  {| p_ManifestID := m; p_RtmpKey := "key"; p_Profiles := None;
     p_Resolution := ""; p_Format := FormatMPEGTS; p_OS := None;
     p_RecordOS := None; p_Capabilities := None |}.

Definition basic_stream : RTMPVideoStream :=
  {| strm_width := 0; strm_height := 0; strm_closed := false |}.

(** The pushes of the test of the profile formats, without webhook. *)
Definition no_hook (body : string) : PostOutcome := PostError "no webhook".

Definition three_pushes : list (PushEnv * Request) :=
  [(env0 no_hook 100 7, push "/live/seg/0.ts");
   (env0 no_hook 200 8, push "/live/seg/1.ts");
   (env0 no_hook 300 9, push "/live/new/0.mp4")].

Definition after_mp4 : World :=
  world_of (HandlePush setupServer (env0 no_hook 300 9) (push "/live/new/0.mp4")).

(** A multipart push for a new stream, and what it gives. *)
Definition multipart_result : outcome Response :=
  HandlePush setupServer (env_transcoded two_urls) (push_multipart "/live/mani/17.ts").

Definition multipart_response : Response :=
  match multipart_result with
  | Ok resp _ => resp
  | Panicked _ => silent
  end.

Definition after_mani : World := world_of multipart_result.

End Std.

(** * Vocabulary of the properties *)

Section Vocabulary.

Context `{X : Externals}.

Local Open Scope list_scope.

(** [authenticateStream] has returned an error. *)
Definition auth_failed (r : (option authWebhookResponse + string) * World) : Prop :=
  match fst r with
  | inr _ => True
  | inl _ => False
  end.

(** The four ways the webhook's answer is turned down. *)
Definition webhook_denies (o : PostOutcome) : Prop :=
  match o with
  | PostError _ => True
  | PostResponse StatusCode rbody =>
      StatusCode <> 200
      \/ (rbody <> ""
          /\ match json_Unmarshal rbody with
             | inr _ => True
             | inl authResp => r_ManifestID authResp = ""
             end)
  end.

(** The body of the part for a url whose rendition data is [data]. *)
Definition body_of (item : string * string) : string :=
  if (0 <? String.length (snd item))%nat then snd item else fst item.

(** What the part of a url carries: the payload that the in-memory
    session holds for it when there is one and it is not empty, the url
    itself otherwise. *)
Definition payload_or_uri (memOS : bool) (env : PushEnv) (url : string) : string :=
  match (if memOS then e_GetData env url else None) with
  | Some data => if nonempty data then data else url
  | None => url
  end.

(** The part that the responder writes at an index whose profile is
    [p]: a URI reference named after [p], or a binary part whose type
    and extension come from the format of [p]. *)
Definition part_at (p : VideoProfile) (seq0 : Z) (item : string * string)
    (part : Part) : Prop :=
  if (String.length (snd item) =? 0)%nat then
    part = part_of "application/vnd+livepeer.uri" ".txt" (String.length (fst item))
                   (Name p) seq0 (fst item)
  else
    exists ext,
      ProfileFormatExtension (VFormat p) = inl ext
      /\ part = part_of (match ProfileFormatMimeType (VFormat p) with
                         | inl t => t
                         | inr _ => ""
                         end)
                        ext (String.length (snd item)) (Name p) seq0 (snd item).

(** The package-level configuration is the same in both worlds. *)
Definition config_eq (w w' : World) : Prop :=
  BroadcastJobVideoProfiles w' = BroadcastJobVideoProfiles w
  /\ AuthWebhookURL w' = AuthWebhookURL w
  /\ httpPushTimeout w' = httpPushTimeout w
  /\ NodeStorage w' = NodeStorage w
  /\ RecordStorage w' = RecordStorage w
  /\ MaxSessions w' = MaxSessions w.

(** The registry and the connection objects are the same. *)
Definition registry_eq (w w' : World) : Prop :=
  rtmpConnections w' = rtmpConnections w
  /\ internalManifests w' = internalManifests w
  /\ heap w' = heap w
  /\ lastHLSStreamID w' = lastHLSStreamID w
  /\ lastManifestID w' = lastManifestID w
  /\ watchdogs w' = watchdogs w.

(** Backing arrays are only added: those that exist keep their
    elements. *)
Definition arrays_grow (w w' : World) : Prop :=
  forall r, (r < length (arrays w))%nat -> arrays w' !! r = arrays w !! r.

(** The profiles of fresh stream parameters live in an array of their
    own, allocated by the handler. *)
Definition fresh_profiles (w w' : World) (params0 : StreamParameters) : Prop :=
  match p_Profiles params0 with
  | None => True
  | Some r => (length (arrays w) <= r < length (arrays w'))%nat
  end.

(** A profile after the loop over [params.Profiles]. *)
Definition fill_format (format : Z) (p : VideoProfile) : VideoProfile :=
  if VFormat p =? FormatNone then set_VFormat format p else p.

(** The connection object that a successful registration builds. *)
Definition built_from (params0 : StreamParameters) (rtmpStrm : RTMPVideoStream)
    (nonce0 now : Z) (c : rtmpConnection) : Prop :=
  mid c = p_ManifestID params0
  /\ nonce c = nonce0
  /\ stream c = rtmpStrm
  /\ (exists p, pl c = Some p /\ pl_cleaned p = false)
  /\ Name (profile c) = "source"
  /\ VFormat (profile c) = p_Format params0
  /\ p_Profiles (params c) = p_Profiles params0
  /\ p_Format (params c) = p_Format params0
  /\ sm_cleaned (sessManager c) = false
  /\ lastUsed c = now.

(** Two connection objects that differ in [lastUsed] and in the two
    byte counters only. *)
Definition same_connection (c c' : rtmpConnection) : Prop :=
  mid c' = mid c /\ nonce c' = nonce c /\ stream c' = stream c /\ pl c' = pl c
  /\ profile c' = profile c /\ params c' = params c
  /\ sessManager c' = sessManager c.

(** Two worlds that differ in the [lastUsed] and the byte counters of
    connections only. *)
Definition only_usage (w w' : World) : Prop :=
  config_eq w w' /\ arrays w' = arrays w /\ posts w' = posts w
  /\ rtmpConnections w' = rtmpConnections w
  /\ internalManifests w' = internalManifests w
  /\ watchdogs w' = watchdogs w
  /\ length (heap w') = length (heap w)
  /\ forall a c, heap w !! a = Some c ->
       exists c', heap w' !! a = Some c' /\ same_connection c c'.

(** The segment that [HandlePush] makes of a request whose body is
    [body]. *)
Definition segment_of (r : Request) (body : string) : HLSSegment :=
  let fname := path_Base (Path (r_URL r)) in
  {| seg_Data := body; seg_Name := fname;
     seg_SeqNo :=
       default 0 (strconv_ParseUint
                    (strings_TrimSuffix fname (path_Ext (Path (r_URL r)))));
     seg_DurationMs := default 2000 (strconv_Atoi (h_ContentDuration (r_Header r))) |}.

(** The webhook is sent at most one request, and its body is the
    marshalled map with the one key url. *)
Definition posts_at_most (w w' : World) (url : string) : Prop :=
  posts w' = posts w
  \/ posts w' = posts w ++ [(AuthWebhookURL w, json_Marshal [("url", url)])].

(** Configuration kept, arrays only added, one POST at most. *)
Definition push_frame (w w' : World) (url : string) : Prop :=
  config_eq w w' /\ arrays_grow w w' /\ posts_at_most w w' url.

(** What holds of a connection that a push has created: it is
    registered under its manifest id, its source profile has the format
    of the request, and its profile list is the list that the stream-id
    handler resolved, with the format filled in where there was none. *)
Definition created_by (w' : World) (env : PushEnv) (format : Z)
    (resolved0 : list VideoProfile) (a : nat) (c : rtmpConnection) : Prop :=
  rtmpConnections w' !! mid c = Some a
  /\ nonce c = e_nonce env
  /\ Name (profile c) = "source"
  /\ VFormat (profile c) = format
  /\ p_Format (params c) = format
  /\ slice_elems w' (p_Profiles (params c)) = fill_format format <$> resolved0.

(** What one call of [removeRTMPStream] does to the two maps: it
    deletes the connection of the identity it resolves to and the
    external entry of the identity it was given, both or none. *)
Definition removal_atomic (w : World) (extmid : ManifestID) : Prop :=
  match removeRTMPStream w extmid with
  | Ok None w' =>
      rtmpConnections w' = delete (resolve w extmid) (rtmpConnections w)
      /\ internalManifests w' = delete extmid (internalManifests w)
  | Ok (Some _) w' => w' = w
  | Panicked w' => w' = w
  end.

End Vocabulary.

(** * The RTMP and HLS handlers, the node status, the recordings and the
      construction of the server *)

(** [recordingsAuthResponses]: what the cache holds under a key, with
    the instant at which it expires. *)
Abbreviation AuthCache := (gmap string (authWebhookResponse * Time)) (only parsing).


(** ** Strings: [strings.Split], [strings.SplitN] and [strings.Contains] *)

Fixpoint split_at (sep : ascii) (l cur : list ascii) : list (list ascii) :=
  match l with
  | [] => [rev cur]
  | c :: l' =>
      if Ascii.eqb c sep then rev cur :: split_at sep l' []
      else split_at sep l' (c :: cur)
  end.

(** [strings.Split(s, sep)] for a separator of one byte: the pieces
    between the separators, one piece where there is none. *)
Definition strings_Split (s : string) (sep : ascii) : list string :=
  String.string_of_list_ascii <$> split_at sep (String.list_ascii_of_string s) [].

Fixpoint cut_at (sep : ascii) (l cur : list ascii) : list (list ascii) :=
  match l with
  | [] => [rev cur]
  | c :: l' =>
      if Ascii.eqb c sep then [rev cur; l'] else cut_at sep l' (c :: cur)
  end.

(** [strings.SplitN(s, sep, 2)] for a separator of one byte. *)
Definition strings_SplitN2 (s : string) (sep : ascii) : list string :=
  String.string_of_list_ascii <$> cut_at sep (String.list_ascii_of_string s) [].

Fixpoint has_infix (sub l : list ascii) : bool :=
  match l with
  | [] => bool_decide (sub = [])
  | _ :: l' =>
      match strip_prefix sub l with
      | Some _ => true
      | None => has_infix sub l'
      end
  end.

(** [strings.Contains]. *)
Definition strings_Contains (s substr : string) : bool :=
  has_infix (String.list_ascii_of_string substr) (String.list_ascii_of_string s).

(** ** Application data of a stream *)

(** [stream.AppData] is an interface; the server knows the values that
    are a [*core.StreamParameters]. *)
Inductive AppData :=
| AppParameters (p : StreamParameters)
| AppOther.

Definition streamParams (d : AppData) : option StreamParameters :=
  match d with
  | AppParameters p => Some p
  | AppOther => None
  end.

(** What a play handler gives: a value, [vidplayer.ErrNotFound], or the
    panic of a nil connection found in the registry. *)
Inductive played (A : Type) :=
| Play (a : A)
| ErrNotFound
| NilConnection.
Arguments Play {A} a.
Arguments ErrNotFound {A}.
Arguments NilConnection {A}.

(** The zero [time.Time]; instants are counted from it. *)
Definition time_zero : Time := 0.

Definition time_Hour : Duration := 3600 * 1000000000.

(** ** Listings of an object store *)

Record FileInfo := mkFileInfo {
  fi_Name : string;
  fi_LastModified : Time;
}.

(** [drivers.PageInfo]: the directories and files of a page; the page
    is the last one ([HasNextPage] is false), or [NextPage] gives the
    next page, or [NextPage] fails. *)
Inductive PageInfo :=
| LastPage (directories : list string) (files : list FileInfo)
| MorePages (directories : list string) (files : list FileInfo) (next : PageInfo)
| FailingPage (directories : list string) (files : list FileInfo) (err : string).

Definition Directories (p : PageInfo) : list string :=
  match p with
  | LastPage directories _ => directories
  | MorePages directories _ _ => directories
  | FailingPage directories _ _ => directories
  end.

Definition Files (p : PageInfo) : list FileInfo :=
  match p with
  | LastPage _ files => files
  | MorePages _ files _ => files
  | FailingPage _ files _ => files
  end.

(** What [getPlaylistsFromStore] accumulates. *)
Record PlaylistFiles := mkPlaylistFiles {
  filesMap : gmap string (list nat);
  jsonFiles : list string;
  latestPlaylistTime : Time;
}.

(** The body of [for _, plf := range playlistsNames]. *)
Definition add_playlist (manifestID : string) (st : PlaylistFiles) (plf : FileInfo)
    : PlaylistFiles :=
  {| latestPlaylistTime :=
       if latestPlaylistTime st <? fi_LastModified plf
       then fi_LastModified plf else latestPlaylistTime st;
     filesMap :=
       <[manifestID := (default [] (filesMap st !! manifestID) ++ [length (jsonFiles st)])%list]>
         (filesMap st);
     jsonFiles := (jsonFiles st ++ [fi_Name plf])%list |}.

(** The loop over the pages of one directory; an error comes with the
    latest time seen so far. *)
Fixpoint playlist_pages (manifestID : string) (dirOnePage : PageInfo)
    (st : PlaylistFiles) : PlaylistFiles + (Time * string) :=
  let playlistsNames := Files dirOnePage in
  let st := foldl (add_playlist manifestID) st playlistsNames in
  match dirOnePage with
  | LastPage _ _ => inl st
  | MorePages _ _ page => playlist_pages manifestID page st
  | FailingPage _ _ err => inr (latestPlaylistTime st, err)
  end.

(** [net.StreamInfo]. *)
Record NodeStreamInfo := mkStreamInfo {
  SourceBytes : Z;
  TranscodedBytes : Z;
}.

Inductive NodeType :=
| DefaultNode
| BroadcasterNode
| OrchestratorNode
| TranscoderNode
| RedeemerNode.

Definition is_broadcaster (t : NodeType) : bool :=
  match t with
  | BroadcasterNode => true
  | _ => false
  end.

(** [lpmscore.LPMSOpts], without the mux. *)
Record LPMSOpts := mkOpts {
  RtmpAddr : string;
  RtmpDisabled : bool;
  opts_WorkDir : string;
}.

(** The two handlers that the server registers on its mux. *)
Inductive MuxHandler :=
| HandlePushHandler
| HandleRecordingsHandler.

(** What [NewLivepeerServer] builds beside the registry. *)
Record LivepeerServer := mkServer {
  srv_opts : LPMSOpts;
  HTTPMux : list (string * MuxHandler);
}.

Definition set_BroadcastJobVideoProfiles (s : slice) (w : World) : World :=
  {| rtmpConnections := rtmpConnections w; internalManifests := internalManifests w;
     lastHLSStreamID := lastHLSStreamID w; lastManifestID := lastManifestID w;
     heap := heap w; arrays := arrays w;
     BroadcastJobVideoProfiles := s;
     AuthWebhookURL := AuthWebhookURL w; httpPushTimeout := httpPushTimeout w;
     NodeStorage := NodeStorage w; RecordStorage := RecordStorage w;
     MaxSessions := MaxSessions w; watchdogs := watchdogs w; posts := posts w |}.

(** A server that has just been made: empty maps, no last stream. *)
Definition new_registry (w : World) : World :=
  set_last "" {| sid_ManifestID := ""; sid_Rendition := "" |}
    (set_registry ∅ ∅ w).

(** What [sess.ReadData] gives. *)
Inductive ReadOutcome :=
| ReadCanceled                      (* err == context.Canceled *)
| ReadFailed (err : string)
| ReadFile (body : option string).  (* no error; [None] where fi or fi.Body is nil *)

(** The request of [HandleRecordings], as far as the handler reads it. *)
Record RecordingsRequest := mkRecordingsRequest {
  rq_Method : string;
  rq_Path : string;                        (* r.URL.Path *)
  rq_URL : string;                         (* r.URL.String(), Host and Scheme set *)
  rq_Query : gmap string (list string);    (* r.URL.Query() *)
}.

(** What one request for a recording meets from outside. *)
Record RecordingsEnv := mkRecordingsEnv {
  re_post : string -> PostOutcome;         (* http.Post to the webhook *)
  re_getNow : Time;                        (* the clock of the cache lookup *)
  re_setNow : Time;                        (* the clock of the cache insertion *)
  re_ReadData : OSSession -> string -> ReadOutcome;
  re_ListFiles : OSSession -> string -> string -> PageInfo + string;
  re_since : Time;                         (* the clock of time.Since(latestPlaylistTime) *)
}.

(** [cache.Get]: an item that has expired is not found. *)
Definition cache_Get (c : AuthCache) (k : string) (now : Time)
    : option authWebhookResponse :=
  match c !! k with
  | Some (resp, expiration) => if expiration <? now then None else Some resp
  | None => None
  end.

(** [cache.SetDefault], for the default expiration of one hour that the
    server gives its cache. *)
Definition cache_SetDefault (c : AuthCache) (k : string) (resp : authWebhookResponse)
    (now : Time) : AuthCache :=
  <[k := (resp, now + time_Hour)]> c.

(** [url.Values.Get]. *)
Definition Values_Get (v : gmap string (list string)) (key : string) : string :=
  match v !! key with
  | Some (x :: _) => x
  | _ => ""
  end.

(** Where [HandleRecordings] stands when it has found playlist files. *)
Record RecordingsPlan := mkRecordingsPlan {
  plan_resp : authWebhookResponse;
  plan_sess : OSSession;
  plan_manifests : list string;
  plan_files : PlaylistFiles;
  plan_finalize : bool;
  plan_returnMasterPlaylist : bool;
  plan_track : string;
}.

Inductive RecordingsResult :=
| RecStatus (code : Z)                     (* w.WriteHeader(code), no body *)
| RecFile (headers : list (string * string)) (body : string)
| RecBuild (plan : RecordingsPlan)         (* goes on to read and join the playlists *)
| RecPanic.                                (* nil pointer dereference *)

Section Handlers.
Context `{X : Externals}.
Local Open Scope list_scope.

(** ** The reaper of a push stream *)

(** The goroutine that [HandlePush] starts beside a new connection:
    [for range ticker.C], over the times of the ticks it receives; the
    boolean tells whether it has returned. *)
Fixpoint watchdog (w : World) (intmid extmid : ManifestID) (ticks : list Time)
    : outcome bool :=
  match ticks with
  | [] => Ok false w
  | now :: ticks' =>
      match watchdog_tick w intmid extmid now with
      | Ok true w' => Ok true w'
      | Ok false w' => watchdog w' intmid extmid ticks'
      | Panicked w' => Panicked w'
      end
  end.

(** ** The RTMP publish handlers *)

(** [gotRTMPStreamHandler], up to its return; the goroutine that
    segments the stream runs beside it. *)
Definition gotRTMPStreamHandler (w : World) (rtmpStrm : RTMPVideoStream)
    (d : AppData) (nonce0 : Z) (now : Time) : outcome (option goerr) :=
  match registerConnection w rtmpStrm (streamParams d) nonce0 now with
  | (_, Some err, w) => Ok (Some err) w
  | (Some cxn, None, w) =>
      match heap w !! cxn with
      | Some c => Ok None w
      | None => Panicked w
      end
  | (None, None, w) => Panicked w
  end.

Definition endRTMPStreamHandler (w : World) (d : AppData) : outcome (option goerr) :=
  match streamParams d with
  | None => Ok (Some errMismatchedParams) w
  | Some params0 =>
      (* Remove RTMP stream *)
      removeRTMPStream w (p_ManifestID params0)
  end.

(** ** The play handlers *)

Definition LastManifestID (w : World) : ManifestID := lastManifestID w.

Definition LastHLSStreamID (w : World) : StreamID := lastHLSStreamID w.

Definition getRTMPStreamHandler (w : World) (url : URL) : played RTMPVideoStream :=
  let mid0 := parseManifestID (Path url) in
  match rtmpConnections w !! mid0 with
  | None => ErrNotFound
  | Some a =>
      match heap w !! a with
      | Some cxn => Play (stream cxn)
      | None => NilConnection
      end
  end.

(** [LatestPlaylist]: the playlist manager of the last manifest, nil
    where there is none. *)
Definition LatestPlaylist (w : World) : played (option PlaylistManager) :=
  match rtmpConnections w !! lastManifestID w with
  | None => Play None
  | Some a =>
      match heap w !! a with
      | Some cxn => Play (pl cxn)
      | None => NilConnection
      end
  end.

Section Playlists.

(** The playlists of lpms and what a playlist manager holds of them at
    the time of the request. *)
Variables MasterPlaylist MediaPlaylist : Type.
Variable GetHLSMasterPlaylist : PlaylistManager -> MasterPlaylist.
Variable GetHLSMediaPlaylist : PlaylistManager -> string -> option MediaPlaylist.
Variable strings_ToLower : string -> string.

Definition getHLSMasterPlaylistHandler (w : World) (ExposeCurrentManifest : bool)
    (url : URL) : played MasterPlaylist :=
  match
    if ExposeCurrentManifest
       && String.eqb (strings_ToLower (Path url)) "/stream/current.m3u8"
    then Some (LastManifestID w)
    else
      let sid := parseStreamID (Path url) in
      if nonempty (sid_Rendition sid) then
        (* requesting a media PL, not master PL *)
        None
      else Some (sid_ManifestID sid)
  with
  | None => ErrNotFound
  | Some manifestID =>
      match rtmpConnections w !! manifestID with
      | None => ErrNotFound
      | Some a =>
          match heap w !! a with
          | None => NilConnection
          | Some cxn =>
              match pl cxn with
              | None => ErrNotFound
              | Some cpl =>
                  if negb (String.eqb (pl_mid cpl) manifestID) then ErrNotFound
                  else Play (GetHLSMasterPlaylist cpl)
              end
          end
      end
  end.

Definition getHLSMediaPlaylistHandler (w : World) (url : URL) : played MediaPlaylist :=
  let strmID := parseStreamID (Path url) in
  let mid0 := sid_ManifestID strmID in
  match rtmpConnections w !! mid0 with
  | None => ErrNotFound
  | Some a =>
      match heap w !! a with
      | None => NilConnection
      | Some cxn =>
          match pl cxn with
          | None => ErrNotFound
          | Some cpl =>
              (* Get the hls playlist *)
              match GetHLSMediaPlaylist cpl (sid_Rendition strmID) with
              | None => ErrNotFound
              | Some p => Play p
              end
          end
      end
  end.

(** ** GetNodeStatus *)

Variable RemoteTranscoderInfo : Type.

(** The version of the node, and [runtime.Version()], [runtime.GOARCH]
    and [runtime.GOOS]. *)
Variables LivepeerVersion runtime_Version runtime_GOARCH runtime_GOOS : string.

(** The fields of [core.LivepeerNode] that the server reads; of the
    transcoder manager, its count and its list of transcoders. *)
Record LivepeerNode := mkNode {
  node_Type : NodeType;
  node_WorkDir : string;
  TranscoderManager : option (Z * list RemoteTranscoderInfo);
  node_OrchestratorPool : option (list URL);
}.

Record NodeStatus := mkNodeStatus {
  Manifests : gmap string MasterPlaylist;
  InternalManifests : gmap string string;
  StreamInfo : gmap string NodeStreamInfo;
  Version : string;
  GolangRuntimeVersion : string;
  GOArch : string;
  GOOS : string;
  OrchestratorPool : list string;
  RegisteredTranscodersNumber : Z;
  RegisteredTranscoders : list RemoteTranscoderInfo;
  LocalTranscoding : bool;
}.

(** [for _, cxn := range s.rtmpConnections], in the order [conns] of the
    range; [None] is the panic of a nil connection. *)
Fixpoint status_streams (w : World) (conns : list (string * addr))
    (m : gmap string MasterPlaylist) (streamInfo : gmap string NodeStreamInfo)
    : option (gmap string MasterPlaylist * gmap string NodeStreamInfo) :=
  match conns with
  | [] => Some (m, streamInfo)
  | (_, a) :: conns' =>
      match heap w !! a with
      | None => None
      | Some cxn =>
          match pl cxn with
          | None => status_streams w conns' m streamInfo
          | Some cpl =>
              let sb := sourceBytes cxn in
              let tb := transcodedBytes cxn in
              status_streams w conns'
                (<[pl_mid cpl := GetHLSMasterPlaylist cpl]> m)
                (<[pl_mid cpl := {| SourceBytes := sb; TranscodedBytes := tb |}]>
                   streamInfo)
          end
      end
  end.

(** [GetNodeStatus]; [conns] and [ims] are the orders in which the two
    maps are ranged over. *)
Definition GetNodeStatus (w : World) (node : LivepeerNode)
    (conns : list (string * addr)) (ims : list (string * string))
    : option NodeStatus :=
  match status_streams w conns ∅ ∅ with
  | None => None
  | Some (m, streamInfo) =>
      Some
        {| Manifests := m;
           InternalManifests := foldl (fun res kv => <[fst kv := snd kv]> res) ∅ ims;
           StreamInfo := streamInfo;
           Version := LivepeerVersion;
           GolangRuntimeVersion := runtime_Version;
           GOArch := runtime_GOARCH;
           GOOS := runtime_GOOS;
           OrchestratorPool :=
             match node_OrchestratorPool node with
             | Some urls => URL_String <$> urls
             | None => []
             end;
           RegisteredTranscodersNumber :=
             match TranscoderManager node with
             | Some (n, _) => n
             | None => 0
             end;
           RegisteredTranscoders :=
             match TranscoderManager node with
             | Some (_, infos) => infos
             | None => []
             end;
           LocalTranscoding :=
             match TranscoderManager node with
             | Some _ => false
             | None => true
             end |}
  end.

(** ** NewLivepeerServer *)

(** [json.Unmarshal] into the profiles of a webhook response. *)
Variable json_Unmarshal_Profiles : string -> list JSONProfile + string.

(** The profiles that the transcoding options stand for: the content of
    the file of that name where it can be read and is not empty, built-in
    presets otherwise. *)
Definition transcoding_profiles (readFile : string -> string + string)
    (transcodingOptions : string) : list VideoProfile + string :=
  match
    match readFile transcodingOptions with
    | inl content =>
        if (0 <? String.length content)%nat then
          match json_Unmarshal_Profiles content with
          | inr err => inr err
          | inl ps =>
              let stubResp :=
                {| r_ManifestID := ""; r_StreamKey := ""; r_Presets := [];
                   r_ObjectStore := ""; r_RecordObjectStore := "";
                   r_RecordObjectStoreURL := ""; r_Profiles := ps;
                   r_PreviousSessions := [] |} in
              jsonProfileToVideoProfile stubResp
          end
        else
          (* check the built-in profiles *)
          inl (parsePresets (strings_Split transcodingOptions ","%char))
    | inr _ => inl (parsePresets (strings_Split transcodingOptions ","%char))
    end
  with
  | inr err => inr err
  | inl profiles =>
      if (length profiles <=? 0)%nat then inr "No transcoding profiles found"
      else inl profiles
  end.

Definition NewLivepeerServer (w : World) (readFile : string -> string + string)
    (rtmpAddr : string) (lpNode : LivepeerNode) (httpIngest : bool)
    (transcodingOptions : string) : (LivepeerServer + string) * World :=
  let disabled := negb (is_broadcaster (node_Type lpNode)) in
  let opts := {| RtmpAddr := rtmpAddr; RtmpDisabled := disabled;
                 opts_WorkDir := node_WorkDir lpNode |} in
  match
    if is_broadcaster (node_Type lpNode) && nonempty transcodingOptions then
      match transcoding_profiles readFile transcodingOptions with
      | inr err => inr err
      | inl profiles =>
          let '(r, w) := alloc_array profiles w in
          inl (set_BroadcastJobVideoProfiles (Some r) w)
      end
    else inl w
  with
  | inr err => (inr err, w)
  | inl w =>
      let mux :=
        (if is_broadcaster (node_Type lpNode) && httpIngest
         then [("/live/", HandlePushHandler)] else [])
        ++ [("/recordings/", HandleRecordingsHandler)] in
      (inl {| srv_opts := opts; HTTPMux := mux |}, new_registry w)
  end.

End Playlists.

(** ** getHLSSegmentHandler *)

Section Segments.

(** The sessions of the memory store and their data at the time of the
    request. *)
Variable MemoryOS_GetSession : OSDriver -> string -> option OSSession.
Variable MemorySession_GetData : OSSession -> string -> option string.

Definition getHLSSegmentHandler (w : World) (url : URL) : played string :=
  (* Strip the /stream/ prefix *)
  let segName := cleanStreamPrefix (Path url) in
  if String.eqb segName "" then ErrNotFound
  else
    match NodeStorage w with
    | None => ErrNotFound
    | Some storage =>
        match strings_SplitN2 segName slash with
        | [] => ErrNotFound
        | part0 :: _ =>
            if negb (drv_memory storage) then ErrNotFound
            else
              (* We index the session by the first entry of the path *)
              match MemoryOS_GetSession storage part0 with
              | None => ErrNotFound
              | Some os =>
                  match MemorySession_GetData os segName with
                  | Some data =>
                      if (0 <? String.length data)%nat then Play data
                      else ErrNotFound
                  | None => ErrNotFound
                  end
              end
        end
  end.

End Segments.

(** ** getPlaylistsFromStore *)

Section Recordings.

Fixpoint playlist_dirs (ListFiles : string -> string -> PageInfo + string)
    (manifestID : string) (dirs : list string) (st : PlaylistFiles)
    : PlaylistFiles + (Time * string) :=
  match dirs with
  | [] => inl st
  | dirName :: dirs' =>
      match ListFiles (dirName +:+ "playlist_") "" with
      | inr err => inr (latestPlaylistTime st, err)
      | inl dirOnePage =>
          match playlist_pages manifestID dirOnePage st with
          | inr e => inr e
          | inl st => playlist_dirs ListFiles manifestID dirs' st
          end
      end
  end.

Fixpoint playlist_manifests (ListFiles : string -> string -> PageInfo + string)
    (manifests : list string) (st : PlaylistFiles)
    : PlaylistFiles + (Time * string) :=
  match manifests with
  | [] => inl st
  | manifestID :: manifests' =>
      let st := {| filesMap := <[manifestID := []]> (filesMap st);
                   jsonFiles := jsonFiles st;
                   latestPlaylistTime := latestPlaylistTime st |} in
      match ListFiles (manifestID +:+ "/") "/" with
      | inr err => inr (latestPlaylistTime st, err)
      | inl filesPage =>
          match playlist_dirs ListFiles manifestID (Directories filesPage) st with
          | inr e => inr e
          | inl st => playlist_manifests ListFiles manifests' st
          end
      end
  end.

(** [getPlaylistsFromStore]: the map from manifest to indices, the json
    files and the latest playlist time; or the latest time seen and the
    error. *)
Definition getPlaylistsFromStore (ListFiles : string -> string -> PageInfo + string)
    (manifests : list string) : PlaylistFiles + (Time * string) :=
  playlist_manifests ListFiles manifests
    {| filesMap := ∅; jsonFiles := []; latestPlaylistTime := time_zero |}.

(** ** HandleRecordings *)

(** [common.TypeByExtension]. *)
Variable TypeByExtension : string -> string.

(** The session of the record store that the request is served from,
    or the status of the answer where there is none. *)
Definition recordings_session (w : World) (resp : option authWebhookResponse)
    (manifestID : string) : OSSession + Z :=
  match
    match resp with
    | Some resp0 =>
        if nonempty (r_RecordObjectStore resp0) then Some (r_RecordObjectStore resp0)
        else None
    | None => None
    end
  with
  | Some recordObjectStore =>
      match ParseOSURL recordObjectStore true with
      | inr _ => inr 500
      | inl os => inl (NewSession os manifestID)
      end
  | None =>
      match RecordStorage w with
      | Some d => inl (NewSession d manifestID)
      | None => inr 400
      end
  end.

(** [HandleRecordings] once the request is authenticated, up to the
    point where it has found the playlist files of the manifests. *)
Definition HandleRecordings_serve (w : World) (env : RecordingsEnv)
    (ext manifestID requestFileName : string)
    (finalize finalizeSet returnMasterPlaylist : bool) (track : string)
    (resp : option authWebhookResponse) : RecordingsResult :=
  match recordings_session w resp manifestID with
  | inr code => RecStatus code
  | inl sess =>
      match re_ReadData env sess requestFileName with
      | ReadCanceled => RecStatus 400
      | ReadFile (Some body) =>
          let headers :=
            [("Access-Control-Allow-Origin", "*");
             ("Access-Control-Expose-Headers", "Content-Length")]
            ++ (if String.eqb ext ".ts"
                then [("Content-Type", TypeByExtension ".ts")]
                else [("Cache-Control", "max-age=5");
                      ("Content-Type", "application/x-mpegURL")])
            ++ [("Connection", "keep-alive")] in
          RecFile headers body
      | _ =>
          match resp with
          | None => RecPanic
          | Some resp0 =>
              let manifests :=
                if (0 <? length (r_PreviousSessions resp0))%nat
                then r_PreviousSessions resp0 ++ [manifestID]
                else [manifestID] in
              match getPlaylistsFromStore (re_ListFiles env sess) manifests with
              | inr _ => RecStatus 500
              | inl found =>
                  if (length (jsonFiles found) =? 0)%nat then RecStatus 404
                  else
                    let finalize :=
                      if (24 * time_Hour <? re_since env - latestPlaylistTime found)
                         && negb finalizeSet
                      then true else finalize in
                    RecBuild
                      {| plan_resp := resp0; plan_sess := sess;
                         plan_manifests := manifests; plan_files := found;
                         plan_finalize := finalize;
                         plan_returnMasterPlaylist := returnMasterPlaylist;
                         plan_track := track |}
              end
          end
      end
  end.

(** [HandleRecordings] from the request to the point where it has found
    the playlist files of the manifests; reading and joining those is
    left to what follows. *)
Definition HandleRecordings (w : World) (cache : AuthCache) (env : RecordingsEnv)
    (r : RecordingsRequest) : RecordingsResult * World * AuthCache :=
  if negb (String.eqb (rq_Method r) "GET") then (RecStatus 405, w, cache)
  else
    let ext := path_Ext (rq_Path r) in
    if negb (String.eqb ext ".m3u8") && negb (String.eqb ext ".ts") then
      (RecStatus 400, w, cache)
    else
      let pp := strings_Split (rq_Path r) slash in
      let finalize := String.eqb (Values_Get (rq_Query r) "finalize") "true" in
      let finalizeSet := bool_decide (is_Some (rq_Query r !! "finalize")) in
      if (length pp <? 4)%nat then (RecStatus 400, w, cache)
      else
        let pp3 := nth 3 pp "" in
        let returnMasterPlaylist := String.eqb pp3 "index.m3u8" in
        let track :=
          if returnMasterPlaylist then ""
          else hd "" (strings_Split pp3 dot) in
        let manifestID := nth 2 pp "" in
        let requestFileName := String.concat "/" (drop 2 pp) in
        match
          match cache_Get cache manifestID (re_getNow env) with
          | Some cresp => inl (Some cresp, true, w)
          | None =>
              match authenticateStream w (re_post env) (rq_URL r) with
              | (inr err, w) => inr (err, w)
              | (inl resp, w) => inl (resp, false, w)
              end
          end
        with
        | inr (err, w) =>
            if strings_Contains err "not found" then (RecStatus 404, w, cache)
            else (RecStatus 403, w, cache)
        | inl (resp, fromCache, w) =>
            let cache :=
              match resp with
              | Some resp0 =>
                  if negb fromCache
                  then cache_SetDefault cache manifestID resp0 (re_setNow env)
                  else cache
              | None => cache
              end in
            (HandleRecordings_serve w env ext manifestID requestFileName
               finalize finalizeSet returnMasterPlaylist track resp, w, cache)
        end.

End Recordings.

(** ** Vocabulary *)

(** Every entry of the registry refers to a connection object of that
    identity, which has a playlist manager of that identity. *)
Definition keyed (w : World) : Prop :=
  forall m a, rtmpConnections w !! m = Some a ->
    exists c p, heap w !! a = Some c /\ mid c = m /\ pl c = Some p /\ pl_mid p = m.

(** The connection at [a] exists and has a playlist manager. *)
Definition live (w : World) (a : addr) : Prop :=
  exists c p, heap w !! a = Some c /\ pl c = Some p.

(** The files of a page and of the pages after it. *)
Fixpoint page_files (p : PageInfo) : list FileInfo :=
  match p with
  | LastPage _ fs => fs
  | MorePages _ fs next => fs ++ page_files next
  | FailingPage _ fs _ => fs
  end.

(** The playlist files that the store lists in a directory, under a
    manifest, and under a list of manifests. *)
Definition dir_files (ListFiles : string -> string -> PageInfo + string)
    (dirName : string) : list FileInfo :=
  match ListFiles (dirName +:+ "playlist_") "" with
  | inl page => page_files page
  | inr _ => []
  end.

Definition manifest_files (ListFiles : string -> string -> PageInfo + string)
    (manifestID : string) : list FileInfo :=
  match ListFiles (manifestID +:+ "/") "/" with
  | inl filesPage => concat (dir_files ListFiles <$> Directories filesPage)
  | inr _ => []
  end.

Definition store_files (ListFiles : string -> string -> PageInfo + string)
    (manifests : list string) : list FileInfo :=
  concat (manifest_files ListFiles <$> manifests).

(** What a run of the loops has added to the accumulator [st] for the
    files [fs] of the manifest [m]. *)
Definition extended_by (m : string) (fs : list FileInfo) (st st' : PlaylistFiles)
    : Prop :=
  jsonFiles st' = jsonFiles st ++ (fi_Name <$> fs)
  /\ filesMap st'
     = <[m := default [] (filesMap st !! m) ++ seq (length (jsonFiles st)) (length fs)]>
         (filesMap st)
  /\ latestPlaylistTime st'
     = foldl Z.max (latestPlaylistTime st) (fi_LastModified <$> fs).

(** The state after the manifests [done]: every file listed so far is
    in [jsonFiles], the keys of the map are the manifests met, and the
    entry of a manifest is the run of positions of the files of its last
    listing. *)
Definition listed_so_far (ListFiles : string -> string -> PageInfo + string)
    (done : list string) (st : PlaylistFiles) : Prop :=
  jsonFiles st = fi_Name <$> store_files ListFiles done
  /\ latestPlaylistTime st
     = foldl Z.max time_zero (fi_LastModified <$> store_files ListFiles done)
  /\ (forall m, is_Some (filesMap st !! m) <-> m ∈ done)
  /\ (forall pre m post, done = pre ++ m :: post -> m ∉ post ->
        filesMap st !! m
        = Some (seq (length (store_files ListFiles pre))
                    (length (manifest_files ListFiles m)))).

(** The integer part of [p * 2 ^ e], for [p] that is not negative. *)
Definition scaled (p e : Z) : Z :=
  if 0 <=? e then p * 2 ^ e else p / 2 ^ (- e).

(** [P] is [p] rounded to a multiple of [2 ^ s]: the nearest one, and of
    two that are as near the even one; with nothing to round off, [p]
    itself. *)
Definition nearest_even (p s P : Z) : Prop :=
  if s <=? 0 then P = p
  else P mod 2 ^ s = 0
       /\ 2 * Z.abs (P - p) <= 2 ^ s
       /\ (2 * Z.abs (P - p) = 2 ^ s -> Z.even (P / 2 ^ s) = true).

(** The duration, in nanoseconds, that a GOP of [f] seconds stands for.
    For a finite [f = m * 2 ^ e] above zero it is the integer part of
    [P * 2 ^ e], where [P] is the product [m * 10 ^ 9] rounded to the 53
    bits of a binary64 (to the spacing [2 ^ -1074] of the subnormal
    numbers when that is coarser); a value of [2 ^ 63] or more, a NaN and
    the positive infinity stand for the least int64. *)
Definition gop_of_float (f : float64) (gop : Duration) : Prop :=
  match f with
  | NaN => gop = - 2 ^ 63
  | Infinity negative => negative = false /\ gop = - 2 ^ 63
  | Finite m e =>
      0 < m
      /\ exists P,
           nearest_even (m * 1000000000)
             (Z.max (Z.log2 (m * 1000000000) - 52) (- 1074 - e)) P
           /\ gop = (if scaled P e <? 2 ^ 63 then scaled P e else - 2 ^ 63)
  end.

(** The GOP that the string of a webhook profile stands for. *)
Definition gop_of_string (g : string) (gop : Duration) : Prop :=
  (g = "" /\ gop = 0)
  \/ (g = "intra" /\ gop = GOPIntraOnly)
  \/ (g <> "" /\ g <> "intra"
      /\ exists f, strconv_ParseFloat g = inl f /\ gop_of_float f gop).

(** The string of a webhook profile stands for no GOP: it is neither
    empty nor "intra", and it is no number or a number that is zero or
    below. *)
Definition gop_rejected (g : string) : Prop :=
  g <> "" /\ g <> "intra"
  /\ match strconv_ParseFloat g with
     | inr _ => True
     | inl (Finite m _) => m <= 0
     | inl (Infinity negative) => negative = true
     | inl NaN => False
     end.

(** The video profile that a profile of the webhook stands for. *)
Definition json_profile_converts (profile : JSONProfile) (prof : VideoProfile) : Prop :=
  Name prof = (if String.eqb (jp_Name profile) ""
               then "webhook_" +:+ DefaultProfileName (jp_Width profile)
                                     (jp_Height profile) (jp_Bitrate profile)
               else jp_Name profile)
  /\ Bitrate prof = itoa (jp_Bitrate profile)
  /\ Framerate prof = jp_FPS profile
  /\ FramerateDen prof = jp_FPSDen profile
  /\ Resolution prof = itoa (jp_Width profile) +:+ "x" +:+ itoa (jp_Height profile)
  /\ EncoderProfileNameToValue (jp_Profile profile) = inl (Profile prof)
  /\ gop_of_string (jp_GOP profile) (GOP prof)
  /\ VFormat prof = FormatNone.

(** The request passes the checks that [HandleRecordings] makes before
    it authenticates: the method, the extension and the shape of the
    path. *)
Definition recordings_wellformed (r : RecordingsRequest) : Prop :=
  rq_Method r = "GET"
  /\ (path_Ext (rq_Path r) = ".m3u8" \/ path_Ext (rq_Path r) = ".ts")
  /\ (4 <= length (strings_Split (rq_Path r) slash))%nat.

(** The manifest id of a request for a recording: the third element of
    its path. *)
Definition recordings_manifestID (r : RecordingsRequest) : string :=
  nth 2 (strings_Split (rq_Path r) slash) "".

End Handlers.

Arguments node_Type {RemoteTranscoderInfo} l.
Arguments node_WorkDir {RemoteTranscoderInfo} l.
Arguments TranscoderManager {RemoteTranscoderInfo} l.
Arguments node_OrchestratorPool {RemoteTranscoderInfo} l.
Arguments Manifests {MasterPlaylist RemoteTranscoderInfo} n.
Arguments InternalManifests {MasterPlaylist RemoteTranscoderInfo} n.
Arguments StreamInfo {MasterPlaylist RemoteTranscoderInfo} n.
Arguments Version {MasterPlaylist RemoteTranscoderInfo} n.
Arguments GolangRuntimeVersion {MasterPlaylist RemoteTranscoderInfo} n.
Arguments GOArch {MasterPlaylist RemoteTranscoderInfo} n.
Arguments GOOS {MasterPlaylist RemoteTranscoderInfo} n.
Arguments OrchestratorPool {MasterPlaylist RemoteTranscoderInfo} n.
Arguments RegisteredTranscodersNumber {MasterPlaylist RemoteTranscoderInfo} n.
Arguments RegisteredTranscoders {MasterPlaylist RemoteTranscoderInfo} n.
Arguments LocalTranscoding {MasterPlaylist RemoteTranscoderInfo} n.

(** ** The handlers on the server of the test suite *)

Module Samples.
Import Std.

(** Lower case of the letters of ASCII. *)
Definition lower (s : string) : string :=
  String.string_of_list_ascii
    ((fun c =>
        let n := N_of_ascii c in
        if ((65 <=? n) && (n <=? 90))%N then ascii_of_N (n + 32) else c)
       <$> String.list_ascii_of_string s).

(** A master playlist is stood for by the manifest id it is of, a media
    playlist by that and the rendition. *)
Definition master_of (p : PlaylistManager) : string := pl_mid p.

Definition media_of (p : PlaylistManager) (rendition : string) : option string :=
  if String.eqb rendition "source" then Some (pl_mid p +:+ "/" +:+ rendition)
  else None.

Definition url_of (target : string) : URL :=
  {| Scheme := ""; Opaque := ""; Host := ""; Path := target;
     RawQuery := ""; Fragment := "" |}.

(** A push whose pipeline returns more renditions than the server has
    profiles. *)
Definition overflowing : outcome Response :=
  HandlePush setupServer (env_transcoded three_urls) (push_multipart "/live/mani/17.ts").

(** A stream published over RTMP, and ended. *)
Definition published : World :=
  world_of (gotRTMPStreamHandler setupServer basic_stream
              (AppParameters (params_of "rtmp")) 7 100).

Definition ended : World :=
  world_of (endRTMPStreamHandler published (AppParameters (params_of "rtmp"))).

Definition the_playlist (m : ManifestID) : PlaylistManager :=
  NewBasicPlaylistManager m
    (NewSession {| drv_uri := "memory://"; drv_memory := true |} m) None.

Definition broadcaster : LivepeerNode unit :=
  {| node_Type := BroadcasterNode; node_WorkDir := "/tmp";
     TranscoderManager := None; node_OrchestratorPool := None |}.

(** A record store with two sessions of a manifest, the first with two
    pages of playlists, and a manifest without recordings. *)
Definition playlist_a : FileInfo :=
  {| fi_Name := "mani/s1/playlist_1.json"; fi_LastModified := 500 |}.
Definition playlist_b : FileInfo :=
  {| fi_Name := "mani/s1/playlist_2.json"; fi_LastModified := 900 |}.
Definition playlist_c : FileInfo :=
  {| fi_Name := "mani/s2/playlist_1.json"; fi_LastModified := 700 |}.

Definition listing (prefix delim : string) : PageInfo + string :=
  if String.eqb prefix "mani/" then inl (LastPage ["mani/s1/"; "mani/s2/"] [])
  else if String.eqb prefix "mani/s1/playlist_"
       then inl (MorePages [] [playlist_a] (LastPage [] [playlist_b]))
  else if String.eqb prefix "mani/s2/playlist_" then inl (LastPage [] [playlist_c])
  else inl (LastPage [] []).

Definition no_playlists : PlaylistFiles :=
  {| filesMap := ∅; jsonFiles := []; latestPlaylistTime := time_zero |}.

Definition found_playlists : PlaylistFiles :=
  match getPlaylistsFromStore listing ["old"; "mani"] with
  | inl found => found
  | inr _ => no_playlists
  end.

(** Requests for the recordings of a manifest. *)
Definition recording (target : string) : RecordingsRequest :=
  {| rq_Method := "GET"; rq_Path := target;
     rq_URL := "http://example.com" +:+ target; rq_Query := ∅ |}.

Definition recordings_env (post : string -> PostOutcome) (now : Time) : RecordingsEnv :=
  {| re_post := post; re_getNow := now; re_setNow := now;
     re_ReadData := fun _ _ => ReadFailed "not found";
     re_ListFiles := fun _ => listing;
     re_since := now |}.

Definition mime_of (ext : string) : string := "video/mp2t".

Definition with_record_storage (w : World) : World :=
  {| rtmpConnections := rtmpConnections w; internalManifests := internalManifests w;
     lastHLSStreamID := lastHLSStreamID w; lastManifestID := lastManifestID w;
     heap := heap w; arrays := arrays w;
     BroadcastJobVideoProfiles := BroadcastJobVideoProfiles w;
     AuthWebhookURL := AuthWebhookURL w; httpPushTimeout := httpPushTimeout w;
     NodeStorage := NodeStorage w;
     RecordStorage := Some {| drv_uri := "memory://record"; drv_memory := true |};
     MaxSessions := MaxSessions w; watchdogs := watchdogs w; posts := posts w |}.

Definition without_storage (w : World) : World :=
  {| rtmpConnections := rtmpConnections w; internalManifests := internalManifests w;
     lastHLSStreamID := lastHLSStreamID w; lastManifestID := lastManifestID w;
     heap := heap w; arrays := arrays w;
     BroadcastJobVideoProfiles := BroadcastJobVideoProfiles w;
     AuthWebhookURL := AuthWebhookURL w; httpPushTimeout := httpPushTimeout w;
     NodeStorage := None; RecordStorage := RecordStorage w;
     MaxSessions := MaxSessions w; watchdogs := watchdogs w; posts := posts w |}.

(** A server whose push timeout is zero. *)
Definition without_timeout (w : World) : World :=
  {| rtmpConnections := rtmpConnections w; internalManifests := internalManifests w;
     lastHLSStreamID := lastHLSStreamID w; lastManifestID := lastManifestID w;
     heap := heap w; arrays := arrays w;
     BroadcastJobVideoProfiles := BroadcastJobVideoProfiles w;
     AuthWebhookURL := AuthWebhookURL w; httpPushTimeout := 0;
     NodeStorage := NodeStorage w; RecordStorage := RecordStorage w;
     MaxSessions := MaxSessions w; watchdogs := watchdogs w; posts := posts w |}.

Definition authenticated : (option authWebhookResponse + string) * World :=
  authenticateStream hooked (hook "mani") "http://example.com/recordings/mani/index.m3u8".

Definition mani_response : authWebhookResponse :=
  match authenticated.1 with
  | inl (Some resp) => resp
  | _ => {| r_ManifestID := ""; r_StreamKey := ""; r_Presets := [];
            r_ObjectStore := ""; r_RecordObjectStore := "";
            r_RecordObjectStoreURL := ""; r_Profiles := [];
            r_PreviousSessions := [] |}
  end.

(** The sessions of the memory store: one, of the manifest mani, that
    holds the source segment 0. *)
Definition memory_session (d : OSDriver) (name : string) : option OSSession :=
  if String.eqb name "mani" then Some (NewSession d name) else None.

Definition memory_data (s : OSSession) (name : string) : option string :=
  if String.eqb name "mani/source/0.ts" then Some "segment data" else None.

(** The stream parameters of a first push without webhook. *)
Definition created : option StreamParameters * World :=
  createRTMPStreamIDHandler setupServer (env0 no_hook 100 7)
    {| Scheme := "http"; Opaque := ""; Host := "example.com";
       Path := "/live/seg/0.ts"; RawQuery := ""; Fragment := "" |}.

End Samples.

(** * Properties *)

Section Properties.
Context `{X : Externals}.
Local Open Scope list_scope.

(** ** removeRTMPStream *)

Lemma removeRTMPStream_unknown (w : World) (extmid : ManifestID) :
  rtmpConnections w !! resolve w extmid = None ->
  removeRTMPStream w extmid = Ok (Some errUnknownStream) w.
Proof. intros H. unfold removeRTMPStream. now rewrite H. Qed.

Lemma removeRTMPStream_ok_inv (w w' : World) (extmid : ManifestID) :
  removeRTMPStream w extmid = Ok None w' ->
  exists a cxn p,
    rtmpConnections w !! resolve w extmid = Some a
    /\ heap w !! a = Some cxn /\ pl cxn = Some p
    /\ rtmpConnections w' = delete (resolve w extmid) (rtmpConnections w)
    /\ internalManifests w' = delete extmid (internalManifests w)
    /\ heap w' = <[a := end_connection cxn p]> (heap w).
Proof.
  unfold removeRTMPStream.
  destruct (rtmpConnections w !! resolve w extmid) as [a|] eqn:Ha; [|discriminate].
  destruct (heap w !! a) as [cxn|] eqn:Hc; [|discriminate].
  destruct (pl cxn) as [p|] eqn:Hp; [|discriminate].
  intros [= <-]. exists a, cxn, p. repeat split; auto.
Qed.

Lemma removeRTMPStream_err_inv (w w' : World) (extmid : ManifestID) (e : goerr) :
  removeRTMPStream w extmid = Ok (Some e) w' -> e = errUnknownStream /\ w' = w.
Proof.
  unfold removeRTMPStream.
  destruct (rtmpConnections w !! resolve w extmid) as [a|]; [|now intros [= <- <-]].
  destruct (heap w !! a) as [cxn|]; [|discriminate].
  destruct (pl cxn) as [p|]; [discriminate|now intros [= <- <-]].
Qed.

(** C6. [removeRTMPStream] called for an identity that has no live
    connection (no entry under the identity it resolves to, or an entry
    whose playlist is nil) returns [errUnknownStream], does not panic
    and leaves the world as it was; so does a second call for an
    identity that a first call has removed, the identity not being the
    internal identity of another connection. *)
Theorem removeRTMPStream_idempotent (w : World) (extmid : ManifestID) :
  (rtmpConnections w !! resolve w extmid = None ->
   removeRTMPStream w extmid = Ok (Some errUnknownStream) w)
  /\ (forall a cxn,
        rtmpConnections w !! resolve w extmid = Some a ->
        heap w !! a = Some cxn -> pl cxn = None ->
        removeRTMPStream w extmid = Ok (Some errUnknownStream) w)
  /\ (forall w',
        removeRTMPStream w extmid = Ok None w' ->
        rtmpConnections w' !! extmid = None ->
        removeRTMPStream w' extmid = Ok (Some errUnknownStream) w')
  /\ (forall w',
        removeRTMPStream w extmid = Ok None w' ->
        resolve w extmid = extmid ->
        removeRTMPStream w' extmid = Ok (Some errUnknownStream) w').
Proof.
  split; [apply removeRTMPStream_unknown|].
  split.
  { intros a cxn Ha Hc Hp. unfold removeRTMPStream. now rewrite Ha, Hc, Hp. }
  assert (Hsecond : forall w',
            removeRTMPStream w extmid = Ok None w' ->
            rtmpConnections w' !! extmid = None ->
            removeRTMPStream w' extmid = Ok (Some errUnknownStream) w').
  { intros w' Hrm Hnone.
    destruct (removeRTMPStream_ok_inv _ _ _ Hrm) as (a & cxn & p & _ & _ & _ & _ & Him & _).
    apply removeRTMPStream_unknown.
    unfold resolve. rewrite Him, lookup_delete_eq. exact Hnone. }
  split; [exact Hsecond|].
  intros w' Hrm Hres. apply Hsecond; [exact Hrm|].
  destruct (removeRTMPStream_ok_inv _ _ _ Hrm) as (a & cxn & p & _ & _ & _ & Hrc & _ & _).
  rewrite Hrc, Hres. apply lookup_delete_eq.
Qed.

(** ** authenticateStream *)

Lemma length_zero_empty (s : string) : (String.length s =? 0)%nat = true <-> s = "".
Proof.
  destruct s; simpl; split; intros H; try reflexivity; discriminate.
Qed.

(** C5. With a webhook configured, [authenticateStream] returns an
    error exactly when the POST fails, or the status is not 200, or a
    non-empty body does not parse, or it parses with an empty
    manifestID; a 200 with an empty body gives the nil response without
    error, which is also what no webhook gives. *)
Theorem authenticateStream_fails_iff (w : World) (post : string -> PostOutcome)
    (url : string) :
  (auth_failed (authenticateStream w post url) <->
     AuthWebhookURL w <> ""
     /\ webhook_denies (post (json_Marshal [("url", url)])))
  /\ (post (json_Marshal [("url", url)]) = PostResponse 200 "" ->
      fst (authenticateStream w post url) = inl None)
  /\ (AuthWebhookURL w = "" -> authenticateStream w post url = (inl None, w)).
Proof.
  unfold authenticateStream, auth_failed, webhook_denies.
  destruct (String.eqb_spec (AuthWebhookURL w) "") as [He|Hne].
  - split; [|split]; simpl; auto. split; [tauto|]. intros [Hn _]. now apply Hn.
  - split; [|split]; [| |congruence].
    + destruct (post _) as [err|code rbody]; simpl; [tauto|].
      destruct (Z.eqb_spec code 200) as [->|Hc]; simpl; [|tauto].
      destruct (String.length rbody =? 0)%nat eqn:Hl; simpl.
      * apply length_zero_empty in Hl. subst rbody. split; [tauto|].
        intros [_ [Hc|[Hb _]]]; congruence.
      * assert (rbody <> "") as Hb.
        { intros ->. simpl in Hl. discriminate. }
        destruct (json_Unmarshal rbody) as [authResp|err]; simpl; [|tauto].
        destruct (String.eqb_spec (r_ManifestID authResp) "") as [Hm|Hm]; simpl.
        -- tauto.
        -- split; [tauto|]. intros [_ [Hc|[_ Hc]]]; congruence.
    + intros ->. reflexivity.
Qed.






Lemma kicker_tick_present (w : World) (m : ManifestID) (now : Z) a cxn :
  rtmpConnections w !! m = Some a -> heap w !! a = Some cxn ->
  kicker_tick w m now = Ok tt (set_heap (<[a := set_lastUsed now cxn]> (heap w)) w).
Proof. intros Ha Hc. unfold kicker_tick. now rewrite Ha, Hc. Qed.

Lemma kicker_tick_absent (w : World) (m : ManifestID) (now : Z) :
  rtmpConnections w !! m = None -> kicker_tick w m now = Ok tt w.
Proof. intros Ha. unfold kicker_tick. now rewrite Ha. Qed.

Lemma kicker_cons_tick (w : World) (m : ManifestID) (t : Z) (evs : list kickerEvent) :
  kicker w m (TickDone t :: evs)
  = match kicker_tick w m t with
    | Ok _ w' =>
        match kicker w' m evs with
        | Ok (st, timers) w'' => Ok (st, httpPushResetTimer w :: timers) w''
        | Panicked w'' => Panicked w''
        end
    | Panicked w' => Panicked w'
    end.
Proof. reflexivity. Qed.

Lemma kicker_run (m : ManifestID) (ts : list Z) (rest : list kickerEvent) :
  forall w, connections_allocated w ->
  exists w',
    kicker w m ((TickDone <$> ts) ++ RequestEnded :: rest)
      = Ok (KickerReturned, replicate (S (length ts)) (httpPushResetTimer w)) w'
    /\ kicker w m (TickDone <$> ts)
      = Ok (KickerWaiting, replicate (S (length ts)) (httpPushResetTimer w)) w'
    /\ rtmpConnections w' = rtmpConnections w
    /\ internalManifests w' = internalManifests w
    /\ (forall a cxn, rtmpConnections w !! m = Some a -> heap w !! a = Some cxn ->
        heap w' !! a = Some (set_lastUsed (default (lastUsed cxn) (last ts)) cxn))
    /\ (forall a, rtmpConnections w !! m <> Some a -> heap w' !! a = heap w !! a).
Proof.
  induction ts as [|t ts IH]; intros w Hwf.
  - exists w. simpl. repeat split; auto.
    intros a cxn _ Hc. rewrite Hc. now destruct cxn.
  - destruct (rtmpConnections w !! m) as [a|] eqn:Ha.
    + destruct (Hwf _ _ Ha) as [cxn Hc].
      set (w1 := set_heap (<[a := set_lastUsed t cxn]> (heap w)) w).
      assert (Hwf1 : connections_allocated w1).
      { intros m' a' Hm'. simpl in Hm'. simpl.
        destruct (Hwf _ _ Hm') as [c' Hc'].
        destruct (decide (a = a')) as [->|Hne].
        - rewrite list_lookup_insert_eq; [eauto|]. now apply lookup_lt_Some in Hc'.
        - rewrite list_lookup_insert_ne by done. eauto. }
      destruct (IH w1 Hwf1) as (w' & Hret & Hwait & Hrc & Him & Hcx & Hother).
      exists w'. rewrite fmap_cons, <- app_comm_cons, !kicker_cons_tick.
      rewrite (kicker_tick_present _ _ _ _ _ Ha Hc). fold w1.
      rewrite Hret, Hwait. repeat split; auto.
      * intros a0 cxn0 [= <-] Hc0. rewrite Hc in Hc0. injection Hc0 as <-.
        assert (heap w1 !! a = Some (set_lastUsed t cxn)) as Hc1.
        { simpl. apply list_lookup_insert_eq. now apply lookup_lt_Some in Hc. }
        rewrite (Hcx a _ Ha Hc1). f_equal.
        destruct ts as [|t' ts']; [reflexivity|].
        change (last (t :: t' :: ts')) with (last (t' :: ts')).
        destruct (last (t' :: ts')) eqn:E; [reflexivity|].
        apply last_None in E. discriminate.
      * intros a0 Hne. rewrite Hother by (simpl; rewrite Ha; exact Hne).
        simpl. apply list_lookup_insert_ne. congruence.
    + destruct (IH w Hwf) as (w' & Hret & Hwait & Hrc & Him & Hcx & Hother).
      exists w'. rewrite fmap_cons, <- app_comm_cons, !kicker_cons_tick.
      rewrite (kicker_tick_absent _ _ _ Ha).
      rewrite Hret, Hwait. repeat split; auto.
      * intros a cxn [=].
      * intros a _. apply Hother. rewrite Ha. congruence.
Qed.



(** ** The multipart responder *)

Lemma body_of_renditionData (memOS : bool) (env : PushEnv) (urls : list string) :
  body_of <$> zip urls (renditionData memOS env urls)
  = payload_or_uri memOS env <$> urls.
Proof.
  unfold renditionData. induction urls as [|u urls IH]; [reflexivity|].
  cbn [fmap list_fmap zip zip_with]. f_equal; [|exact IH].
  unfold body_of, payload_or_uri. cbn [fst snd].
  destruct memOS; [|reflexivity].
  destruct (e_GetData env u) as [d|]; [|reflexivity].
  cbn [default]. unfold nonempty. now destruct d.
Qed.

Lemma write_parts_end (Profiles : list VideoProfile) (seq0 : Z) (env : PushEnv)
    (items : list (string * string)) :
  forall i parts,
    write_parts Profiles seq0 env i items = (parts, LoopEnd) ->
    part_body <$> parts = body_of <$> items
    /\ forall j part, parts !! j = Some part ->
         exists p, Profiles !! (i + j)%nat = Some p
                   /\ part_RenditionName part = Name p.
Proof.
  induction items as [|[url data] rest IH]; intros i parts H.
  - injection H as <-. split; [reflexivity|]. intros j part Hj. discriminate.
  - cbn [write_parts] in H. revert H.
    assert (Hhdr : forall hdr : option (string * string * nat + unit),
      match hdr with
      | Some (inl (typ, ext, len)) =>
          match Profiles !! i with
          | Some p1 =>
              if e_createPartErr env i then ([], LoopBreak)
              else if e_writeErr env i then ([], LoopBreak)
              else
                let '(parts, ex) := write_parts Profiles seq0 env (S i) rest in
                (part_of typ ext len (Name p1) seq0
                   (if (0 <? String.length data)%nat then data else url) :: parts, ex)
          | None => ([], LoopPanic)
          end
      | Some (inr _) => ([], LoopBreak)
      | None => ([], LoopPanic)
      end = (parts, LoopEnd) ->
      exists p parts',
        Profiles !! i = Some p
        /\ write_parts Profiles seq0 env (S i) rest = (parts', LoopEnd)
        /\ exists part, parts = part :: parts'
             /\ part_body part = (if (0 <? String.length data)%nat then data else url)
             /\ part_RenditionName part = Name p).
    { intros [[[[typ ext] len]|[]]|]; [|discriminate|discriminate].
      destruct (Profiles !! i) as [p|]; [|discriminate].
      destruct (e_createPartErr env i); [discriminate|].
      destruct (e_writeErr env i); [discriminate|].
      destruct (write_parts Profiles seq0 env (S i) rest) as [parts' ex].
      intros [= <- ->]. exists p, parts'. repeat split; eauto. }
    intros H. apply Hhdr in H as (p & parts' & Hp & Hrec & part0 & -> & Hbody & Hname).
    destruct (IH _ _ Hrec) as [Hb Hn]. split.
    + cbn [fmap list_fmap]. f_equal; [exact Hbody|exact Hb].
    + intros [|j] part Hj.
      * injection Hj as <-. exists p. rewrite Nat.add_0_r. split; [exact Hp|exact Hname].
      * destruct (Hn j part Hj) as (p' & Hp' & Hname').
        exists p'. split; [|exact Hname']. rewrite <- Hp'. f_equal. lia.
Qed.

Lemma write_parts_in_range (Profiles : list VideoProfile) (seq0 : Z) (env : PushEnv)
    (items : list (string * string)) :
  forall i, (i + length items <= length Profiles)%nat ->
    snd (write_parts Profiles seq0 env i items) <> LoopPanic.
Proof.
  induction items as [|[url data] rest IH]; intros i Hlen; [discriminate|].
  cbn [length] in Hlen. cbn [write_parts].
  destruct (lookup_lt_is_Some_2 Profiles i ltac:(lia)) as [p Hp]. rewrite Hp.
  specialize (IH (S i) ltac:(lia)).
  destruct (write_parts Profiles seq0 env (S i) rest) as [parts' ex].
  destruct (String.length data =? 0)%nat.
  - destruct (e_createPartErr env i); [discriminate|].
    destruct (e_writeErr env i); [discriminate|]. exact IH.
  - destruct (ProfileFormatExtension (VFormat p)); [|discriminate].
    destruct (e_createPartErr env i); [discriminate|].
    destruct (e_writeErr env i); [discriminate|]. exact IH.
Qed.

Lemma write_parts_out_of_range (Profiles : list VideoProfile) (seq0 : Z)
    (env : PushEnv) (items : list (string * string)) :
  (forall j, (j < length Profiles)%nat ->
     e_createPartErr env j = false /\ e_writeErr env j = false) ->
  (forall j p, Profiles !! j = Some p ->
     exists ext, ProfileFormatExtension (VFormat p) = inl ext) ->
  forall i, (i <= length Profiles < i + length items)%nat ->
    snd (write_parts Profiles seq0 env i items) = LoopPanic.
Proof.
  intros Hio Hext.
  induction items as [|[url data] rest IH]; intros i Hlen.
  - cbn [length] in Hlen. lia.
  - cbn [length] in Hlen. cbn [write_parts].
    destruct (Profiles !! i) as [p|] eqn:Hp.
    + assert (i < length Profiles)%nat as Hi by (now apply lookup_lt_Some in Hp).
      destruct (Hext _ _ Hp) as [ext Hx]. rewrite Hx.
      destruct (Hio i Hi) as [-> ->].
      specialize (IH (S i) ltac:(lia)).
      destruct (String.length data =? 0)%nat;
        destruct (write_parts Profiles seq0 env (S i) rest) as [parts' ex];
        exact IH.
    + destruct (String.length data =? 0)%nat; reflexivity.
Qed.


Lemma error_not_closed (msg : string) (code : Z) (w w' : World) (resp : Response) :
  Ok (http_Error msg code) w = Ok resp w' -> resp_closed resp = true -> False.
Proof. intros [= <- _]. discriminate. Qed.

Lemma respond_closed (w w' : World) (env : PushEnv) (accept : string) (seq0 : Z)
    (cxn : addr) (urls : list string) (resp : Response) :
  respond w env accept seq0 cxn urls = Ok resp w' ->
  resp_closed resp = true ->
  accept = "multipart/mixed" /\ w' = w /\ status resp = 200
  /\ exists c playlist,
       heap w !! cxn = Some c /\ pl c = Some playlist
       /\ part_body <$> resp_parts resp
          = payload_or_uri (drv_memory (oss_driver (pl_os playlist))) env <$> urls
       /\ forall j part, resp_parts resp !! j = Some part ->
            exists p, slice_elems w (p_Profiles (params c)) !! j = Some p
                      /\ part_RenditionName part = Name p.
Proof.
  unfold respond.
  destruct (heap w !! cxn) as [c|] eqn:Hc; [|discriminate].
  destruct (pl c) as [playlist|] eqn:Hp; [|discriminate].
  destruct (String.eqb_spec accept "multipart/mixed") as [->|Hne]; cbn [negb].
  2:{ intros [= <- _]. discriminate. }
  destruct (write_parts _ _ _ _ _) as [parts ex] eqn:Hw.
  destruct ex; [|intros [= <- _]; discriminate|discriminate].
  intros [= <- <-] Hclosed. repeat split; auto.
  exists c, playlist. destruct (write_parts_end _ _ _ _ _ _ Hw) as [Hb Hn].
  repeat split; auto.
  cbn [resp_parts]. rewrite Hb. apply body_of_renditionData.
Qed.

Lemma HandlePush_process_closed (w w' : World) (env : PushEnv) (r : Request)
    (url : URL) (ext body : string) (cxn : addr) (m : ManifestID) (resp : Response) :
  HandlePush_process w env r url ext body cxn m = Ok resp w' ->
  resp_closed resp = true ->
  exists w1 seg seq0 urls,
    e_processSegment env cxn seg = inl urls /\ urls <> []
    /\ respond w1 env (h_Accept (r_Header r)) seq0 cxn urls = Ok resp w'.
Proof.
  unfold HandlePush_process.
  destruct (kicker w m _) as [? w1|]; [|discriminate].
  match goal with |- context [processSegment w1 env cxn ?s] => set (seg := s) end.
  unfold processSegment.
  destruct (heap w1 !! cxn) as [c|]; [|discriminate].
  destruct (e_processBytes env cxn seg) as [sb tb].
  destruct (e_processSegment env cxn seg) as [urls|err] eqn:Hps.
  2:{ intros H1 H2. destruct (error_not_closed _ _ _ _ _ H1 H2). }
  destruct (e_ctxDone env). { intros [= <- _]. discriminate. }
  destruct (length urls =? 0)%nat eqn:Hl.
  { intros H1 H2. destruct (error_not_closed _ _ _ _ _ H1 H2). }
  intros H _. eexists _, seg. eexists. exists urls.
  split; [exact Hps|]. split; [|exact H].
  intros ->. discriminate.
Qed.

Lemma HandlePush_register_error (w w0 : World) (env : PushEnv) (url : URL)
    (hdr : Header) (format : Z) (m : ManifestID) (resp0 : Response) :
  HandlePush_register w env url hdr format m = Ok (inl resp0) w0 ->
  resp_closed resp0 = false.
Proof.
  unfold HandlePush_register.
  repeat match goal with
         | |- context [match ?x with _ => _ end] => destruct x; try discriminate
         end;
    intros [= <- _]; reflexivity.
Qed.

(** C4. A push that is answered in full with a multipart body (status
    200, closing boundary sent) asked for it with Accept:
    multipart/mixed; the urls that [processSegment] returned are not
    empty; the response has exactly one part per url, in the order of
    the urls; and the body of each part is the payload that the
    in-memory session of the connection holds for the url when there is
    one and it is not empty, the url itself otherwise. *)
Theorem multipart_one_part_per_rendition (w w' : World) (env : PushEnv)
    (r : Request) (resp : Response) :
  HandlePush w env r = Ok resp w' ->
  resp_closed resp = true ->
  status resp = 200
  /\ h_Accept (r_Header r) = "multipart/mixed"
  /\ exists cxn seg urls c playlist,
       e_processSegment env cxn seg = inl urls /\ urls <> []
       /\ heap w' !! cxn = Some c /\ pl c = Some playlist
       /\ length (resp_parts resp) = length urls
       /\ part_body <$> resp_parts resp
          = payload_or_uri (drv_memory (oss_driver (pl_os playlist))) env <$> urls.
Proof.
  intros H Hclosed.
  assert (Hproc : exists w0 url ext body cxn m,
             HandlePush_process w0 env r url ext body cxn m = Ok resp w').
  { revert H. unfold HandlePush.
    destruct (_ && _). { intros H. destruct (error_not_closed _ _ _ _ _ H Hclosed). }
    destruct (r_Body r) as [body|err].
    2:{ intros H. destruct (error_not_closed _ _ _ _ _ H Hclosed). }
    destruct (FormatNone =? _).
    { intros H. destruct (error_not_closed _ _ _ _ _ H Hclosed). }
    destruct (String.eqb _ "").
    { intros H. destruct (error_not_closed _ _ _ _ _ H Hclosed). }
    destruct (rtmpConnections w !! _) as [cxn|]; [eauto 10|].
    destruct (HandlePush_register _ _ _ _ _ _) as [[resp0|[cxn m]] w0|] eqn:Hreg;
      [| |discriminate].
    - intros [= <- <-]. apply HandlePush_register_error in Hreg. congruence.
    - eauto 10. }
  destruct Hproc as (w0 & url & ext & body & cxn & m & Hproc).
  destruct (HandlePush_process_closed _ _ _ _ _ _ _ _ _ _ Hproc Hclosed)
    as (w1 & seg & seq0 & urls & Hps & Hne & Hresp).
  destruct (respond_closed _ _ _ _ _ _ _ _ Hresp Hclosed)
    as (Hacc & -> & Hst & c & playlist & Hc & Hp & Hb & _).
  repeat split; auto.
  exists cxn, seg, urls, c, playlist. repeat split; auto.
  apply (f_equal length) in Hb. now rewrite !length_fmap in Hb.
Qed.

Lemma write_parts_indexed (Profiles : list VideoProfile) (seq0 : Z) (env : PushEnv)
    (items : list (string * string)) :
  forall i parts ex,
    write_parts Profiles seq0 env i items = (parts, ex) ->
    forall j part, parts !! j = Some part ->
      exists p item,
        Profiles !! (i + j)%nat = Some p /\ items !! j = Some item
        /\ part_at p seq0 item part.
Proof.
  induction items as [|[url data] rest IH]; intros i parts ex H j part Hj.
  - injection H as <- _. discriminate.
  - cbn [write_parts] in H.
    destruct (write_parts Profiles seq0 env (S i) rest) as [parts' ex'] eqn:Hrec.
    assert (Hcase : parts = []
              \/ exists p part0, Profiles !! i = Some p
                   /\ parts = part0 :: parts' /\ part_at p seq0 (url, data) part0).
    { revert H. unfold part_at. cbn [fst snd].
      destruct (Profiles !! i) as [p|]; [|destruct (String.length data =? 0)%nat;
                                          intros [= <- _]; now left].
      destruct (String.length data =? 0)%nat eqn:Hz.
      - destruct (e_createPartErr env i); [intros [= <- _]; now left|].
        destruct (e_writeErr env i); [intros [= <- _]; now left|].
        intros [= <- _]. right. exists p. eexists. repeat split.
        assert ((0 <? String.length data)%nat = false) as ->; [|reflexivity].
        apply Nat.eqb_eq in Hz. rewrite Hz. reflexivity.
      - destruct (ProfileFormatExtension (VFormat p)) as [ext|] eqn:Hx;
          [|intros [= <- _]; now left].
        destruct (e_createPartErr env i); [intros [= <- _]; now left|].
        destruct (e_writeErr env i); [intros [= <- _]; now left|].
        intros [= <- _]. right. exists p. eexists. repeat split.
        exists ext. split; [exact Hx|].
        assert ((0 <? String.length data)%nat = true) as ->; [|reflexivity].
        apply Nat.eqb_neq in Hz. apply Nat.ltb_lt. lia. }
    destruct Hcase as [->|(p & part0 & Hp & -> & Hat)]; [discriminate|].
    destruct j as [|j].
    + injection Hj as <-. exists p, (url, data). rewrite Nat.add_0_r. auto.
    + destruct (IH _ _ _ Hrec j part Hj) as (p' & item & Hp' & Hi & Hat').
      exists p', item. repeat split; auto. rewrite <- Hp'. f_equal. lia.
Qed.

(** C9. With Accept: multipart/mixed, the responder takes the profile at
    the position of each part it writes: the name of that profile is the
    Rendition-Name of the part, and for a binary part the format of that
    profile gives the type and the extension.  With no more urls than
    profiles the responder does not panic.  With more urls than
    profiles, and no part before the end of the profile list that fails
    to be written or has a format without extension, the index goes out
    of range and the handler panics. *)
Theorem responder_index_safety (w : World) (env : PushEnv) (seq0 : Z) (cxn : addr)
    (urls : list string) (c : rtmpConnection) (playlist : PlaylistManager) :
  heap w !! cxn = Some c ->
  pl c = Some playlist ->
  (forall resp w',
     respond w env "multipart/mixed" seq0 cxn urls = Ok resp w' ->
     forall j part, resp_parts resp !! j = Some part ->
       exists p url,
         slice_elems w (p_Profiles (params c)) !! j = Some p
         /\ urls !! j = Some url
         /\ part_RenditionName part = Name p
         /\ part_at p seq0
              (url, default "" (renditionData (drv_memory (oss_driver (pl_os playlist)))
                                              env urls !! j)) part)
  /\ ((length urls <= length (slice_elems w (p_Profiles (params c))))%nat ->
      exists resp, respond w env "multipart/mixed" seq0 cxn urls = Ok resp w)
  /\ ((length (slice_elems w (p_Profiles (params c))) < length urls)%nat ->
      (forall j, (j < length (slice_elems w (p_Profiles (params c))))%nat ->
         e_createPartErr env j = false /\ e_writeErr env j = false) ->
      (forall j p, slice_elems w (p_Profiles (params c)) !! j = Some p ->
         exists ext, ProfileFormatExtension (VFormat p) = inl ext) ->
      respond w env "multipart/mixed" seq0 cxn urls = Panicked w).
Proof.
  intros Hc Hp. unfold respond. rewrite Hc, Hp. cbn [String.eqb Ascii.eqb negb].
  set (Profiles := slice_elems w (p_Profiles (params c))).
  set (data := renditionData _ env urls).
  assert (Hlen : length (zip urls data) = length urls).
  { unfold data, renditionData. rewrite length_zip_with, length_fmap. lia. }
  split; [|split].
  - intros resp w' H j part Hj.
    destruct (write_parts Profiles seq0 env 0 (zip urls data)) as [parts ex] eqn:Hw.
    assert (parts = resp_parts resp) as Hparts
      by (destruct ex; try discriminate; injection H as <- _; reflexivity).
    rewrite <- Hparts in Hj.
    destruct (write_parts_indexed _ _ _ _ _ _ _ Hw j part Hj) as (p & [url d] & Hpj & Hi & Hat).
    apply lookup_zip_with_Some in Hi as (url' & d' & [= <- <-] & Hu & Hd).
    exists p, url. rewrite Hd. cbn [default]. repeat split; auto.
    unfold part_at in Hat. cbn [fst snd] in Hat.
    destruct (String.length d =? 0)%nat; [now subst part|].
    destruct Hat as (ext & _ & ->). reflexivity.
  - intros Hle.
    pose proof (write_parts_in_range Profiles seq0 env (zip urls data) 0%nat
                  ltac:(rewrite Hlen; simpl; fold Profiles; lia)) as Hnp.
    destruct (write_parts Profiles seq0 env 0 (zip urls data)) as [parts ex].
    destruct ex; eauto. now destruct Hnp.
  - intros Hlt Hio Hext.
    pose proof (write_parts_out_of_range Profiles seq0 env (zip urls data) Hio Hext 0%nat
                  ltac:(rewrite Hlen; simpl; lia)) as Hpanic.
    destruct (write_parts Profiles seq0 env 0 (zip urls data)) as [parts ex].
    simpl in Hpanic. now subst ex.
Qed.

(** ** What each step leaves alone *)

Lemma config_eq_refl (w : World) : config_eq w w.
Proof. repeat split. Qed.

Lemma config_eq_trans (w1 w2 w3 : World) :
  config_eq w1 w2 -> config_eq w2 w3 -> config_eq w1 w3.
Proof. unfold config_eq. intuition congruence. Qed.

Lemma registry_eq_refl (w : World) : registry_eq w w.
Proof. repeat split. Qed.

Lemma registry_eq_trans (w1 w2 w3 : World) :
  registry_eq w1 w2 -> registry_eq w2 w3 -> registry_eq w1 w3.
Proof. unfold registry_eq. intuition congruence. Qed.

Lemma arrays_grow_refl (w : World) : arrays_grow w w.
Proof. intros r _. reflexivity. Qed.

Lemma arrays_grow_length (w w' : World) :
  arrays_grow w w' -> (length (arrays w) <= length (arrays w'))%nat.
Proof.
  intros H. destruct (decide (length (arrays w) = 0%nat)) as [->|Hne]; [lia|].
  specialize (H (pred (length (arrays w))) ltac:(lia)).
  destruct (lookup_lt_is_Some_2 (arrays w) (pred (length (arrays w))) ltac:(lia))
    as [l Hl].
  rewrite Hl in H. apply lookup_lt_Some in H. lia.
Qed.

Lemma arrays_grow_trans (w1 w2 w3 : World) :
  arrays_grow w1 w2 -> arrays_grow w2 w3 -> arrays_grow w1 w3.
Proof.
  intros H1 H2 r Hr. rewrite <- (H1 r Hr). apply H2.
  pose proof (arrays_grow_length _ _ H1). lia.
Qed.

Lemma arrays_grow_app (w w' : World) (l : list (list VideoProfile)) :
  arrays w' = arrays w ++ l -> arrays_grow w w'.
Proof. intros H r Hr. rewrite H. now apply lookup_app_l. Qed.

Lemma arrays_grow_eq (w w' : World) : arrays w' = arrays w -> arrays_grow w w'.
Proof. intros H r _. now rewrite H. Qed.

Lemma alloc_array_frame (l : list VideoProfile) (w : World) :
  config_eq w (alloc_array l w).2 /\ registry_eq w (alloc_array l w).2
  /\ posts (alloc_array l w).2 = posts w
  /\ arrays (alloc_array l w).2 = (arrays w ++ [l])%list
  /\ (alloc_array l w).1 = length (arrays w).
Proof. repeat split. Qed.

Lemma slice_append_frame (w w' : World) (dst s : option nat) (src : list VideoProfile) :
  slice_append w dst src = (s, w') ->
  config_eq w w' /\ registry_eq w w' /\ posts w' = posts w
  /\ ((s = dst /\ w' = w /\ src = [])
      \/ (s = Some (length (arrays w))
          /\ arrays w' = (arrays w ++ [slice_elems w dst ++ src])%list)).
Proof.
  unfold slice_append. destruct src as [|p src].
  - intros [= <- <-]. repeat split. now left.
  - cbn. intros [= <- <-]. repeat split. now right.
Qed.

Lemma slice_append_grow (w w' : World) (dst s : option nat) (src : list VideoProfile) :
  slice_append w dst src = (s, w') -> arrays_grow w w'.
Proof.
  intros H. destruct (slice_append_frame _ _ _ _ _ H) as (_ & _ & _ & [(_ & -> & _)|[_ Ha]]).
  - apply arrays_grow_refl.
  - eapply arrays_grow_app. exact Ha.
Qed.

Lemma authenticateStream_frame (w w' : World) (post : string -> PostOutcome)
    (url : string) (res : option authWebhookResponse + string) :
  authenticateStream w post url = (res, w') ->
  config_eq w w' /\ registry_eq w w' /\ arrays w' = arrays w
  /\ (posts w' = posts w
      \/ posts w' = (posts w ++ [(AuthWebhookURL w, json_Marshal [("url", url)])])%list).
Proof.
  unfold authenticateStream.
  destruct (String.eqb (AuthWebhookURL w) "").
  { intros [= <- <-]. repeat split. now left. }
  assert (forall res0, (res0, add_post (AuthWebhookURL w, json_Marshal [("url", url)]) w)
                       = (res, w') ->
          config_eq w w' /\ registry_eq w w' /\ arrays w' = arrays w
          /\ (posts w' = posts w
              \/ posts w' = (posts w ++ [(AuthWebhookURL w, json_Marshal [("url", url)])])%list))
    as Hk.
  { intros res0 [= <- <-]. repeat split. now right. }
  repeat match goal with
         | |- context [match ?x with _ => _ end] => destruct x
         end; apply Hk.
Qed.

Lemma resolve_auth_frame (w w' : World) (profiles : option nat)
    (resp : option authWebhookResponse) (rs : option resolved) :
  resolve_auth w profiles resp = (rs, w') ->
  config_eq w w' /\ registry_eq w w' /\ posts w' = posts w /\ arrays_grow w w'.
Proof.
  unfold resolve_auth. destruct resp as [resp|].
  2:{ intros [= <- <-]. repeat split; try apply arrays_grow_refl. }
  set (w1 := (alloc_array (parsePresets (r_Presets resp)) w).2).
  assert (Hw1 : config_eq w w1 /\ registry_eq w w1 /\ posts w1 = posts w
                /\ arrays_grow w w1).
  { repeat split; try (eapply arrays_grow_app; reflexivity). }
  assert (Hstep : forall p0 w0,
            (config_eq w w0 /\ registry_eq w w0 /\ posts w0 = posts w /\ arrays_grow w w0) ->
            match jsonProfileToVideoProfile resp with
            | inl parsedProfiles =>
                let '(profiles1, w2) := slice_append w0 p0 parsedProfiles in
                let profiles2 :=
                  if (length (r_Profiles resp) <=? 0)%nat
                     && (length (r_Presets resp) <=? 0)%nat
                  then BroadcastJobVideoProfiles w2 else profiles1 in
                match parse_os (r_ObjectStore resp) false with
                | Some os =>
                    match parse_os (r_RecordObjectStore resp) true with
                    | Some ros =>
                        (Some {| rs_mid := parseManifestID (r_ManifestID resp);
                                 rs_key := r_StreamKey resp;
                                 rs_profiles := profiles2; rs_os := os; rs_ros := ros |},
                         w2)
                    | None => (None, w2)
                    end
                | None => (None, w2)
                end
            | inr _ => (None, w0)
            end = (rs, w') ->
            config_eq w w' /\ registry_eq w w' /\ posts w' = posts w /\ arrays_grow w w').
  { intros p0 w0 (Hc & Hr & Hp & Ha).
    destruct (jsonProfileToVideoProfile resp) as [parsed|]; [|intros [= <- <-]; auto].
    destruct (slice_append w0 p0 parsed) as [profiles1 w2] eqn:Happ.
    destruct (slice_append_frame _ _ _ _ _ Happ) as (Hc2 & Hr2 & Hp2 & _).
    pose proof (slice_append_grow _ _ _ _ _ Happ) as Ha2.
    assert (config_eq w w2 /\ registry_eq w w2 /\ posts w2 = posts w /\ arrays_grow w w2).
    { split; [eapply config_eq_trans; eauto|].
      split; [eapply registry_eq_trans; eauto|].
      split; [congruence|eapply arrays_grow_trans; eauto]. }
    cbn zeta.
    destruct (parse_os _ false); [|intros [= <- <-]; auto].
    destruct (parse_os _ true); intros [= <- <-]; auto. }
  destruct (0 <? length (r_Presets resp))%nat.
  - apply (Hstep _ w1 Hw1).
  - apply (Hstep _ w). repeat split; try apply arrays_grow_refl.
Qed.

Lemma createRTMPStreamIDHandler_frame (w w' : World) (env : PushEnv) (url : URL)
    (appData : option StreamParameters) :
  createRTMPStreamIDHandler w env url = (appData, w') ->
  config_eq w w' /\ registry_eq w w' /\ arrays_grow w w'
  /\ (posts w' = posts w
      \/ posts w' = (posts w ++ [(AuthWebhookURL w,
                                  json_Marshal [("url", URL_String url)])])%list)
  /\ forall params0, appData = Some params0 -> fresh_profiles w w' params0.
Proof.
  unfold createRTMPStreamIDHandler.
  destruct (alloc_array [] w) as [r0 w0] eqn:Halloc.
  assert (Hw0 : config_eq w w0 /\ registry_eq w w0 /\ posts w0 = posts w
                /\ arrays_grow w w0 /\ AuthWebhookURL w0 = AuthWebhookURL w).
  { injection Halloc as <- <-. repeat split; try (eapply arrays_grow_app; reflexivity). }
  destruct Hw0 as (Hc0 & Hr0 & Hp0 & Ha0 & Hu0).
  destruct (authenticateStream w0 (e_post env) (URL_String url)) as [res w1] eqn:Hauth.
  destruct (authenticateStream_frame _ _ _ _ _ Hauth) as (Hc1 & Hr1 & Ha1 & Hp1).
  assert (Hposts : posts w1 = posts w
            \/ posts w1 = (posts w ++ [(AuthWebhookURL w,
                                        json_Marshal [("url", URL_String url)])])%list).
  { rewrite <- Hp0, <- Hu0. exact Hp1. }
  assert (Hg1 : arrays_grow w w1).
  { eapply arrays_grow_trans; [exact Ha0|]. now apply arrays_grow_eq. }
  assert (Hcw1 : config_eq w w1) by (eapply config_eq_trans; eauto).
  assert (Hrw1 : registry_eq w w1) by (eapply registry_eq_trans; eauto).
  destruct res as [resp|err].
  2:{ intros [= <- <-]. repeat split; auto; try apply Hcw1; try apply Hrw1. discriminate. }
  destruct (resolve_auth w1 (Some r0) resp) as [rs w2] eqn:Hres.
  destruct (resolve_auth_frame _ _ _ _ _ Hres) as (Hc2 & Hr2 & Hp2 & Ha2).
  assert (Hcw2 : config_eq w w2) by (eapply config_eq_trans; eauto).
  assert (Hrw2 : registry_eq w w2) by (eapply registry_eq_trans; eauto).
  assert (Hg2 : arrays_grow w w2) by (eapply arrays_grow_trans; eauto).
  rewrite <- Hp2 in Hposts.
  destruct rs as [rs|].
  2:{ intros [= <- <-]. repeat split; auto; try apply Hcw2; try apply Hrw2. discriminate. }
  destruct (String.eqb (rs_mid rs) "");
    (destruct (_ && _);
     [intros [= <- <-]; repeat split; auto; try apply Hcw2; try apply Hrw2; discriminate|]);
    (destruct (slice_append w2 None (slice_elems w2 (rs_profiles rs))) as [copy w3] eqn:Hcopy;
     destruct (slice_append_frame _ _ _ _ _ Hcopy) as (Hc3 & Hr3 & Hp3 & Hshape);
     pose proof (slice_append_grow _ _ _ _ _ Hcopy) as Ha3;
     intros [= <- <-];
     (split; [eapply config_eq_trans; eauto|]);
     (split; [eapply registry_eq_trans; eauto|]);
     (split; [eapply arrays_grow_trans; eauto|]);
     (split; [rewrite Hp3; exact Hposts|]);
     intros params0 [= <-]; unfold fresh_profiles; cbn [p_Profiles];
     destruct Hshape as [(-> & _ & _)|[-> Harr]]; [exact I|];
     rewrite Harr, length_app; cbn [length];
     pose proof (arrays_grow_length _ _ Hg2); lia).
Qed.

(** ** The propagation of the format *)

Lemma set_arrays_id (w : World) : set_arrays (arrays w) w = w.
Proof. now destruct w. Qed.

Lemma set_arrays_set_arrays (a b : list (list VideoProfile)) (w : World) :
  set_arrays a (set_arrays b w) = set_arrays a w.
Proof. reflexivity. Qed.

Lemma alter_insert_same {A : Type} (g : A -> A) (r : nat) (x : A) (l : list A) :
  alter g r (<[r := x]> l) = <[r := g x]> l.
Proof.
  rewrite !list_insert_alter, list_alter_alter_eq. reflexivity.
Qed.

Lemma set_output_formats_loop (w : World) (r : nat) (l : list VideoProfile)
    (format : Z) :
  arrays w !! r = Some l ->
  forall n, (n <= length l)%nat ->
    foldl (fun w i =>
             match slice_elems w (Some r) !! i with
             | Some v =>
                 if VFormat v =? FormatNone
                 then slice_update w (Some r) i (set_VFormat format)
                 else w
             | None => w
             end) w (seq 0 n)
    = set_arrays (<[r := (fill_format format <$> take n l) ++ drop n l]> (arrays w)) w.
Proof.
  intros Hr. induction n as [|n IH]; intros Hn.
  - cbn [seq foldl take drop fmap list_fmap app].
    rewrite list_insert_id by exact Hr. symmetry. apply set_arrays_id.
  - rewrite seq_S, foldl_app, IH by lia. cbn [foldl Nat.add].
    destruct (lookup_lt_is_Some_2 l n ltac:(lia)) as [v Hv].
    set (l1 := fill_format format <$> take n l).
    assert (Hl1 : length l1 = n).
    { unfold l1. rewrite length_fmap, length_take. lia. }
    assert (Hdrop : drop n l = v :: drop (S n) l) by (now apply drop_S).
    assert (Hrlt : (r < length (arrays w))%nat) by (now apply lookup_lt_Some in Hr).
    assert (Helems : slice_elems
                       (set_arrays (<[r := l1 ++ drop n l]> (arrays w)) w) (Some r)
                     = l1 ++ drop n l).
    { unfold slice_elems. cbn [arrays set_arrays].
      now rewrite list_lookup_insert_eq by exact Hrlt. }
    rewrite Helems.
    assert ((l1 ++ drop n l) !! n = Some v) as ->.
    { rewrite lookup_app_r by lia. rewrite Hl1, Nat.sub_diag, Hdrop. reflexivity. }
    assert (Hnext : fill_format format <$> take (S n) l = l1 ++ [fill_format format v]).
    { rewrite (take_S_r _ _ _ Hv), fmap_app. reflexivity. }
    rewrite Hnext, <- app_assoc. cbn [app].
    unfold fill_format.
    destruct (VFormat v =? FormatNone).
    + unfold slice_update. rewrite set_arrays_set_arrays.
      cbn [arrays set_arrays]. f_equal.
      rewrite alter_insert_same. f_equal.
      rewrite Hdrop. rewrite <- (Nat.add_0_r n) at 1. rewrite <- Hl1 at 1.
      rewrite alter_app_r. reflexivity.
    + now rewrite Hdrop.
Qed.

Lemma set_output_formats_array (w : World) (r : nat) (l : list VideoProfile)
    (format : Z) :
  arrays w !! r = Some l ->
  set_output_formats w (Some r) format
  = set_arrays (<[r := fill_format format <$> l]> (arrays w)) w.
Proof.
  intros Hr. unfold set_output_formats.
  assert (slice_elems w (Some r) = l) as Hl by (unfold slice_elems; now rewrite Hr).
  rewrite Hl at 1.
  rewrite (set_output_formats_loop w r l format Hr (length l)) by lia.
  now rewrite firstn_all, drop_all, app_nil_r.
Qed.

Lemma set_output_formats_none (w : World) (s : option nat) (format : Z) :
  slice_elems w s = [] -> set_output_formats w s format = w.
Proof. intros H. unfold set_output_formats. now rewrite H. Qed.

(** The loop sets the format of the entries that have none, in the
    array of the slice only. *)
Lemma set_output_formats_frame (w : World) (s : option nat) (format : Z) :
  config_eq w (set_output_formats w s format)
  /\ registry_eq w (set_output_formats w s format)
  /\ posts (set_output_formats w s format) = posts w
  /\ length (arrays (set_output_formats w s format)) = length (arrays w)
  /\ slice_elems (set_output_formats w s format) s
     = fill_format format <$> slice_elems w s
  /\ forall r, s <> Some r ->
       arrays (set_output_formats w s format) !! r = arrays w !! r.
Proof.
  destruct s as [r|].
  - destruct (arrays w !! r) as [l|] eqn:Hr.
    + rewrite (set_output_formats_array w r l format Hr).
      repeat split.
      * cbn [arrays set_arrays]. apply length_insert.
      * unfold slice_elems. cbn [arrays set_arrays].
        rewrite Hr. rewrite list_lookup_insert_eq by (now apply lookup_lt_Some in Hr).
        reflexivity.
      * intros r' Hne. cbn [arrays set_arrays].
        apply list_lookup_insert_ne. congruence.
    + rewrite set_output_formats_none by (unfold slice_elems; now rewrite Hr).
      repeat split. unfold slice_elems. now rewrite Hr.
  - rewrite set_output_formats_none by reflexivity. repeat split.
Qed.

(** ** registerConnection *)

Lemma registerConnection_cases (w w' : World) (rtmpStrm : RTMPVideoStream)
    (params0 : StreamParameters) (nonce0 now : Z) (cxn : option nat)
    (err : option goerr) :
  registerConnection w rtmpStrm (Some params0) nonce0 now = (cxn, err, w') ->
  (cxn = None /\ w' = w
   /\ (err = Some errStorage \/ exists msg, err = Some (errOther msg)))
  \/ (exists oldCxn,
        rtmpConnections w !! p_ManifestID params0 = Some oldCxn
        /\ cxn = Some oldCxn /\ err = Some errAlreadyExists /\ w' = w)
  \/ (rtmpConnections w !! p_ManifestID params0 = None
      /\ cxn = Some (length (heap w)) /\ err = None
      /\ exists c h,
           w' = set_last (p_ManifestID params0) h
                  (set_registry
                     (<[p_ManifestID params0 := length (heap w)]> (rtmpConnections w))
                     (internalManifests w)
                     (set_heap (heap w ++ [c]) w))
           /\ built_from params0 rtmpStrm nonce0 now c).
Proof.
  unfold registerConnection.
  destruct (NodeStorage w) as [nodeStorage|].
  2:{ intros [= <- <- <-]. left. auto. }
  destruct (JobCapabilities _ _) as [caps|msg].
  2:{ intros [= <- <- <-]. left. eauto. }
  destruct (rtmpConnections w !! p_ManifestID params0) as [oldCxn|] eqn:Hold.
  { intros [= <- <- <-]. right. left. eauto. }
  unfold registerConnection_commit. cbn [rtmpConnections set_heap]. rewrite Hold.
  intros [= <- <- <-]. right. right. repeat split.
  eexists. eexists. split; [reflexivity|].
  unfold built_from. cbn.
  repeat split; try reflexivity; eauto.
  - destruct (String.eqb (p_Resolution params0) ""); reflexivity.
  - destruct (String.eqb (p_Resolution params0) ""); reflexivity.
  - destruct (String.eqb (p_Resolution params0) ""); reflexivity.
Qed.

Lemma registerConnection_frame (w w' : World) (rtmpStrm : RTMPVideoStream)
    (params0 : StreamParameters) (nonce0 now : Z) (cxn : option nat)
    (err : option goerr) :
  registerConnection w rtmpStrm (Some params0) nonce0 now = (cxn, err, w') ->
  config_eq w w' /\ arrays w' = arrays w /\ posts w' = posts w
  /\ internalManifests w' = internalManifests w /\ watchdogs w' = watchdogs w.
Proof.
  intros H. apply registerConnection_cases in H
    as [(_ & -> & _)|[(old & _ & _ & _ & ->)|(_ & _ & _ & c & h & -> & _)]];
    repeat split.
Qed.

(** ** Steps that touch the registry only, or [lastUsed] only *)

Lemma removeRTMPStream_frame (w : World) (extmid : ManifestID) :
  config_eq w (world_of (removeRTMPStream w extmid))
  /\ arrays (world_of (removeRTMPStream w extmid)) = arrays w
  /\ posts (world_of (removeRTMPStream w extmid)) = posts w
  /\ watchdogs (world_of (removeRTMPStream w extmid)) = watchdogs w
  /\ length (heap (world_of (removeRTMPStream w extmid))) = length (heap w).
Proof.
  unfold removeRTMPStream.
  destruct (rtmpConnections w !! resolve w extmid) as [a|]; [|repeat split].
  destruct (heap w !! a) as [cxn|]; [|repeat split].
  destruct (pl cxn) as [p|]; repeat split.
  cbn. apply length_insert.
Qed.

Lemma rebindExternal_frame (w : World) (cxn : nat) (mid0 : ManifestID) :
  config_eq w (world_of (rebindExternal w cxn mid0))
  /\ arrays (world_of (rebindExternal w cxn mid0)) = arrays w
  /\ posts (world_of (rebindExternal w cxn mid0)) = posts w
  /\ watchdogs (world_of (rebindExternal w cxn mid0)) = watchdogs w
  /\ heap (world_of (rebindExternal w cxn mid0)) = heap w
  /\ rtmpConnections (world_of (rebindExternal w cxn mid0)) = rtmpConnections w.
Proof.
  unfold rebindExternal.
  destruct (heap w !! cxn) as [c|]; [|repeat split].
  destruct (negb _); repeat split.
Qed.

Lemma set_lastUsed_id (c : rtmpConnection) : set_lastUsed (lastUsed c) c = c.
Proof. now destruct c. Qed.

Lemma same_connection_refl (c : rtmpConnection) : same_connection c c.
Proof. repeat split. Qed.

Lemma same_connection_trans (c1 c2 c3 : rtmpConnection) :
  same_connection c1 c2 -> same_connection c2 c3 -> same_connection c1 c3.
Proof. unfold same_connection. intuition congruence. Qed.

Lemma same_connection_lastUsed (c : rtmpConnection) (t : Z) :
  same_connection c (set_lastUsed t c).
Proof. repeat split. Qed.

Lemma same_connection_bytes (c : rtmpConnection) (sb tb : Z) :
  same_connection c (add_bytes sb tb c).
Proof. repeat split. Qed.

Lemma only_usage_refl (w : World) : only_usage w w.
Proof.
  repeat split. intros a c Hc. exists c. split; [exact Hc|apply same_connection_refl].
Qed.

Lemma only_usage_trans (w1 w2 w3 : World) :
  only_usage w1 w2 -> only_usage w2 w3 -> only_usage w1 w3.
Proof.
  intros (Hc & Ha & Hp & Hr & Hi & Hw & Hl & Hh) (Hc' & Ha' & Hp' & Hr' & Hi' & Hw' & Hl' & Hh').
  split; [eapply config_eq_trans; eauto|].
  repeat split; try congruence.
  intros a c Hac. destruct (Hh a c Hac) as (c2 & Hc2 & Hs2).
  destruct (Hh' a _ Hc2) as (c3 & Hc3 & Hs3). exists c3.
  split; [exact Hc3|eapply same_connection_trans; eauto].
Qed.

(** One connection object replaced by one that differs in its usage. *)
Lemma insert_usage (w : World) (a : nat) (c c' : rtmpConnection) :
  heap w !! a = Some c -> same_connection c c' ->
  only_usage w (set_heap (<[a := c']> (heap w)) w).
Proof.
  intros Hc Hs. repeat split.
  - cbn. apply length_insert.
  - intros a0 c0 Hc0. cbn. destruct (decide (a = a0)) as [<-|Hne].
    + rewrite Hc in Hc0. injection Hc0 as <-. exists c'. split; [|exact Hs].
      apply list_lookup_insert_eq. now apply lookup_lt_Some in Hc.
    + exists c0. rewrite list_lookup_insert_ne by exact Hne.
      split; [exact Hc0|apply same_connection_refl].
Qed.

Lemma set_lastUsed_at (w : World) (a : nat) (c : rtmpConnection) (t : Z) :
  heap w !! a = Some c ->
  only_usage w (set_heap (<[a := set_lastUsed t c]> (heap w)) w).
Proof. intros Hc. eapply insert_usage; [exact Hc|apply same_connection_lastUsed]. Qed.

Lemma alter_lastUsed (w : World) (a : nat) (t : Z) :
  only_usage w (set_heap (alter (set_lastUsed t) a (heap w)) w).
Proof.
  repeat split.
  - cbn. apply length_alter.
  - intros a' c' Hc'. cbn. destruct (decide (a = a')) as [<-|Hne].
    + exists (set_lastUsed t c'). rewrite list_lookup_alter_eq, Hc'.
      split; [reflexivity|apply same_connection_lastUsed].
    + exists c'. rewrite list_lookup_alter_ne by exact Hne.
      split; [exact Hc'|apply same_connection_refl].
Qed.

Lemma processSegment_frame (w : World) (env : PushEnv) (cxn : nat) (seg : HLSSegment) :
  only_usage w (world_of (processSegment w env cxn seg)).
Proof.
  unfold processSegment.
  destruct (heap w !! cxn) as [c|] eqn:Hc; [|apply only_usage_refl].
  destruct (e_processBytes env cxn seg) as [sb tb]. cbn [world_of].
  eapply insert_usage; [exact Hc|apply same_connection_bytes].
Qed.

Lemma kicker_tick_frame (w : World) (m : ManifestID) (now : Z) :
  only_usage w (world_of (kicker_tick w m now)).
Proof.
  unfold kicker_tick.
  destruct (rtmpConnections w !! m) as [a|]; [|apply only_usage_refl].
  destruct (heap w !! a) as [c|] eqn:Hc; [|apply only_usage_refl].
  now apply set_lastUsed_at.
Qed.

Lemma kicker_frame (m : ManifestID) (evs : list kickerEvent) :
  forall w, only_usage w (world_of (kicker w m evs)).
Proof.
  induction evs as [|[|t] evs IH]; intros w; try apply only_usage_refl.
  cbn [kicker]. pose proof (kicker_tick_frame w m t) as Htick.
  destruct (kicker_tick w m t) as [[] w1|w1]; [|exact Htick].
  pose proof (IH w1) as Hrest.
  destruct (kicker w1 m evs) as [[st timers] w2|w2];
    eapply only_usage_trans; eauto.
Qed.

Lemma respond_frame (w : World) (env : PushEnv) (accept : string) (seq0 : Z)
    (cxn : nat) (urls : list string) :
  world_of (respond w env accept seq0 cxn urls) = w.
Proof.
  unfold respond.
  repeat match goal with
         | |- context [match ?x with _ => _ end] => destruct x
         end; reflexivity.
Qed.

Lemma HandlePush_process_frame (w : World) (env : PushEnv) (r : Request)
    (url : URL) (ext body : string) (cxn : nat) (m : ManifestID) :
  only_usage w (world_of (HandlePush_process w env r url ext body cxn m)).
Proof.
  unfold HandlePush_process.
  match goal with |- context [kicker w m ?evs] =>
    pose proof (kicker_frame m evs w) as Hk; destruct (kicker w m evs) as [? w1|w1]
  end; [|exact Hk].
  cbn [world_of] in Hk.
  match goal with |- context [processSegment w1 env cxn ?s] =>
    pose proof (processSegment_frame w1 env cxn s) as Hps;
    destruct (processSegment w1 env cxn s) as [[urls|err] w2|w2]
  end; cbn [world_of] in Hps.
  - destruct (e_ctxDone env); [eapply only_usage_trans; eauto|].
    destruct (length urls =? 0)%nat; [eapply only_usage_trans; eauto|].
    rewrite respond_frame. eapply only_usage_trans; eauto.
  - eapply only_usage_trans; eauto.
  - eapply only_usage_trans; eauto.
Qed.

(** ** What a push leaves alone *)

Lemma push_frame_step (w w1 w2 : World) (url : string) :
  push_frame w w1 url ->
  config_eq w1 w2 -> arrays w2 = arrays w1 -> posts w2 = posts w1 ->
  push_frame w w2 url.
Proof.
  intros (Hc & Ha & Hp) Hc' Ha' Hp'.
  split; [eapply config_eq_trans; eauto|].
  split; [eapply arrays_grow_trans; eauto; now apply arrays_grow_eq|].
  unfold posts_at_most in *. now rewrite Hp'.
Qed.

Lemma push_frame_lastUsed (w w1 w2 : World) (url : string) :
  push_frame w w1 url -> only_usage w1 w2 -> push_frame w w2 url.
Proof.
  intros H (Hc & Ha & Hp & _). eapply push_frame_step; eauto.
Qed.

Lemma push_frame_refl (w : World) (url : string) : push_frame w w url.
Proof.
  split; [apply config_eq_refl|]. split; [apply arrays_grow_refl|now left].
Qed.

Lemma set_output_formats_fresh (w w1 w2 : World) (params0 : StreamParameters)
    (format : Z) :
  arrays_grow w w1 -> fresh_profiles w w1 params0 ->
  arrays w2 = arrays w1 ->
  arrays_grow w (set_output_formats w2 (p_Profiles params0) format).
Proof.
  intros Hg Hfresh Heq r Hr.
  destruct (set_output_formats_frame w2 (p_Profiles params0) format)
    as (_ & _ & _ & _ & _ & Hother).
  rewrite Hother, Heq; [now apply Hg|].
  unfold fresh_profiles in Hfresh. intros Hs. rewrite Hs in Hfresh. lia.
Qed.

Lemma HandlePush_collision_frame (w : World) (env : PushEnv) (m mid0 : ManifestID) :
  config_eq w (world_of (HandlePush_collision w env m mid0))
  /\ arrays (world_of (HandlePush_collision w env m mid0)) = arrays w
  /\ posts (world_of (HandlePush_collision w env m mid0)) = posts w
  /\ watchdogs (world_of (HandlePush_collision w env m mid0)) = watchdogs w.
Proof.
  unfold HandlePush_collision.
  destruct (_ && _); [|repeat split].
  destruct (_ && _); [|repeat split].
  match goal with |- context [removeRTMPStream w ?e] =>
    pose proof (removeRTMPStream_frame w e) as (Hc & Ha & Hp & Hw & _);
    destruct (removeRTMPStream w e); auto
  end.
Qed.

Lemma HandlePush_register_frame (w : World) (env : PushEnv) (url : URL)
    (hdr : Header) (format : Z) (mid0 : ManifestID) :
  push_frame w (world_of (HandlePush_register w env url hdr format mid0))
             (URL_String url).
Proof.
  unfold HandlePush_register.
  destruct (createRTMPStreamIDHandler w env url) as [appData w1] eqn:Hcreate.
  destruct (createRTMPStreamIDHandler_frame _ _ _ _ _ Hcreate)
    as (Hc1 & Hr1 & Ha1 & Hp1 & Hfresh).
  assert (Hf1 : push_frame w w1 (URL_String url))
    by (split; [exact Hc1|split; [exact Ha1|exact Hp1]]).
  destruct appData as [params0|]; [|exact Hf1].
  specialize (Hfresh params0 eq_refl).
  set (params1 := set_Resolution_Format (h_ContentResolution hdr) format params0).
  pose proof (HandlePush_collision_frame w1 env (p_ManifestID params1) mid0)
    as (Hc2 & Ha2 & Hp2 & _).
  destruct (HandlePush_collision w1 env (p_ManifestID params1) mid0) as [[] w2|w2];
    cbn [world_of] in *.
  2:{ eapply push_frame_step; eauto. }
  set (w3 := set_output_formats w2 (p_Profiles params1) format).
  assert (Hf3 : push_frame w w3 (URL_String url)).
  { destruct (set_output_formats_frame w2 (p_Profiles params1) format)
      as (Hc3 & _ & Hp3 & _).
    split; [eapply config_eq_trans; [exact Hc1|eapply config_eq_trans; eauto]|].
    split; [eapply (set_output_formats_fresh w w1 w2 params0); eauto|].
    unfold posts_at_most, w3. rewrite Hp3, Hp2. exact Hp1. }
  destruct (registerConnection w3 _ (Some params1) (e_nonce env) (e_regNow env))
    as [[cxn err] w4] eqn:Hreg.
  destruct (registerConnection_frame _ _ _ _ _ _ _ _ Hreg) as (Hc4 & Ha4 & Hp4 & _).
  assert (Hf4 : push_frame w w4 (URL_String url)) by (eapply push_frame_step; eauto).
  assert (Hrebind : forall w5 a,
            push_frame w w5 (URL_String url) ->
            push_frame w
              (world_of match rebindExternal w5 a mid0 with
                        | Ok m w6 => Ok (inr (a, m)) w6
                        | Panicked w6 => @Panicked (Response + (nat * string)) w6
                        end) (URL_String url)).
  { intros w5 a Hf5.
    pose proof (rebindExternal_frame w5 a mid0) as (Hc & Ha & Hp & _).
    destruct (rebindExternal w5 a mid0); eapply push_frame_step; eauto. }
  destruct err as [e|].
  - destruct e, cxn as [a|]; try exact Hf4. now apply Hrebind.
  - destruct cxn as [a|]; [|exact Hf4].
    destruct (time_NewTicker (httpPushTimeout w4)); [|exact Hf4]. cbn [negb].
    destruct (heap w4 !! a) as [c|]; [|exact Hf4].
    apply Hrebind. eapply push_frame_step; [exact Hf4| | |]; repeat split.
Qed.

Lemma HandlePush_frame (w : World) (env : PushEnv) (r : Request) :
  push_frame w (world_of (HandlePush w env r))
    (URL_String {| Scheme := "http"; Opaque := ""; Host := r_Host r;
                   Path := Path (r_URL r); RawQuery := ""; Fragment := "" |}).
Proof.
  unfold HandlePush.
  destruct (_ && _); [apply push_frame_refl|].
  destruct (r_Body r) as [body|]; [|apply push_frame_refl].
  destruct (FormatNone =? _); [apply push_frame_refl|].
  destruct (String.eqb _ ""); [apply push_frame_refl|].
  destruct (rtmpConnections w !! _) as [cxn|].
  - eapply push_frame_lastUsed; [|apply HandlePush_process_frame].
    eapply push_frame_lastUsed; [apply push_frame_refl|apply alter_lastUsed].
  - match goal with |- context [HandlePush_register w env ?u ?h ?f ?m] =>
      pose proof (HandlePush_register_frame w env u h f m) as Hreg;
      destruct (HandlePush_register w env u h f m) as [[resp|[cxn m2]] w1|w1]
    end; try exact Hreg.
    eapply push_frame_lastUsed; [exact Hreg|apply HandlePush_process_frame].
Qed.

(** ** The default profiles *)

Lemma defaults_kept (w w' : World) :
  defaults_allocated w -> config_eq w w' -> arrays_grow w w' ->
  defaults_allocated w'
  /\ BroadcastJobVideoProfiles w' = BroadcastJobVideoProfiles w
  /\ slice_elems w' (BroadcastJobVideoProfiles w')
     = slice_elems w (BroadcastJobVideoProfiles w).
Proof.
  intros Hd (Hb & _) Hg. unfold defaults_allocated, slice_elems in *.
  rewrite Hb. destruct (BroadcastJobVideoProfiles w) as [r|]; [|auto].
  pose proof (arrays_grow_length _ _ Hg).
  repeat split; [lia|]. now rewrite (Hg r Hd).
Qed.

(** C3. After any sequence of pushes the variable
    [BroadcastJobVideoProfiles] is the slice it was and its backing
    array holds the elements it held; so if every default profile had
    the format [FormatNone] before, every one has it after.  The
    profiles of a new connection live in an array that the stream-id
    handler allocates as a copy, and the format is set in that array
    only. *)
Theorem defaults_never_mutated (w : World) (reqs : list (PushEnv * Request)) :
  defaults_allocated w ->
  BroadcastJobVideoProfiles (pushes w reqs) = BroadcastJobVideoProfiles w
  /\ slice_elems (pushes w reqs) (BroadcastJobVideoProfiles (pushes w reqs))
     = slice_elems w (BroadcastJobVideoProfiles w)
  /\ (Forall (fun p => VFormat p = FormatNone)
             (slice_elems w (BroadcastJobVideoProfiles w)) ->
      Forall (fun p => VFormat p = FormatNone)
             (slice_elems (pushes w reqs)
                          (BroadcastJobVideoProfiles (pushes w reqs)))).
Proof.
  revert w. unfold pushes.
  induction reqs as [|[env r] reqs IH]; intros w Hd.
  - repeat split; auto.
  - cbn [foldl fst snd].
    destruct (HandlePush_frame w env r) as (Hc & Hg & _).
    destruct (defaults_kept _ _ Hd Hc Hg) as (Hd' & Hb & He).
    destruct (IH _ Hd') as (IHb & IHe & _).
    assert (Helems : slice_elems
                       (foldl (fun w0 er => world_of (HandlePush w0 er.1 er.2))
                              (world_of (HandlePush w env r)) reqs)
                       (BroadcastJobVideoProfiles
                          (foldl (fun w0 er => world_of (HandlePush w0 er.1 er.2))
                                 (world_of (HandlePush w env r)) reqs))
                     = slice_elems w (BroadcastJobVideoProfiles w))
      by congruence.
    split; [congruence|]. split; [exact Helems|].
    intros Hall. now rewrite Helems.
Qed.

(** ** The URL sent to the webhook *)

Lemma append_empty_r (s : string) : s +:+ "" = s.
Proof.
  induction s as [|c s IH]; [reflexivity|].
  change (String c (s +:+ "") = String c s). now rewrite IH.
Qed.

Lemma rebuilt_URL_String (host path : string) :
  first_is_slash path = true ->
  first_is_slash (url_EscapedPath path) = true ->
  URL_String {| Scheme := "http"; Opaque := ""; Host := host; Path := path;
                RawQuery := ""; Fragment := "" |}
  = "http://" +:+ (if nonempty host then url_escapeHost host else "")
              +:+ url_EscapedPath path.
Proof.
  intros Hp He. unfold URL_String.
  cbn [Scheme Opaque Host Path RawQuery Fragment].
  assert (nonempty path = true) as Hne by (destruct path; [discriminate|reflexivity]).
  rewrite He, Hne, orb_true_r. cbn [nonempty String.eqb negb andb orb].
  rewrite andb_false_r. cbn. now rewrite append_empty_r.
Qed.

Lemma eqb_false (s t : string) : s <> t -> String.eqb s t = false.
Proof. intros H. now apply String.eqb_neq. Qed.


(** *** The request that the webhook is sent *)

Lemma authenticateStream_posts (w : World) (post : string -> PostOutcome)
    (url : string) :
  posts (authenticateStream w post url).2
  = if String.eqb (AuthWebhookURL w) "" then posts w
    else posts w ++ [(AuthWebhookURL w, json_Marshal [("url", url)])].
Proof.
  unfold authenticateStream.
  destruct (String.eqb (AuthWebhookURL w) ""); [reflexivity|].
  destruct (post _) as [err|code rbody]; [reflexivity|].
  destruct (negb _); [reflexivity|].
  destruct (_ =? _)%nat; [reflexivity|].
  destruct (json_Unmarshal rbody) as [authResp|err]; [|reflexivity].
  destruct (String.eqb _ ""); reflexivity.
Qed.

Lemma createRTMPStreamIDHandler_posts (w : World) (env : PushEnv) (url : URL) :
  posts (createRTMPStreamIDHandler w env url).2
  = if String.eqb (AuthWebhookURL w) "" then posts w
    else posts w ++ [(AuthWebhookURL w, json_Marshal [("url", URL_String url)])].
Proof.
  unfold createRTMPStreamIDHandler.
  destruct (alloc_array [] w) as [r0 w0] eqn:Halloc.
  assert (Hw0 : posts w0 = posts w /\ AuthWebhookURL w0 = AuthWebhookURL w).
  { injection Halloc as <- <-. split; reflexivity. }
  destruct Hw0 as [Hp0 Hu0].
  pose proof (authenticateStream_posts w0 (e_post env) (URL_String url)) as Hp1.
  rewrite Hp0, Hu0 in Hp1.
  destruct (authenticateStream w0 (e_post env) (URL_String url)) as [res w1].
  cbn [snd] in Hp1. rewrite <- Hp1.
  destruct res as [resp|err]; [|reflexivity].
  destruct (resolve_auth w1 (Some r0) resp) as [rs w2] eqn:Hres.
  destruct (resolve_auth_frame _ _ _ _ _ Hres) as (_ & _ & Hp2 & _).
  rewrite <- Hp2.
  destruct rs as [rs|]; [|reflexivity].
  destruct (String.eqb (rs_mid rs) "");
    (destruct (_ && _); [reflexivity|]);
    (destruct (slice_append w2 None (slice_elems w2 (rs_profiles rs))) as [copy w3] eqn:Hcopy;
     destruct (slice_append_frame _ _ _ _ _ Hcopy) as (_ & _ & Hp3 & _);
     exact Hp3).
Qed.

(** After the stream-id handler, the registration branch sends nothing. *)
Lemma HandlePush_register_posts (w : World) (env : PushEnv) (url : URL)
    (hdr : Header) (format : Z) (mid0 : ManifestID) :
  posts (world_of (HandlePush_register w env url hdr format mid0))
  = posts (createRTMPStreamIDHandler w env url).2.
Proof.
  unfold HandlePush_register.
  destruct (createRTMPStreamIDHandler w env url) as [appData w1].
  destruct appData as [params0|]; [|reflexivity].
  set (params1 := set_Resolution_Format (h_ContentResolution hdr) format params0).
  pose proof (HandlePush_collision_frame w1 env (p_ManifestID params1) mid0)
    as (_ & _ & Hp2 & _).
  destruct (HandlePush_collision w1 env (p_ManifestID params1) mid0) as [[] w2|w2];
    cbn [world_of snd] in *; [|exact Hp2].
  set (w3 := set_output_formats w2 (p_Profiles params1) format).
  assert (Hp3 : posts w3 = posts w1).
  { destruct (set_output_formats_frame w2 (p_Profiles params1) format)
      as (_ & _ & H3 & _). unfold w3. now rewrite H3. }
  destruct (registerConnection w3 _ (Some params1) (e_nonce env) (e_regNow env))
    as [[cxn err] w4] eqn:Hreg.
  destruct (registerConnection_frame _ _ _ _ _ _ _ _ Hreg) as (_ & _ & Hp4 & _).
  assert (Hp4' : posts w4 = posts w1) by congruence.
  assert (Hrebind : forall w5 a,
            posts w5 = posts w1 ->
            posts (world_of match rebindExternal w5 a mid0 with
                            | Ok m w6 => Ok (inr (a, m)) w6
                            | Panicked w6 => @Panicked (Response + (nat * string)) w6
                            end) = posts w1).
  { intros w5 a H5.
    pose proof (rebindExternal_frame w5 a mid0) as (_ & _ & Hp & _).
    destruct (rebindExternal w5 a mid0); cbn [world_of] in *; congruence. }
  destruct err as [e|].
  - destruct e, cxn as [a|]; cbn [world_of]; try exact Hp4'. now apply Hrebind.
  - destruct cxn as [a|]; cbn [world_of]; [|exact Hp4'].
    destruct (negb _); cbn [world_of]; [exact Hp4'|].
    destruct (heap w4 !! a) as [c|]; cbn [world_of]; [|exact Hp4'].
    now apply Hrebind.
Qed.

(** C10. [HandlePush] looks at the URL of the request only for its
    path, once the method is POST or PUT: the same request with another
    scheme, query or fragment is handled the same.  The webhook is sent
    at most one body per push, the marshalled map whose one key url
    holds http:// followed by the host of the request and the path,
    both escaped as [URL.String] does (for a path that begins with a
    slash).  It is sent that body, once, by every push that passes the
    checks of the method, the body, the extension and the manifest id
    for a stream that is not registered, when a webhook is configured;
    and nothing in every other case. *)
Theorem webhook_url_rebuilt (w : World) (env : PushEnv) (r : Request) :
  first_is_slash (Path (r_URL r)) = true ->
  first_is_slash (url_EscapedPath (Path (r_URL r))) = true ->
  posts_at_most w (world_of (HandlePush w env r))
    ("http://" +:+ (if nonempty (r_Host r) then url_escapeHost (r_Host r) else "")
               +:+ url_EscapedPath (Path (r_URL r)))
  /\ (forall u,
        Path u = Path (r_URL r) ->
        Method r = "POST" \/ Method r = "PUT" ->
        HandlePush w env (with_URL u r) = HandlePush w env r)
  /\ ((Method r = "POST" \/ Method r = "PUT") ->
      (exists body, r_Body r = inl body) ->
      ProfileExtensionFormat (path_Ext (Path (r_URL r))) <> FormatNone ->
      parseManifestID (Path (r_URL r)) <> "" ->
      rtmpConnections w !! resolve w (parseManifestID (Path (r_URL r))) = None ->
      AuthWebhookURL w <> "" ->
      posts (world_of (HandlePush w env r))
      = posts w
        ++ [(AuthWebhookURL w,
             json_Marshal
               [("url",
                 "http://"
                 +:+ (if nonempty (r_Host r) then url_escapeHost (r_Host r) else "")
                 +:+ url_EscapedPath (Path (r_URL r)))])])
  /\ ((Method r <> "POST" /\ Method r <> "PUT")
      \/ (exists err, r_Body r = inr err)
      \/ ProfileExtensionFormat (path_Ext (Path (r_URL r))) = FormatNone
      \/ parseManifestID (Path (r_URL r)) = ""
      \/ is_Some (rtmpConnections w !! resolve w (parseManifestID (Path (r_URL r))))
      \/ AuthWebhookURL w = "" ->
      posts (world_of (HandlePush w env r)) = posts w).
Proof.
  intros Hp He.
  assert (Hposts : posts (world_of (HandlePush w env r))
            = if negb (String.eqb (Method r) "POST") && negb (String.eqb (Method r) "PUT")
              then posts w
              else match r_Body r with
                   | inr _ => posts w
                   | inl _ =>
                       if FormatNone =? ProfileExtensionFormat (path_Ext (Path (r_URL r)))
                       then posts w
                       else if String.eqb (parseManifestID (Path (r_URL r))) ""
                       then posts w
                       else match rtmpConnections w
                                  !! resolve w (parseManifestID (Path (r_URL r))) with
                            | Some _ => posts w
                            | None =>
                                if String.eqb (AuthWebhookURL w) "" then posts w
                                else posts w
                                     ++ [(AuthWebhookURL w,
                                          json_Marshal
                                            [("url",
                                              URL_String
                                                {| Scheme := "http"; Opaque := "";
                                                   Host := r_Host r;
                                                   Path := Path (r_URL r);
                                                   RawQuery := ""; Fragment := "" |})])]
                            end
                   end).
  { unfold HandlePush. cbn [Path].
    destruct (_ && _); [reflexivity|].
    destruct (r_Body r) as [body|]; [|reflexivity].
    destruct (FormatNone =? _); [reflexivity|].
    destruct (String.eqb _ ""); [reflexivity|].
    destruct (rtmpConnections w !! _) as [cxn|].
    - match goal with |- context [HandlePush_process ?w0 env r ?u ?x ?b ?cx ?m] =>
        destruct (HandlePush_process_frame w0 env r u x b cx m) as (_ & _ & Hpp & _)
      end. exact Hpp.
    - match goal with |- context [HandlePush_register w env ?u ?h ?f ?m] =>
        rewrite <- (createRTMPStreamIDHandler_posts w env u);
        pose proof (HandlePush_register_posts w env u h f m) as Hreg;
        destruct (HandlePush_register w env u h f m) as [[resp|[cxn m2]] w1|w1]
      end; cbn [world_of] in *; try exact Hreg.
      match goal with |- context [HandlePush_process ?w0 env r ?u ?x ?b ?cx ?m] =>
        destruct (HandlePush_process_frame w0 env r u x b cx m) as (_ & _ & Hpp & _)
      end. congruence. }
  rewrite (rebuilt_URL_String _ _ Hp He) in Hposts.
  split; [|split; [|split]].
  - rewrite <- (rebuilt_URL_String _ _ Hp He). apply HandlePush_frame.
  - intros u Hu Hm. unfold HandlePush.
    cbn [with_URL Method r_URL r_Host r_Header r_Body]. rewrite Hu.
    assert (negb (String.eqb (Method r) "POST") && negb (String.eqb (Method r) "PUT")
            = false) as ->.
    { destruct Hm as [-> | ->]; reflexivity. }
    destruct (r_Body r) as [body|]; [|reflexivity].
    destruct (FormatNone =? _); [reflexivity|].
    destruct (String.eqb _ ""); [reflexivity|].
    reflexivity.
  - intros Hm [body Hb] Hf Hmid Hnone Hurl. rewrite Hposts, Hb, Hnone.
    assert (negb (String.eqb (Method r) "POST") && negb (String.eqb (Method r) "PUT")
            = false) as ->.
    { destruct Hm as [-> | ->]; reflexivity. }
    destruct (Z.eqb_spec FormatNone (ProfileExtensionFormat (path_Ext (Path (r_URL r)))))
      as [E|_]; [congruence|].
    rewrite (eqb_false _ _ Hmid), (eqb_false _ _ Hurl). reflexivity.
  - intros Hcase. rewrite Hposts.
    destruct (String.eqb_spec (Method r) "POST") as [Hpost|Hpost];
      destruct (String.eqb_spec (Method r) "PUT") as [Hput|Hput]; cbn [negb andb];
      try reflexivity.
    all: destruct (r_Body r) as [body|err]; [|reflexivity].
    all: destruct (Z.eqb_spec FormatNone
                     (ProfileExtensionFormat (path_Ext (Path (r_URL r)))))
           as [Hf|Hf]; [reflexivity|].
    all: destruct (String.eqb_spec (parseManifestID (Path (r_URL r))) "")
           as [Hmid|Hmid]; [reflexivity|].
    all: destruct (rtmpConnections w !! _) as [cxn|]; [reflexivity|].
    all: destruct (String.eqb_spec (AuthWebhookURL w) "") as [Hurl|Hurl]; [reflexivity|].
    all: exfalso; destruct Hcase as [[H1 H2]|[[err H]|[H|[H|[[x H]|H]]]]];
      congruence.
Qed.

(** ** The formats of a new connection *)

Lemma created_by_usage (w w' : World) (env : PushEnv) (format : Z)
    (resolved0 : list VideoProfile) (a : nat) (c c' : rtmpConnection) :
  created_by w env format resolved0 a c ->
  same_connection c c' ->
  rtmpConnections w' = rtmpConnections w -> arrays w' = arrays w ->
  created_by w' env format resolved0 a c'.
Proof.
  intros (H1 & H2 & H3 & H4 & H5 & H6) (Hm & Hn & _ & _ & Hpr & Hpa & _) Hr Ha.
  unfold created_by, slice_elems in *.
  rewrite Hm, Hn, Hpr, Hpa, Hr, Ha. auto 10.
Qed.

Lemma only_usage_new (w w' : World) (a : nat) (c' : rtmpConnection) :
  only_usage w w' -> heap w' !! a = Some c' ->
  exists c, heap w !! a = Some c /\ same_connection c c'.
Proof.
  intros (_ & _ & _ & _ & _ & _ & Hl & Hh) Hc'.
  destruct (lookup_lt_is_Some_2 (heap w) a) as [c Hc].
  { apply lookup_lt_Some in Hc'. lia. }
  destruct (Hh a c Hc) as (c2 & Hc2 & Hs). exists c. split; [exact Hc|congruence].
Qed.

Lemma HandlePush_register_created (w : World) (env : PushEnv) (url : URL)
    (hdr : Header) (format : Z) (mid0 : ManifestID) (a : nat) (c : rtmpConnection) :
  (length (heap w) <= a)%nat ->
  heap (world_of (HandlePush_register w env url hdr format mid0)) !! a = Some c ->
  exists params0 w1,
    createRTMPStreamIDHandler w env url = (Some params0, w1)
    /\ mid c = p_ManifestID params0
    /\ created_by (world_of (HandlePush_register w env url hdr format mid0))
                  env format (slice_elems w1 (p_Profiles params0)) a c.
Proof.
  intros Hge. unfold HandlePush_register.
  destruct (createRTMPStreamIDHandler w env url) as [appData w1] eqn:Hcreate.
  destruct (createRTMPStreamIDHandler_frame _ _ _ _ _ Hcreate)
    as (Hc1 & Hr1 & Ha1 & Hp1 & Hfresh).
  destruct Hr1 as (Hrc1 & Him1 & Hh1 & _).
  assert (Hnone : forall w0, length (heap w0) = length (heap w) ->
            heap w0 !! a = Some c -> False).
  { intros w0 Hl H0. apply lookup_lt_Some in H0. lia. }
  destruct appData as [params0|].
  2:{ intros H0. destruct (Hnone w1); [congruence|exact H0]. }
  set (params1 := set_Resolution_Format (h_ContentResolution hdr) format params0).
  pose proof (HandlePush_collision_frame w1 env (p_ManifestID params1) mid0)
    as (Hc2 & Ha2 & Hp2 & _).
  assert (Hl2 : length (heap (world_of
                   (HandlePush_collision w1 env (p_ManifestID params1) mid0)))
                = length (heap w)).
  { unfold HandlePush_collision. rewrite <- Hh1.
    destruct (_ && _); [|reflexivity].
    destruct (_ && _); [|reflexivity].
    match goal with |- context [removeRTMPStream w1 ?e] =>
      pose proof (removeRTMPStream_frame w1 e) as (_ & _ & _ & _ & Hl);
      destruct (removeRTMPStream w1 e); exact Hl
    end. }
  destruct (HandlePush_collision w1 env (p_ManifestID params1) mid0) as [[] w2|w2];
    cbn [world_of] in *.
  2:{ intros H0. destruct (Hnone w2 Hl2 H0). }
  set (w3 := set_output_formats w2 (p_Profiles params1) format).
  destruct (set_output_formats_frame w2 (p_Profiles params1) format)
    as (Hc3 & Hr3 & Hp3 & Hl3 & He3 & Ho3).
  fold w3 in Hc3, Hr3, Hp3, Hl3, He3, Ho3.
  destruct Hr3 as (Hrc3 & Him3 & Hh3 & _).
  assert (Hlen3 : length (heap w3) = length (heap w)) by congruence.
  destruct (registerConnection w3 _ (Some params1) (e_nonce env) (e_regNow env))
    as [[cxn err] w4] eqn:Hreg.
  assert (Hrebind : forall w5 a5 resolved0,
            (heap w5 !! a = Some c -> mid c = p_ManifestID params0
                                      /\ created_by w5 env format resolved0 a c) ->
            heap (world_of match rebindExternal w5 a5 mid0 with
                           | Ok m w6 => Ok (inr (a5, m)) w6
                           | Panicked w6 => @Panicked (Response + (nat * string)) w6
                           end) !! a = Some c ->
            mid c = p_ManifestID params0
            /\ created_by (world_of match rebindExternal w5 a5 mid0 with
                                    | Ok m w6 => Ok (inr (a5, m)) w6
                                    | Panicked w6 =>
                                        @Panicked (Response + (nat * string)) w6
                                    end) env format resolved0 a c).
  { intros w5 a5 resolved0 H5.
    pose proof (rebindExternal_frame w5 a5 mid0) as (_ & Ha & _ & _ & Hh & Hr).
    destruct (rebindExternal w5 a5 mid0) as [m w6|w6]; cbn [world_of] in *;
      rewrite Hh; intros H6; destruct (H5 H6) as [Hm Hcr]; (split; [exact Hm|]);
      unfold created_by, slice_elems in *; rewrite Hr, Ha; exact Hcr. }
  apply registerConnection_cases in Hreg
    as [(-> & -> & Herr)|[(old & Hold & -> & -> & ->)|(Hfree & -> & -> & c1 & h & -> & Hb)]].
  - intros H0. exfalso. apply (Hnone w3 Hlen3).
    destruct Herr as [->|[msg ->]]; exact H0.
  - intros H0. exists params0, w1. split; [reflexivity|]. revert H0.
    apply Hrebind. intros H0. destruct (Hnone w3 Hlen3 H0).
  - destruct (Hb) as (Hmid & Hnonce & _ & _ & Hname & Hvf & Hprof & Hpf & _).
    match goal with
    | |- context [match heap ?w9 !! _ with _ => _ end] => set (w4 := w9)
    end.
    assert (Hw4 : heap w4 !! length (heap w3) = Some c1).
    { unfold w4. cbn. rewrite lookup_app_r by lia. now rewrite Nat.sub_diag. }
    assert (H4 : heap w4 !! a = Some c ->
                 mid c = p_ManifestID params0
                 /\ created_by w4 env format (slice_elems w1 (p_Profiles params0)) a c).
    { intros H0.
      assert (a = length (heap w3)) as ->.
      { apply lookup_lt_Some in H0. unfold w4 in H0. cbn in H0.
        rewrite length_app in H0. cbn in H0. lia. }
      change (heap w4 !! length (heap w3) = Some c) in H0.
      rewrite Hw4 in H0. injection H0 as <-.
      split; [exact Hmid|].
      unfold created_by. rewrite Hmid, Hnonce, Hname, Hvf, Hpf, Hprof.
      repeat split.
      + unfold w4. cbn. apply lookup_insert_eq.
      + transitivity (slice_elems w3 (p_Profiles params1)); [reflexivity|].
        rewrite He3. unfold slice_elems. now rewrite Ha2. }
    destruct (time_NewTicker (httpPushTimeout w4)); cbn [negb].
    2:{ intros H0. exists params0, w1. split; [reflexivity|]. now apply H4. }
    rewrite Hw4.
    intros H0. exists params0, w1. split; [reflexivity|]. revert H0.
    apply Hrebind. exact H4.
Qed.

Lemma fill_format_set (format : Z) (l : list VideoProfile) :
  format <> FormatNone ->
  Forall (fun p => VFormat p <> FormatNone) (fill_format format <$> l)
  /\ (Forall (fun p => VFormat p = FormatNone) l ->
      Forall (fun p => VFormat p = format) (fill_format format <$> l)).
Proof.
  intros Hf. split.
  - apply Forall_fmap, Forall_forall. intros p _. unfold fill_format. cbn.
    destruct (Z.eqb_spec (VFormat p) FormatNone); [exact Hf|assumption].
  - intros Hall. apply Forall_fmap. eapply Forall_impl; [exact Hall|].
    intros p Hp. unfold fill_format. cbn. now rewrite Hp.
Qed.

(** C8. A connection that a push creates (an object allocated during
    the push) is registered under its manifest id; its source profile
    has the format that the extension of the URL path stands for, which
    is not [FormatNone]; its profile list is the list that the
    stream-id handler resolved for the request, where every entry whose
    format was [FormatNone] has the format of the URL and the others
    keep theirs.  So no entry is left without format, and where all
    resolved entries had none, as the defaults and the presets have,
    every output profile has the format of the URL. *)
Theorem new_connection_formats (w : World) (env : PushEnv) (r : Request)
    (a : nat) (c : rtmpConnection) :
  (length (heap w) <= a)%nat ->
  heap (world_of (HandlePush w env r)) !! a = Some c ->
  ProfileExtensionFormat (path_Ext (Path (r_URL r))) <> FormatNone
  /\ rtmpConnections (world_of (HandlePush w env r)) !! mid c = Some a
  /\ VFormat (profile c) = ProfileExtensionFormat (path_Ext (Path (r_URL r)))
  /\ exists params0 w1,
       createRTMPStreamIDHandler w env
         {| Scheme := "http"; Opaque := ""; Host := r_Host r;
            Path := Path (r_URL r); RawQuery := ""; Fragment := "" |}
       = (Some params0, w1)
       /\ mid c = p_ManifestID params0
       /\ slice_elems (world_of (HandlePush w env r)) (p_Profiles (params c))
          = fill_format (ProfileExtensionFormat (path_Ext (Path (r_URL r))))
              <$> slice_elems w1 (p_Profiles params0)
       /\ Forall (fun p => VFormat p <> FormatNone)
            (slice_elems (world_of (HandlePush w env r)) (p_Profiles (params c)))
       /\ (Forall (fun p => VFormat p = FormatNone)
             (slice_elems w1 (p_Profiles params0)) ->
           Forall (fun p => VFormat p
                            = ProfileExtensionFormat (path_Ext (Path (r_URL r))))
             (slice_elems (world_of (HandlePush w env r)) (p_Profiles (params c)))).
Proof.
  intros Hge.
  assert (Hnone : forall w0, length (heap w0) = length (heap w) ->
            heap w0 !! a = Some c -> False).
  { intros w0 Hl H0. apply lookup_lt_Some in H0. lia. }
  set (format := ProfileExtensionFormat (path_Ext (Path (r_URL r)))).
  set (url := {| Scheme := "http"; Opaque := ""; Host := r_Host r;
                 Path := Path (r_URL r); RawQuery := ""; Fragment := "" |}).
  assert (Hfinish : forall w',
            format <> FormatNone ->
            (exists params0 w1,
               createRTMPStreamIDHandler w env url = (Some params0, w1)
               /\ mid c = p_ManifestID params0
               /\ created_by w' env format (slice_elems w1 (p_Profiles params0)) a c) ->
            format <> FormatNone
            /\ rtmpConnections w' !! mid c = Some a
            /\ VFormat (profile c) = format
            /\ exists params0 w1,
                 createRTMPStreamIDHandler w env url = (Some params0, w1)
                 /\ mid c = p_ManifestID params0
                 /\ slice_elems w' (p_Profiles (params c))
                    = fill_format format <$> slice_elems w1 (p_Profiles params0)
                 /\ Forall (fun p => VFormat p <> FormatNone)
                      (slice_elems w' (p_Profiles (params c)))
                 /\ (Forall (fun p => VFormat p = FormatNone)
                       (slice_elems w1 (p_Profiles params0)) ->
                     Forall (fun p => VFormat p = format)
                       (slice_elems w' (p_Profiles (params c))))).
  { intros w' Hf (params0 & w1 & Hcr & Hmid & Hreg & _ & _ & Hvf & _ & Hel).
    repeat split; auto. exists params0, w1.
    destruct (fill_format_set format (slice_elems w1 (p_Profiles params0)) Hf)
      as [Hall Hnone'].
    rewrite Hel. repeat split; auto. }
  unfold HandlePush.
  destruct (_ && _). { intros H0. destruct (Hnone w eq_refl H0). }
  destruct (r_Body r) as [body|]. 2:{ intros H0. destruct (Hnone w eq_refl H0). }
  fold url. change (ProfileExtensionFormat (path_Ext (Path url))) with format.
  destruct (Z.eqb_spec FormatNone format) as [Hf|Hf].
  { intros H0. destruct (Hnone w eq_refl H0). }
  assert (Hf' : format <> FormatNone) by congruence.
  destruct (String.eqb _ ""). { intros H0. destruct (Hnone w eq_refl H0). }
  destruct (rtmpConnections w !! _) as [cxn|].
  - intros H0. exfalso.
    match type of H0 with
    | heap (world_of (HandlePush_process ?w0 ?e ?r0 ?u ?x ?b ?cx ?m)) !! _ = _ =>
        pose proof (HandlePush_process_frame w0 e r0 u x b cx m) as Hp;
        pose proof (alter_lastUsed w cxn (e_now env)) as Ha
    end.
    destruct (only_usage_trans _ _ _ Ha Hp) as (_ & _ & _ & _ & _ & _ & Hl & _).
    eapply Hnone; [exact Hl|exact H0].
  - match goal with |- context [HandlePush_register w env url ?h format ?m] =>
      pose proof (HandlePush_register_created w env url h format m a) as Hreg;
      destruct (HandlePush_register w env url h format m) as [[resp|[cxn m2]] w1|w1]
    end; cbn [world_of] in *.
    + intros H0. apply Hfinish; [exact Hf'|]. now apply Hreg.
    + intros H0.
      match type of H0 with
      | heap (world_of (HandlePush_process ?w0 ?e ?r0 ?u ?x ?b ?cx ?m)) !! _ = _ =>
          pose proof (HandlePush_process_frame w0 e r0 u x b cx m) as Hp
      end.
      destruct (only_usage_new _ _ _ _ Hp H0) as (c0 & Hc0 & Hsame).
      destruct (Hreg c0 Hge Hc0) as (params0 & w2 & Hcr & Hmid & Hcb).
      apply Hfinish; [exact Hf'|]. exists params0, w2.
      split; [exact Hcr|].
      split; [destruct Hsame as (Hm & _); congruence|].
      destruct Hp as (_ & Harr & _ & Hrc & _).
      now apply (created_by_usage w1 _ _ _ _ _ c0).
    + intros H0. apply Hfinish; [exact Hf'|]. now apply Hreg.
Qed.

(** ** The invariant of the two maps *)

Lemma registerConnection_inv (w : World) (rtmpStrm : RTMPVideoStream)
    (appData : option StreamParameters) (nonce0 now : Z) :
  registry_inv w ->
  registry_inv (registerConnection w rtmpStrm appData nonce0 now).2.
Proof.
  intros Hinv. destruct appData as [params0|]; [|exact Hinv].
  destruct (registerConnection w rtmpStrm (Some params0) nonce0 now)
    as [[cxn err] w'] eqn:Hreg.
  apply registerConnection_cases in Hreg
    as [(_ & -> & _)|[(old & _ & _ & _ & ->)|(_ & _ & _ & c & h & -> & _)]];
    try exact Hinv.
  intros e i Hei. cbn in *. apply lookup_insert_is_Some.
  destruct (decide (p_ManifestID params0 = i)); [now left|right].
  split; [assumption|]. now apply (Hinv e i).
Qed.

Lemma rebindExternal_inv (w : World) (cxn : nat) (extmid : ManifestID) :
  registry_inv w -> registered w cxn ->
  registry_inv (world_of (rebindExternal w cxn extmid)).
Proof.
  intros Hinv Hreg. unfold rebindExternal.
  destruct (heap w !! cxn) as [c|] eqn:Hc; [|exact Hinv].
  destruct (negb _); [|exact Hinv].
  intros e i Hei. cbn in *.
  apply lookup_insert_Some in Hei as [[<- <-]|[_ Hei]].
  - now apply Hreg.
  - now apply (Hinv e i).
Qed.

Lemma removeRTMPStream_inv (w : World) (extmid : ManifestID) :
  registry_inv w -> sole_referrer w extmid ->
  registry_inv (world_of (removeRTMPStream w extmid)).
Proof.
  intros Hinv Hsole. unfold removeRTMPStream.
  destruct (rtmpConnections w !! resolve w extmid) as [a|]; [|exact Hinv].
  destruct (heap w !! a) as [c|]; [|exact Hinv].
  destruct (pl c) as [p|]; [|exact Hinv].
  intros e i Hei. cbn in *.
  apply lookup_delete_Some in Hei as [Hne Hei].
  rewrite lookup_delete_ne; [now apply (Hinv e i)|].
  intros <-. apply Hne. symmetry. now apply Hsole.
Qed.

(** C2 (as amended). The invariant, every external identity refers to a
    registered internal one, is kept by a sequence of registrations,
    rebinds of a registered connection and removals, provided each
    removal is called with the only external identity that is bound to
    the internal identity it ends.  One call of [removeRTMPStream]
    either deletes both the connection entry and the external entry of
    its argument, or changes nothing. *)
Theorem registry_inv_kept (w : World) (ops : list RegistryOp) :
  registry_inv w ->
  ops_guard w ops ->
  registry_inv (run_ops w ops)
  /\ forall w0 extmid, removal_atomic w0 extmid.
Proof.
  intros Hinv Hguard. split.
  - revert w Hinv Hguard. unfold run_ops.
    induction ops as [|op ops IH]; intros w Hinv Hguard; [exact Hinv|].
    destruct Hguard as [Hop Hrest]. cbn [foldl]. apply IH; [|exact Hrest].
    destruct op as [rtmpStrm appData nonce0 now|extmid|cxn extmid]; cbn in *.
    + now apply registerConnection_inv.
    + now apply removeRTMPStream_inv.
    + now apply rebindExternal_inv.
  - intros w0 extmid. unfold removal_atomic, removeRTMPStream.
    destruct (rtmpConnections w0 !! resolve w0 extmid) as [a|]; [|reflexivity].
    destruct (heap w0 !! a) as [c|]; [|reflexivity].
    destruct (pl c) as [p|]; [|reflexivity].
    split; reflexivity.
Qed.

(** ** A new external identity for a live internal one *)

Lemma registerConnection_success (w : World) (rtmpStrm : RTMPVideoStream)
    (params0 : StreamParameters) (nonce0 now : Z) :
  is_Some (NodeStorage w) ->
  (forall p l, exists caps, JobCapabilities p l = inl caps) ->
  rtmpConnections w !! p_ManifestID params0 = None ->
  exists c h,
    registerConnection w rtmpStrm (Some params0) nonce0 now
    = (Some (length (heap w)), None,
       set_last (p_ManifestID params0) h
         (set_registry
            (<[p_ManifestID params0 := length (heap w)]> (rtmpConnections w))
            (internalManifests w)
            (set_heap (heap w ++ [c]) w)))
    /\ built_from params0 rtmpStrm nonce0 now c.
Proof.
  intros [ns Hns] Hcaps Hfree.
  destruct (registerConnection w rtmpStrm (Some params0) nonce0 now)
    as [[cxn err] w'] eqn:Hreg.
  pose proof Hreg as Hcases.
  apply registerConnection_cases in Hcases
    as [(_ & _ & Herr)|[(old & Hold & _)|(_ & -> & -> & c & h & -> & Hb)]].
  - exfalso. revert Hreg. unfold registerConnection. rewrite Hns.
    match goal with |- context [JobCapabilities ?p ?l] =>
      destruct (Hcaps p l) as [caps ->]
    end.
    rewrite Hfree. unfold registerConnection_commit. cbn [rtmpConnections set_heap].
    rewrite Hfree. intros [= <- <- <-]. destruct Herr as [?|[? ?]]; discriminate.
  - congruence.
  - exists c, h. split; [reflexivity|exact Hb].
Qed.

Lemma find_oldStreamID_sole (order : list (string * string))
    (im : gmap string string) (e1 i : string) :
  order ≡ₚ map_to_list im ->
  im !! e1 = Some i ->
  (forall e, im !! e = Some i -> e = e1) ->
  find_oldStreamID order i = e1.
Proof.
  intros Hperm He1 Hsole. unfold find_oldStreamID.
  destruct (List.find _ order) as [[k v]|] eqn:Hfind.
  - apply find_some in Hfind as [Hin Hv]. cbn in *.
    apply String.eqb_eq in Hv. subst v.
    apply Hsole. apply elem_of_map_to_list. rewrite <- Hperm.
    now apply list_elem_of_In.
  - exfalso. eapply find_none in Hfind.
    2:{ apply list_elem_of_In. rewrite Hperm. apply elem_of_map_to_list. exact He1. }
    cbn in Hfind. now rewrite String.eqb_refl in Hfind.
Qed.





Lemma write_parts_completes (Profiles : list VideoProfile) (seq0 : Z)
    (env : PushEnv) (items : list (string * string)) :
  (forall j, e_createPartErr env j = false /\ e_writeErr env j = false) ->
  (forall j p, Profiles !! j = Some p ->
     exists ext, ProfileFormatExtension (VFormat p) = inl ext) ->
  forall i, (i + length items <= length Profiles)%nat ->
    snd (write_parts Profiles seq0 env i items) = LoopEnd.
Proof.
  intros Hio Hext.
  induction items as [|[url data] rest IH]; intros i Hlen; [reflexivity|].
  cbn [length] in Hlen. cbn [write_parts].
  destruct (lookup_lt_is_Some_2 Profiles i ltac:(lia)) as [p Hp]. rewrite Hp.
  destruct (Hext _ _ Hp) as [ext ->].
  destruct (Hio i) as [-> ->].
  specialize (IH (S i) ltac:(lia)).
  destruct (String.length data =? 0)%nat;
    destruct (write_parts Profiles seq0 env (S i) rest) as [parts' ex];
    exact IH.
Qed.

(** With no more urls than profiles, formats that have an extension
    and a client that takes every write, the multipart answer is sent
    in full. *)
Lemma respond_completes (w : World) (env : PushEnv) (seq0 : Z) (cxn : addr)
    (urls : list string) (c : rtmpConnection) (playlist : PlaylistManager) :
  heap w !! cxn = Some c ->
  pl c = Some playlist ->
  (length urls <= length (slice_elems w (p_Profiles (params c))))%nat ->
  (forall j, e_createPartErr env j = false /\ e_writeErr env j = false) ->
  e_closeErr env = false ->
  (forall j p, slice_elems w (p_Profiles (params c)) !! j = Some p ->
     exists ext, ProfileFormatExtension (VFormat p) = inl ext) ->
  exists resp,
    respond w env "multipart/mixed" seq0 cxn urls = Ok resp w
    /\ resp_closed resp = true.
Proof.
  intros Hc Hp Hle Hio Hclose Hext. unfold respond. rewrite Hc, Hp.
  cbn [String.eqb Ascii.eqb negb].
  set (data := renditionData _ env urls).
  assert (Hlen : length (zip urls data) = length urls).
  { unfold data, renditionData. rewrite length_zip_with, length_fmap. lia. }
  pose proof (write_parts_completes (slice_elems w (p_Profiles (params c))) seq0 env
                (zip urls data) Hio Hext 0%nat ltac:(rewrite Hlen; simpl; lia)) as Hend.
  destruct (write_parts _ seq0 env 0 (zip urls data)) as [parts ex].
  cbn in Hend. subst ex. rewrite Hclose. eauto.
Qed.

End Properties.

(** * The properties on the server of the test suite *)

Section Examples.
Import Std.
Local Open Scope list_scope.

Lemma only_entry {V : Type} (m : gmap string V) (k : string) (v : V) :
  map_to_list m = [(k, v)] ->
  forall k' v', m !! k' = Some v' -> k' = k /\ v' = v.
Proof.
  intros Hl k' v' H. apply elem_of_map_to_list in H. rewrite Hl in H.
  apply list_elem_of_singleton in H. now injection H.
Qed.



(** The same push on a node without storage: the old connection is
    ended all the same, the registration fails, and the push is
    answered with 500 while the internal identity has no connection
    any more. *)
Lemma collision_without_storage :
  rtmpConnections (Samples.without_storage after_extmid1) !! "intmid" = Some 0%nat
  /\ exists w' msg,
       HandlePush (Samples.without_storage after_extmid1) env2 (push "/live/extmid2/0.ts")
       = Ok (http_Error msg 500) w'
       /\ rtmpConnections w' !! "intmid" = None
       /\ internalManifests w' !! "extmid1" = None
       /\ internalManifests w' !! "extmid2" = None
       /\ strm_closed (stream (conn_at w' 0)) = true.
Proof.
  split; [vm_compute; reflexivity|].
  exists (world_of (HandlePush (Samples.without_storage after_extmid1) env2
                      (push "/live/extmid2/0.ts"))),
         "http push error url=http://example.com/live/extmid2/0.ts err=ErrStorage".
  split; [vm_compute; reflexivity|].
  repeat split; vm_compute; reflexivity.
Qed.

(** C2, as the spec states it, fails: register int, bind ext to it, and
    remove int by its internal identity.  The connection entry is
    deleted and the entry of ext stays, so ext refers to an internal
    identity that is not registered. *)
Lemma registry_inv_broken :
  ~ (forall (w : World) (ops : list RegistryOp),
       registry_inv w -> registry_inv (run_ops w ops)).
Proof.
  intros H.
  specialize (H setupServer
                [OpRegister basic_stream (Some (params_of "int")) 7 100;
                 OpRebind 0 "ext"; OpRemove "int"]).
  assert (Hinv : registry_inv setupServer).
  { intros e i He. vm_compute in He. discriminate. }
  specialize (H Hinv "ext" "int" ltac:(vm_compute; reflexivity)).
  vm_compute in H. destruct H as [a Ha]. discriminate.
Qed.

(** The same state is reached by pushes and a reaper: a push under the
    identity int itself, a push under ext that the webhook maps to int,
    then the tick of the reaper of the first push after the timeout. *)
Lemma dangling_external_reachable :
  let w1 := world_of (HandlePush hooked (env0 (hook "int") 100 7)
                        (push "/live/int/0.ts")) in
  let w2 := world_of (HandlePush w1 (env0 (hook "int") 200 8)
                        (push "/live/ext/0.ts")) in
  let w3 := world_of (watchdog_tick w2 "int" "int" (200 + 61 * time_Second)) in
  watchdogs w2 = [("int", "int")]
  /\ internalManifests w3 !! "ext" = Some "int"
  /\ rtmpConnections w3 !! "int" = None.
Proof. vm_compute. repeat split. Qed.

Lemma registry_inv_kept_witness :
  registry_inv
    (run_ops setupServer
       [OpRegister basic_stream (Some (params_of "int")) 7 100;
        OpRebind 0 "ext"; OpRemove "ext"])
  /\ forall w0 extmid, removal_atomic w0 extmid.
Proof.
  apply (registry_inv_kept setupServer
           [OpRegister basic_stream (Some (params_of "int")) 7 100;
            OpRebind 0 "ext"; OpRemove "ext"]).
  - intros e i He. vm_compute in He. discriminate.
  - split; [exact I|]. split.
    + intros c Hc. vm_compute in Hc. injection Hc as <-. vm_compute. eauto.
    + split; [|split; exact I].
      intros e He.
      match type of He with
      | internalManifests ?w !! _ = _ =>
          apply (only_entry (internalManifests w) "ext" "int"
                   ltac:(vm_compute; reflexivity) e _ He)
      end.
Defined.

Lemma defaults_never_mutated_witness :
  BroadcastJobVideoProfiles (pushes setupServer three_pushes) = Some 0%nat
  /\ slice_elems (pushes setupServer three_pushes)
       (BroadcastJobVideoProfiles (pushes setupServer three_pushes))
     = [P240p30fps4x3; P360p30fps16x9]
  /\ (Forall (fun p => VFormat p = FormatNone) [P240p30fps4x3; P360p30fps16x9] ->
      Forall (fun p => VFormat p = FormatNone)
        (slice_elems (pushes setupServer three_pushes)
           (BroadcastJobVideoProfiles (pushes setupServer three_pushes)))).
Proof.
  apply (defaults_never_mutated setupServer three_pushes).
  cbn. lia.
Defined.

Lemma multipart_one_part_per_rendition_witness :
  status multipart_response = 200
  /\ h_Accept (r_Header (push_multipart "/live/mani/17.ts")) = "multipart/mixed"
  /\ exists cxn seg urls c playlist,
       e_processSegment (env_transcoded two_urls) cxn seg = inl urls /\ urls <> []
       /\ heap after_mani !! cxn = Some c /\ pl c = Some playlist
       /\ length (resp_parts multipart_response) = length urls
       /\ part_body <$> resp_parts multipart_response
          = payload_or_uri (drv_memory (oss_driver (pl_os playlist)))
              (env_transcoded two_urls) <$> urls.
Proof.
  apply (multipart_one_part_per_rendition setupServer after_mani
           (env_transcoded two_urls) (push_multipart "/live/mani/17.ts")
           multipart_response).
  - vm_compute. reflexivity.
  - vm_compute. reflexivity.
Defined.

(** The parts of that answer: the payload for the first url, the
    second url itself. *)
Lemma multipart_bodies :
  part_body <$> resp_parts multipart_response
  = ["transcoded binary data"; "https://stub/transcoded/b.ts"].
Proof. vm_compute. reflexivity. Qed.


(** The default timeout of one minute gives a timer of 54 seconds, and
    the ticks at 130 and 160 leave [lastUsed] at 160. *)
Lemma kicker_one_minute :
  httpPushResetTimer setupServer = 54 * time_Second
  /\ lastUsed (conn_at (world_of (kicker after_mani "mani"
                                    ((TickDone <$> [130; 160]) ++ [RequestEnded]))) 0)
     = 160.
Proof. vm_compute. split; reflexivity. Qed.

Lemma new_connection_formats_witness :
  FormatMP4 <> FormatNone
  /\ rtmpConnections after_mp4 !! "new" = Some 0%nat
  /\ VFormat (profile (conn_at after_mp4 0)) = FormatMP4
  /\ exists params0 w1,
       createRTMPStreamIDHandler setupServer (env0 no_hook 300 9)
         {| Scheme := "http"; Opaque := ""; Host := "example.com";
            Path := "/live/new/0.mp4"; RawQuery := ""; Fragment := "" |}
       = (Some params0, w1)
       /\ mid (conn_at after_mp4 0) = p_ManifestID params0
       /\ slice_elems after_mp4 (p_Profiles (params (conn_at after_mp4 0)))
          = fill_format FormatMP4 <$> slice_elems w1 (p_Profiles params0)
       /\ Forall (fun p => VFormat p <> FormatNone)
            (slice_elems after_mp4 (p_Profiles (params (conn_at after_mp4 0))))
       /\ (Forall (fun p => VFormat p = FormatNone)
             (slice_elems w1 (p_Profiles params0)) ->
           Forall (fun p => VFormat p = FormatMP4)
             (slice_elems after_mp4 (p_Profiles (params (conn_at after_mp4 0))))).
Proof.
  assert (H1 : (length (heap setupServer) <= 0)%nat) by (cbn; lia).
  assert (H2 : heap (world_of (HandlePush setupServer (env0 no_hook 300 9)
                                 (push "/live/new/0.mp4"))) !! 0%nat
               = Some (conn_at after_mp4 0)) by (vm_compute; reflexivity).
  exact (new_connection_formats setupServer (env0 no_hook 300 9)
           (push "/live/new/0.mp4") 0%nat (conn_at after_mp4 0) H1 H2).
Defined.

(** The test of the formats: after the push of a .mp4 segment every
    profile of the connection has the format MP4. *)
Lemma mp4_formats :
  VFormat <$> slice_elems after_mp4 (p_Profiles (params (conn_at after_mp4 0)))
  = [FormatMP4; FormatMP4].
Proof. vm_compute. reflexivity. Qed.

Lemma responder_index_safety_witness :
  respond after_mani (env_transcoded three_urls) "multipart/mixed" 17 0 three_urls
  = Panicked after_mani
  /\ exists resp,
       respond after_mani (env_transcoded two_urls) "multipart/mixed" 17 0 two_urls
       = Ok resp after_mani.
Proof.
  pose (playlist := NewBasicPlaylistManager "mani"
                      (NewSession {| drv_uri := "memory://"; drv_memory := true |}
                                  "mani") None).
  assert (Hc : heap after_mani !! 0%nat = Some (conn_at after_mani 0))
    by (vm_compute; reflexivity).
  assert (Hp : pl (conn_at after_mani 0) = Some playlist)
    by (vm_compute; reflexivity).
  split.
  - apply (responder_index_safety after_mani (env_transcoded three_urls) 17 0%nat
             three_urls _ _ Hc Hp).
    + vm_compute. lia.
    + intros j _. split; reflexivity.
    + intros j p Hj.
      change (slice_elems after_mani (p_Profiles (params (conn_at after_mani 0))))
        with [set_VFormat FormatMPEGTS P240p30fps4x3;
              set_VFormat FormatMPEGTS P360p30fps16x9] in Hj.
      destruct j as [|[|j]]; cbn in Hj; [| |discriminate];
        injection Hj as <-; eexists; reflexivity.
  - apply (responder_index_safety after_mani (env_transcoded two_urls) 17 0%nat
             two_urls _ _ Hc Hp).
    vm_compute. lia.
Defined.

Lemma webhook_url_rebuilt_witness :
  posts_at_most hooked
    (world_of (HandlePush hooked env1 (push_multipart "/live/seg.ts")))
    ("http://" +:+ "example.com" +:+ "/live/seg.ts")
  /\ (forall u,
        Path u = "/live/seg.ts" ->
        Method (push_multipart "/live/seg.ts") = "POST"
        \/ Method (push_multipart "/live/seg.ts") = "PUT" ->
        HandlePush hooked env1 (with_URL u (push_multipart "/live/seg.ts"))
        = HandlePush hooked env1 (push_multipart "/live/seg.ts"))
  /\ posts (world_of (HandlePush hooked env1 (push_multipart "/live/seg.ts")))
     = posts hooked
       ++ [("http://hook",
            json_Marshal [("url", "http://" +:+ "example.com" +:+ "/live/seg.ts")])]
  /\ posts (world_of (HandlePush hooked env1 (push_multipart "/live/seg.m3u8")))
     = posts hooked.
Proof.
  destruct (@webhook_url_rebuilt externals hooked env1 (push_multipart "/live/seg.ts")
              eq_refl eq_refl) as (H1 & H2 & H3 & _).
  destruct (@webhook_url_rebuilt externals hooked env1 (push_multipart "/live/seg.m3u8")
              eq_refl eq_refl) as (_ & _ & _ & H4).
  split; [exact H1|]. split; [exact H2|]. split.
  - apply H3.
    + left. reflexivity.
    + eexists. reflexivity.
    + vm_compute. discriminate.
    + vm_compute. discriminate.
    + vm_compute. reflexivity.
    + vm_compute. discriminate.
  - apply H4. right. right. left. vm_compute. reflexivity.
Defined.

(** The test of the webhook request: the query of the request is not in
    the body that the webhook receives. *)
Lemma webhook_request_url :
  posts (world_of (HandlePush hooked env1 (push_multipart "/live/seg.ts")))
  = [("http://hook", json_Marshal [("url", "http://example.com/live/seg.ts")])].
Proof. vm_compute. reflexivity. Qed.

Lemma authenticateStream_fails_iff_witness :
  auth_failed (authenticateStream hooked (fun _ => PostResponse 403 "denied") "u")
  /\ auth_failed (authenticateStream hooked (fun _ => PostResponse 200 "{}") "u")
  /\ fst (authenticateStream hooked (fun _ => PostResponse 200 "") "u") = inl None
  /\ authenticateStream setupServer (fun _ => PostError "unused") "u"
     = (inl None, setupServer).
Proof.
  split; [|split; [|split]].
  - apply (proj1 (authenticateStream_fails_iff hooked _ "u")).
    split; [discriminate|]. left. discriminate.
  - apply (proj1 (authenticateStream_fails_iff hooked _ "u")).
    split; [discriminate|]. right. split; [discriminate|]. exact I.
  - now apply (proj1 (proj2 (authenticateStream_fails_iff hooked _ "u"))).
  - now apply (proj2 (proj2 (authenticateStream_fails_iff setupServer _ "u"))).
Defined.

Lemma removeRTMPStream_idempotent_witness :
  removeRTMPStream setupServer "mani" = Ok (Some errUnknownStream) setupServer
  /\ removeRTMPStream (world_of (removeRTMPStream after_mani "mani")) "mani"
     = Ok (Some errUnknownStream) (world_of (removeRTMPStream after_mani "mani")).
Proof.
  split.
  - apply (proj1 (removeRTMPStream_idempotent setupServer "mani")).
    vm_compute. reflexivity.
  - apply (proj1 (proj2 (proj2 (removeRTMPStream_idempotent after_mani "mani")))).
    + vm_compute. reflexivity.
    + vm_compute. reflexivity.
Defined.

End Examples.

(** * Properties of the handlers *)

Section HandlerProperties.
Context `{X : Externals}.
Local Open Scope list_scope.

(** ** The registry is keyed by the identity of its connections *)

Lemma keyed_only_usage (w w' : World) : only_usage w w' -> keyed w -> keyed w'.
Proof.
  intros (_ & _ & _ & Hr & _ & _ & _ & Hh) Hk m a Ha.
  rewrite Hr in Ha. destruct (Hk m a Ha) as (c & p & Hc & Hm & Hp & Hpm).
  destruct (Hh a c Hc) as (c' & Hc' & Hm' & _ & _ & Hp' & _).
  exists c', p. rewrite Hm', Hp'. auto.
Qed.

Lemma live_only_usage (w w' : World) (a : addr) :
  only_usage w w' -> live w a -> live w' a.
Proof.
  intros (_ & _ & _ & _ & _ & _ & _ & Hh) (c & p & Hc & Hp).
  destruct (Hh a c Hc) as (c' & Hc' & _ & _ & _ & Hp' & _).
  exists c', p. rewrite Hp'. auto.
Qed.

Lemma keyed_live (w : World) (m : ManifestID) (a : addr) :
  keyed w -> rtmpConnections w !! m = Some a -> live w a.
Proof. intros Hk Ha. destruct (Hk m a Ha) as (c & p & Hc & _ & Hp & _). now exists c, p. Qed.

Lemma keyed_registry_eq (w w' : World) : registry_eq w w' -> keyed w -> keyed w'.
Proof.
  intros (Hr & _ & Hh & _) Hk m a Ha. rewrite Hr in Ha. rewrite Hh. now apply Hk.
Qed.

Lemma keyed_same (w w' : World) :
  rtmpConnections w' = rtmpConnections w -> heap w' = heap w -> keyed w -> keyed w'.
Proof. intros Hr Hh Hk m a Ha. rewrite Hr in Ha. rewrite Hh. now apply Hk. Qed.

Lemma removeRTMPStream_keyed (w : World) (extmid : ManifestID) :
  keyed w ->
  exists res w', removeRTMPStream w extmid = Ok res w' /\ keyed w'.
Proof.
  intros Hk. unfold removeRTMPStream.
  destruct (rtmpConnections w !! resolve w extmid) as [a|] eqn:Ha; [|eauto].
  destruct (Hk _ _ Ha) as (c & p & Hc & Hm & Hp & Hpm). rewrite Hc, Hp.
  eexists _, _. split; [reflexivity|].
  intros m a' Ha'. cbn in Ha' |- *.
  apply lookup_delete_Some in Ha' as [Hne Ha'].
  destruct (Hk _ _ Ha') as (c' & p' & Hc' & Hm' & Hp' & Hpm').
  assert (a <> a') by (intros ->; congruence).
  rewrite list_lookup_insert_ne by done. eauto 10.
Qed.

Lemma registerConnection_keyed (w w' : World) (rtmpStrm : RTMPVideoStream)
    (appData : option StreamParameters) (nonce0 now : Z) (cxn : option addr)
    (err : option goerr) :
  keyed w ->
  registerConnection w rtmpStrm appData nonce0 now = (cxn, err, w') ->
  keyed w'
  /\ match cxn with
     | Some a => live w' a
     | None => err <> None /\ err <> Some errAlreadyExists
     end.
Proof.
  intros Hk. unfold registerConnection.
  destruct appData as [params0|]; [|intros [= <- <- <-]; split; [done|split; discriminate]].
  destruct (NodeStorage w) as [nodeStorage|];
    [|intros [= <- <- <-]; split; [done|split; discriminate]].
  destruct (JobCapabilities _ _) as [caps|msg];
    [|intros [= <- <- <-]; split; [done|split; discriminate]].
  destruct (rtmpConnections w !! p_ManifestID params0) as [oldCxn|] eqn:Hold.
  { intros [= <- <- <-]. split; [done|]. eapply keyed_live; eauto. }
  unfold registerConnection_commit. cbn [rtmpConnections set_heap]. rewrite Hold.
  intros [= <- <- <-]. split.
  - intros m a Ha. cbn in Ha |- *.
    apply lookup_insert_Some in Ha as [[<- <-]|[Hne Ha]].
    + rewrite lookup_app_r, Nat.sub_diag by lia. cbn. eauto 10.
    + destruct (Hk _ _ Ha) as (c & p & Hc & Hm & Hp & Hpm).
      rewrite lookup_app_l by (eapply lookup_lt_Some; eauto). eauto 10.
  - unfold live. cbn. rewrite lookup_app_r, Nat.sub_diag by lia. cbn. eauto.
Qed.

Lemma rebindExternal_keyed (w : World) (a : addr) (mid0 : ManifestID) :
  keyed w -> live w a ->
  exists m w', rebindExternal w a mid0 = Ok m w' /\ keyed w' /\ live w' a.
Proof.
  intros Hk (c & p & Hc & Hp). unfold rebindExternal. rewrite Hc.
  destruct (negb _); eexists _, _; (split; [reflexivity|]); split; auto;
    exists c, p; auto.
Qed.

Lemma HandlePush_collision_keyed (w : World) (env : PushEnv) (m mid0 : ManifestID) :
  keyed w ->
  exists w', HandlePush_collision w env m mid0 = Ok tt w' /\ keyed w'
             /\ rtmpConnections w' ⊆ rtmpConnections w.
Proof.
  intros Hk. unfold HandlePush_collision.
  destruct (_ && _); [|eauto].
  destruct (_ && _); [|eauto].
  match goal with |- context [removeRTMPStream w ?e] =>
    destruct (removeRTMPStream_keyed w e Hk) as (res & w' & Hrm & Hk');
    pose proof (removeRTMPStream_ok_inv w w' e) as Hok;
    pose proof (removeRTMPStream_err_inv w w' e) as Herr;
    rewrite Hrm in *
  end.
  exists w'. split; [reflexivity|]. split; [exact Hk'|].
  destruct res as [e|].
  - destruct (Herr e eq_refl) as [_ ->]. done.
  - destruct (Hok eq_refl) as (a & cxn & p & _ & _ & _ & -> & _). apply delete_subseteq.
Qed.

(** The registration branch keeps the registry keyed, and the
    connection it goes on with is a live one; it panics only where the
    ticker of the reaper is given a timeout that is not positive. *)
Lemma HandlePush_register_keyed (w : World) (env : PushEnv) (url : URL)
    (hdr : Header) (format : Z) (mid0 : ManifestID) :
  keyed w ->
  (exists res w', HandlePush_register w env url hdr format mid0 = Ok res w'
     /\ keyed w'
     /\ match res with
        | inl _ => True
        | inr (cxn, _) => live w' cxn
        end)
  \/ (exists w', HandlePush_register w env url hdr format mid0 = Panicked w'
        /\ keyed w' /\ httpPushTimeout w <= 0).
Proof.
  intros Hk. unfold HandlePush_register.
  destruct (createRTMPStreamIDHandler w env url) as [appData w1] eqn:Hcreate.
  destruct (createRTMPStreamIDHandler_frame _ _ _ _ _ Hcreate) as (_ & Hr1 & _).
  pose proof (keyed_registry_eq _ _ Hr1 Hk) as Hk1.
  destruct appData as [params0|]; [|left; eauto].
  set (params1 := set_Resolution_Format (h_ContentResolution hdr) format params0).
  destruct (HandlePush_collision_keyed w1 env (p_ManifestID params1) mid0 Hk1)
    as (w2 & Hcoll & Hk2 & _).
  pose proof (HandlePush_collision_frame w1 env (p_ManifestID params1) mid0)
    as (Hc2 & _).
  rewrite Hcoll in Hc2 |- *. cbn [world_of] in Hc2.
  set (w3 := set_output_formats w2 (p_Profiles params1) format).
  destruct (set_output_formats_frame w2 (p_Profiles params1) format) as (Hc3 & Hr3 & _).
  fold w3 in Hc3, Hr3.
  assert (Hk3 : keyed w3) by (eapply keyed_registry_eq; eauto).
  destruct (registerConnection w3 _ (Some params1) (e_nonce env) (e_regNow env))
    as [[cxn err] w4] eqn:Hreg.
  destruct (registerConnection_frame _ _ _ _ _ _ _ _ Hreg) as (Hc4 & _).
  assert (Hto : httpPushTimeout w4 = httpPushTimeout w).
  { destruct (createRTMPStreamIDHandler_frame _ _ _ _ _ Hcreate) as (Hc1 & _).
    destruct Hc1 as (_ & _ & H1 & _), Hc2 as (_ & _ & H2 & _),
             Hc3 as (_ & _ & H3 & _), Hc4 as (_ & _ & H4 & _). congruence. }
  destruct (registerConnection_keyed _ _ _ _ _ _ _ _ Hk3 Hreg) as [Hk4 Hcxn].
  destruct err as [e|].
  - left. destruct cxn as [a|].
    + destruct e; eauto.
      destruct (rebindExternal_keyed w4 a mid0 Hk4 Hcxn) as (m & w5 & -> & Hk5 & Hl5).
      eauto.
    + destruct Hcxn as [_ Hne]. destruct e; eauto. congruence.
  - destruct cxn as [a|]; [|destruct Hcxn as [Hne _]; congruence].
    unfold time_NewTicker. rewrite Hto.
    destruct (Z.ltb_spec 0 (httpPushTimeout w)) as [Hpos|Hnonpos]; cbn [negb];
      [left|right; eauto].
    destruct Hcxn as (c & p & Hc & Hp). rewrite Hc.
    assert (Hk4' : keyed (add_watchdog (mid c, mid0) w4)) by (eapply keyed_same; eauto).
    assert (Hl4' : live (add_watchdog (mid c, mid0) w4) a) by (exists c, p; auto).
    destruct (rebindExternal_keyed _ a mid0 Hk4' Hl4') as (m & w5 & -> & Hk5 & Hl5).
    eauto.
Qed.

Lemma kicker_keyed (m : ManifestID) (evs : list kickerEvent) :
  forall w, keyed w -> exists res w', kicker w m evs = Ok res w' /\ only_usage w w'.
Proof.
  induction evs as [|[|t] evs IH]; intros w Hk; cbn [kicker];
    try (eexists _, _; split; [reflexivity|apply only_usage_refl]).
  pose proof (kicker_tick_frame w m t) as Htick.
  assert (Hok : exists w1, kicker_tick w m t = Ok tt w1) .
  { unfold kicker_tick. destruct (rtmpConnections w !! m) as [a|] eqn:Ha; [|eauto].
    destruct (Hk _ _ Ha) as (c & p & -> & _). eauto. }
  destruct Hok as [w1 Hw1]. rewrite Hw1 in *. cbn in Htick.
  destruct (IH w1 (keyed_only_usage _ _ Htick Hk)) as ([st timers] & w2 & -> & H2).
  eexists _, _. split; [reflexivity|]. eapply only_usage_trans; eauto.
Qed.

(** With a keyed registry and a live connection, the rest of the push
    can only panic in the loop of the responder. *)
Lemma HandlePush_process_keyed (w : World) (env : PushEnv) (r : Request)
    (url : URL) (ext body : string) (cxn : addr) (m : ManifestID) :
  keyed w -> live w cxn ->
  (exists resp w', HandlePush_process w env r url ext body cxn m = Ok resp w')
  \/ (exists w' c seg urls parts,
        HandlePush_process w env r url ext body cxn m = Panicked w'
        /\ only_usage w w'
        /\ h_Accept (r_Header r) = "multipart/mixed"
        /\ e_processSegment env cxn seg = inl urls
        /\ heap w' !! cxn = Some c
        /\ write_parts (slice_elems w' (p_Profiles (params c))) (seg_SeqNo seg) env 0
             (zip urls (renditionData
                          (match pl c with
                           | Some p => drv_memory (oss_driver (pl_os p))
                           | None => false
                           end) env urls))
           = (parts, LoopPanic)).
Proof.
  intros Hk Hl. unfold HandlePush_process.
  match goal with |- context [kicker w m ?evs] =>
    destruct (kicker_keyed m evs w Hk) as (res & w1 & -> & H1)
  end.
  match goal with |- context [processSegment w1 env cxn ?s] =>
    set (seg := s); pose proof (processSegment_frame w1 env cxn seg) as H2
  end.
  destruct (live_only_usage _ _ _ H1 Hl) as (c1 & p1 & Hc1 & Hp1).
  unfold processSegment in H2 |- *. rewrite Hc1 in H2 |- *.
  destruct (e_processBytes env cxn seg) as [sb tb]. cbn [world_of] in H2.
  set (w2 := set_heap _ w1) in *.
  assert (H12 : only_usage w w2) by (eapply only_usage_trans; eauto).
  destruct (e_processSegment env cxn seg) as [urls|err] eqn:Hseg; [|eauto].
  destruct (e_ctxDone env); [eauto|].
  destruct (length urls =? 0)%nat; [eauto|].
  destruct (live_only_usage _ _ _ H12 Hl) as (c & p & Hc & Hp).
  unfold respond. rewrite Hc, Hp.
  destruct (negb (String.eqb (h_Accept (r_Header r)) "multipart/mixed")) eqn:Hacc; [eauto|].
  apply negb_false_iff, String.eqb_eq in Hacc.
  destruct (write_parts _ _ env 0 _) as [parts ex] eqn:Hw.
  destruct ex; eauto.
  right. exists w2, c, seg, urls, parts. rewrite Hp.
  split; [reflexivity|]. split; [exact H12|]. auto.
Qed.

Lemma HandlePush_keyed (w : World) (env : PushEnv) (r : Request) :
  keyed w -> keyed (world_of (HandlePush w env r)).
Proof.
  intros Hk. unfold HandlePush.
  destruct (_ && _); [exact Hk|].
  destruct (r_Body r) as [body|]; [|exact Hk].
  destruct (FormatNone =? _); [exact Hk|].
  destruct (String.eqb _ ""); [exact Hk|].
  destruct (rtmpConnections w !! _) as [cxn|] eqn:Hcxn.
  - eapply keyed_only_usage; [|exact Hk].
    eapply only_usage_trans; [apply alter_lastUsed|apply HandlePush_process_frame].
  - match goal with |- context [HandlePush_register w env ?u ?h ?f ?m] =>
      destruct (HandlePush_register_keyed w env u h f m Hk)
        as [(res & w1 & -> & Hk1 & Hres)|(w1 & -> & Hk1 & _)]
    end; [|exact Hk1].
    destruct res as [resp|[cxn m2]]; [exact Hk1|].
    eapply keyed_only_usage; [apply HandlePush_process_frame|exact Hk1].
Qed.

Lemma keyed_allocated (w : World) : keyed w -> connections_allocated w.
Proof. intros Hk m a Ha. destruct (Hk m a Ha) as (c & _ & Hc & _). eauto. Qed.

(** X1. A registry that is keyed by the identity of its connections
    (every entry refers to an allocated connection of that identity,
    with a playlist manager of that identity) is still so after any
    sequence of push requests, whatever the requests and whatever they
    meet; so no entry of the registry is ever a nil connection. *)
Theorem pushes_keep_keyed (w : World) (reqs : list (PushEnv * Request)) :
  keyed w ->
  keyed (pushes w reqs) /\ connections_allocated (pushes w reqs).
Proof.
  intros Hk. assert (H : keyed (pushes w reqs)).
  { revert w Hk. unfold pushes.
    induction reqs as [|[env r] reqs IH]; intros w Hk; [exact Hk|].
    cbn [foldl fst snd]. apply IH. now apply HandlePush_keyed. }
  split; [exact H|now apply keyed_allocated].
Qed.

Lemma write_parts_panic_length (Profiles : list VideoProfile) (seq0 : Z) (env : PushEnv)
    (urls data : list string) (parts : list Part) :
  length data = length urls ->
  write_parts Profiles seq0 env 0 (zip urls data) = (parts, LoopPanic) ->
  (length Profiles < length urls)%nat.
Proof.
  intros Hlen Hw.
  destruct (decide (length urls <= length Profiles)%nat) as [Hle|]; [|lia].
  exfalso. apply (write_parts_in_range Profiles seq0 env (zip urls data) 0).
  - rewrite length_zip_with. lia.
  - now rewrite Hw.
Qed.

(** X2. With a keyed registry a push request never dereferences a nil
    connection.  It panics in two places only: in [time.NewTicker],
    for a stream that is not registered when the push timeout is not
    positive; and at the index out of range of the multipart responder,
    when the client accepts [multipart/mixed] and the pipeline has
    returned more renditions than the connection has profiles. *)
Theorem HandlePush_panics_enumerated (w w' : World) (env : PushEnv) (r : Request) :
  keyed w ->
  HandlePush w env r = Panicked w' ->
  (httpPushTimeout w <= 0
   /\ rtmpConnections w !! resolve w (parseManifestID (Path (r_URL r))) = None)
  \/ (h_Accept (r_Header r) = "multipart/mixed"
      /\ exists cxn c seg urls,
           e_processSegment env cxn seg = inl urls
           /\ heap w' !! cxn = Some c
           /\ (length (slice_elems w' (p_Profiles (params c))) < length urls)%nat).
Proof.
  intros Hk. unfold HandlePush.
  destruct (_ && _); [discriminate|].
  destruct (r_Body r) as [body|]; [|discriminate].
  destruct (FormatNone =? _); [discriminate|].
  destruct (String.eqb _ ""); [discriminate|].
  assert (Hproc : forall w0 url ext cxn m,
            keyed w0 -> live w0 cxn ->
            HandlePush_process w0 env r url ext body cxn m = Panicked w' ->
            h_Accept (r_Header r) = "multipart/mixed"
            /\ exists cxn c seg urls,
                 e_processSegment env cxn seg = inl urls
                 /\ heap w' !! cxn = Some c
                 /\ (length (slice_elems w' (p_Profiles (params c))) < length urls)%nat).
  { intros w0 url ext cxn m Hk0 Hl0 Hp.
    destruct (HandlePush_process_keyed w0 env r url ext body cxn m Hk0 Hl0)
      as [(resp & w1 & Hok)|(w1 & c & seg & urls & parts & Hpanic & _ & Hacc & Hseg & Hc & Hw)];
      [congruence|].
    rewrite Hpanic in Hp. injection Hp as <-.
    split; [exact Hacc|]. exists cxn, c, seg, urls. repeat split; auto.
    eapply write_parts_panic_length; [|exact Hw].
    unfold renditionData. now rewrite length_fmap. }
  cbn [Path].
  destruct (rtmpConnections w !! _) as [cxn|] eqn:Hcxn.
  - intros Hp. right. revert Hp. apply Hproc.
    + eapply keyed_only_usage; [apply alter_lastUsed|exact Hk].
    + eapply live_only_usage; [apply alter_lastUsed|]. eapply keyed_live; eauto.
  - match goal with |- context [HandlePush_register w env ?u ?h ?f ?m] =>
      destruct (HandlePush_register_keyed w env u h f m Hk)
        as [(res & w1 & -> & Hk1 & Hres)|(w1 & -> & Hk1 & Hto)]
    end.
    + destruct res as [resp|[cxn m2]]; [discriminate|].
      intros Hp. right. revert Hp. now apply Hproc.
    + intros _. left. split; [exact Hto|reflexivity].
Qed.

(** ** The status codes of a push *)

Lemma HandlePush_process_status (w w' : World) (env : PushEnv) (r : Request)
    (url : URL) (ext body : string) (cxn : addr) (m : ManifestID) (resp : Response) :
  HandlePush_process w env r url ext body cxn m = Ok resp w' ->
  status resp = 200 \/ status resp = 500 \/ status resp = 503.
Proof.
  unfold HandlePush_process.
  destruct (kicker w m _) as [? w1|w1]; [|discriminate].
  destruct (processSegment w1 env cxn _) as [[urls|err] w2|w2];
    [|intros [= <- _]; auto|discriminate].
  destruct (e_ctxDone env); [intros [= <- _]; auto|].
  destruct (length urls =? 0)%nat; [intros [= <- _]; auto|].
  unfold respond.
  destruct (heap w2 !! cxn) as [c|]; [|discriminate].
  destruct (pl c) as [p|]; [|discriminate].
  destruct (negb _); [intros [= <- _]; auto|].
  destruct (write_parts _ _ _ _ _) as [parts []]; try discriminate;
    intros [= <- _]; auto.
Qed.

Lemma HandlePush_register_status (w w' : World) (env : PushEnv) (url : URL)
    (hdr : Header) (format : Z) (mid0 : ManifestID) (resp : Response) :
  HandlePush_register w env url hdr format mid0 = Ok (inl resp) w' ->
  status resp = 500.
Proof.
  unfold HandlePush_register.
  destruct (createRTMPStreamIDHandler w env url) as [[params0|] w1];
    [|intros [= <- _]; reflexivity].
  destruct (HandlePush_collision _ _ _ _) as [[] w2|w2]; [|discriminate].
  destruct (registerConnection _ _ _ _ _) as [[cxn err] w4].
  destruct err as [e|].
  - destruct e, cxn as [a|]; try discriminate; try (intros [= <- _]; reflexivity);
      destruct (rebindExternal _ _ _); discriminate.
  - destruct cxn as [a|]; [|discriminate].
    destruct (negb _); [discriminate|].
    destruct (heap w4 !! a); [|discriminate].
    destruct (rebindExternal _ _ _); discriminate.
Qed.

(** X3. A push request is answered with one of the codes 200, 400, 405,
    500 and 503; with 405 exactly when its method is neither POST nor
    PUT, and with 400 exactly when, the method being one of the two
    and the body read, the extension of the path stands for no format
    or the path gives no manifest id.  A request answered with 400 or
    405 leaves the server as it was. *)
Theorem HandlePush_status_codes (w w' : World) (env : PushEnv) (r : Request)
    (resp : Response) :
  HandlePush w env r = Ok resp w' ->
  (status resp = 200 \/ status resp = 400 \/ status resp = 405
   \/ status resp = 500 \/ status resp = 503)
  /\ (status resp = 405 <-> Method r <> "POST" /\ Method r <> "PUT")
  /\ (status resp = 400 <->
      (Method r = "POST" \/ Method r = "PUT")
      /\ (exists body, r_Body r = inl body)
      /\ (ProfileExtensionFormat (path_Ext (Path (r_URL r))) = FormatNone
          \/ parseManifestID (Path (r_URL r)) = ""))
  /\ (status resp = 400 \/ status resp = 405 -> w' = w).
Proof.
  unfold HandlePush.
  destruct (String.eqb_spec (Method r) "POST") as [Hpost|Hpost];
    destruct (String.eqb_spec (Method r) "PUT") as [Hput|Hput]; cbn [negb andb].
  4:{ intros [= <- <-]. cbn. repeat split; auto; try discriminate; tauto. }
  all: assert (Hm : Method r = "POST" \/ Method r = "PUT") by auto.
  all: assert (Hno : ~ (Method r <> "POST" /\ Method r <> "PUT")) by tauto.
  all: clear Hpost Hput.
  all: destruct (r_Body r) as [body|err];
    [|intros [= <- <-]; cbn; repeat split; auto; try discriminate; try tauto;
      try (intros [H|H]; discriminate);
      intros (_ & [b Hb] & _); discriminate].
  all: cbn [Path].
  all: destruct (Z.eqb_spec FormatNone (ProfileExtensionFormat (path_Ext (Path (r_URL r)))))
         as [Hfmt|Hfmt];
    [intros [= <- <-]; cbn; repeat split; eauto; try discriminate; try tauto|].
  all: destruct (String.eqb_spec (parseManifestID (Path (r_URL r))) "") as [Hmid|Hmid];
    [intros [= <- <-]; cbn; repeat split; eauto; try discriminate; try tauto|].
  all: assert (Hfinal : forall resp0 : Response,
            (status resp0 = 200 \/ status resp0 = 500 \/ status resp0 = 503) ->
            (status resp0 = 200 \/ status resp0 = 400 \/ status resp0 = 405
             \/ status resp0 = 500 \/ status resp0 = 503)
            /\ (status resp0 = 405 <-> Method r <> "POST" /\ Method r <> "PUT")
            /\ (status resp0 = 400 <->
                (Method r = "POST" \/ Method r = "PUT")
                /\ (exists body0 : string, @inl string string body = inl body0)
                /\ (ProfileExtensionFormat (path_Ext (Path (r_URL r))) = FormatNone
                    \/ parseManifestID (Path (r_URL r)) = ""))
            /\ (status resp0 = 400 \/ status resp0 = 405 -> w' = w))
    by (intros resp0 Hs; split; [tauto|]; split;
        [split; [intros H5; lia|tauto]|
         split; [split; [intros H4; lia|intros (_ & _ & [Hf|Hp]); congruence]
                |intros [H|H]; lia]]).
  all: destruct (rtmpConnections w !! _) as [cxn|];
    [intros Hp; apply Hfinal; eapply HandlePush_process_status; eauto|].
  all: match goal with |- context [HandlePush_register ?w0 ?e ?u ?h ?f ?m] =>
      pose proof (HandlePush_register_status w0) as Hreg;
      destruct (HandlePush_register w0 e u h f m) as [[resp1|[cxn m2]] w1|w1] eqn:Hr
    end; try discriminate.
  all: try (intros [= <- _]; apply Hfinal; right; left; eapply Hreg; eauto).
  all: intros Hp; apply Hfinal; eapply HandlePush_process_status; eauto.
Qed.

(** ** The cap on the number of sessions *)

Lemma createRTMPStreamIDHandler_cap (w w' : World) (env : PushEnv) (url : URL)
    (params0 : StreamParameters) :
  createRTMPStreamIDHandler w env url = (Some params0, w') ->
  0 < MaxSessions w -> Z.of_nat (size (rtmpConnections w)) < MaxSessions w.
Proof.
  unfold createRTMPStreamIDHandler.
  destruct (alloc_array [] w) as [r0 w0] eqn:Halloc.
  assert (Hw0 : config_eq w w0 /\ registry_eq w w0).
  { injection Halloc as <- <-. repeat split. }
  destruct Hw0 as (Hc0 & Hr0).
  destruct (authenticateStream w0 (e_post env) (URL_String url)) as [res w1] eqn:Hauth.
  destruct (authenticateStream_frame _ _ _ _ _ Hauth) as (Hc1 & Hr1 & _).
  destruct res as [resp|err]; [|discriminate].
  destruct (resolve_auth w1 (Some r0) resp) as [rs w2] eqn:Hres.
  destruct (resolve_auth_frame _ _ _ _ _ Hres) as (Hc2 & Hr2 & _).
  destruct rs as [rs|]; [|discriminate].
  assert (Hmax : MaxSessions w2 = MaxSessions w).
  { destruct Hc0 as (_ & _ & _ & _ & _ & H0), Hc1 as (_ & _ & _ & _ & _ & H1),
      Hc2 as (_ & _ & _ & _ & _ & H2). congruence. }
  assert (Hreg : rtmpConnections w2 = rtmpConnections w).
  { destruct Hr0 as (H0 & _), Hr1 as (H1 & _), Hr2 as (H2 & _). congruence. }
  rewrite Hmax, Hreg.
  destruct (String.eqb (rs_mid rs) "");
    (destruct (0 <? MaxSessions w) eqn:Hpos;
     destruct (MaxSessions w <=? Z.of_nat (size (rtmpConnections w))) eqn:Hfull;
     cbn [andb]; try discriminate; intros _ ?; lia).
Qed.

Lemma removeRTMPStream_registry (w : World) (extmid : ManifestID) :
  rtmpConnections (world_of (removeRTMPStream w extmid)) ⊆ rtmpConnections w.
Proof.
  unfold removeRTMPStream.
  destruct (rtmpConnections w !! resolve w extmid) as [a|]; [|done].
  destruct (heap w !! a) as [cxn|]; [|done].
  destruct (pl cxn) as [p|]; [|done].
  cbn. apply delete_subseteq.
Qed.

Lemma HandlePush_collision_registry (w : World) (env : PushEnv) (m mid0 : ManifestID) :
  rtmpConnections (world_of (HandlePush_collision w env m mid0)) ⊆ rtmpConnections w.
Proof.
  unfold HandlePush_collision.
  destruct (_ && _); [|done].
  destruct (_ && _); [|done].
  match goal with |- context [removeRTMPStream w ?e] =>
    pose proof (removeRTMPStream_registry w e) as Hsub;
    destruct (removeRTMPStream w e); exact Hsub
  end.
Qed.

Lemma HandlePush_register_cap (w : World) (env : PushEnv) (url : URL)
    (hdr : Header) (format : Z) (mid0 : ManifestID) :
  0 < MaxSessions w ->
  Z.of_nat (size (rtmpConnections w)) <= MaxSessions w ->
  Z.of_nat (size (rtmpConnections
                    (world_of (HandlePush_register w env url hdr format mid0))))
  <= MaxSessions w.
Proof.
  intros Hpos Hsize. unfold HandlePush_register.
  destruct (createRTMPStreamIDHandler w env url) as [appData w1] eqn:Hcreate.
  destruct (createRTMPStreamIDHandler_frame _ _ _ _ _ Hcreate)
    as (_ & (Hr1 & _) & _).
  destruct appData as [params0|]; [|cbn; now rewrite Hr1].
  pose proof (createRTMPStreamIDHandler_cap _ _ _ _ _ Hcreate Hpos) as Hlt.
  set (params1 := set_Resolution_Format (h_ContentResolution hdr) format params0).
  pose proof (HandlePush_collision_registry w1 env (p_ManifestID params1) mid0) as Hsub.
  apply map_subseteq_size in Hsub. rewrite Hr1 in Hsub.
  destruct (HandlePush_collision w1 env (p_ManifestID params1) mid0) as [[] w2|w2];
    cbn [world_of] in *; [|lia].
  set (w3 := set_output_formats w2 (p_Profiles params1) format).
  assert (Hr3 : rtmpConnections w3 = rtmpConnections w2).
  { destruct (set_output_formats_frame w2 (p_Profiles params1) format)
      as (_ & (H3 & _) & _). exact H3. }
  destruct (registerConnection w3 _ (Some params1) (e_nonce env) (e_regNow env))
    as [[cxn err] w4] eqn:Hreg.
  assert (H4 : (size (rtmpConnections w4) <= S (size (rtmpConnections w2)))%nat).
  { apply registerConnection_cases in Hreg
      as [(_ & -> & _)|[(old & _ & _ & _ & ->)|(Hnone & _ & _ & c & h & -> & _)]];
      rewrite <- Hr3; [lia|lia|].
    cbn. rewrite map_size_insert_None by exact Hnone. lia. }
  assert (Hrebind : forall w5 a,
            rtmpConnections w5 = rtmpConnections w4 ->
            Z.of_nat (size (rtmpConnections
              (world_of match rebindExternal w5 a mid0 with
                        | Ok m w6 => Ok (inr (a, m)) w6
                        | Panicked w6 => @Panicked (Response + (nat * string)) w6
                        end))) <= MaxSessions w).
  { intros w5 a H5.
    pose proof (rebindExternal_frame w5 a mid0) as (_ & _ & _ & _ & _ & Hr).
    destruct (rebindExternal w5 a mid0); cbn [world_of] in *; rewrite Hr, H5; lia. }
  destruct err as [e|].
  - destruct e, cxn as [a|]; cbn [world_of]; try lia. now apply Hrebind.
  - destruct cxn as [a|]; cbn [world_of]; [|lia].
    destruct (negb _); cbn [world_of]; [lia|].
    destruct (heap w4 !! a) as [c|]; cbn [world_of]; [|lia].
    now apply Hrebind.
Qed.

(** X4. With a positive [MaxSessions], pushes handled one after the
    other never take the registry above the cap: if the number of
    connections is at most [MaxSessions] before a push, it is so after
    it, and the cap itself is not changed. *)
Theorem HandlePush_session_cap (w : World) (env : PushEnv) (r : Request) :
  0 < MaxSessions w ->
  Z.of_nat (size (rtmpConnections w)) <= MaxSessions w ->
  MaxSessions (world_of (HandlePush w env r)) = MaxSessions w
  /\ Z.of_nat (size (rtmpConnections (world_of (HandlePush w env r))))
     <= MaxSessions w.
Proof.
  intros Hpos Hsize. split.
  { destruct (HandlePush_frame w env r) as ((_ & _ & _ & _ & _ & Hmax) & _).
    exact Hmax. }
  unfold HandlePush.
  destruct (_ && _); [exact Hsize|].
  destruct (r_Body r) as [body|]; [|exact Hsize].
  destruct (FormatNone =? _); [exact Hsize|].
  destruct (String.eqb _ ""); [exact Hsize|].
  destruct (rtmpConnections w !! _) as [cxn|] eqn:Hcxn.
  - match goal with |- context [HandlePush_process ?w0 env r ?u ?e ?b ?c ?m] =>
      destruct (HandlePush_process_frame w0 env r u e b c m)
        as (_ & _ & _ & Hr & _)
    end. rewrite Hr. exact Hsize.
  - match goal with |- context [HandlePush_register w env ?u ?h ?f ?m] =>
      pose proof (HandlePush_register_cap w env u h f m Hpos Hsize) as Hreg;
      destruct (HandlePush_register w env u h f m) as [[resp|[cxn m2]] w1|w1]
    end; cbn [world_of] in *; try exact Hreg.
    match goal with |- context [HandlePush_process ?w0 env r ?u ?e ?b ?c ?m] =>
      destruct (HandlePush_process_frame w0 env r u e b c m)
        as (_ & _ & _ & Hr & _)
    end. rewrite Hr. exact Hreg.
Qed.

(** ** A push for a stream that is registered *)

Lemma connections_allocated_lastUsed (w : World) (a : addr) (t : Z) :
  connections_allocated w ->
  connections_allocated (set_heap (alter (set_lastUsed t) a (heap w)) w).
Proof.
  intros Hwf m a' Ha'. cbn in *. destruct (Hwf _ _ Ha') as [c Hc].
  destruct (decide (a = a')) as [->|Hne].
  - rewrite list_lookup_alter_eq, Hc. cbn. eauto.
  - rewrite list_lookup_alter_ne by done. eauto.
Qed.

(** What the rest of a push does to the connection it works on, and
    that it leaves the others alone. *)
Lemma HandlePush_process_usage (w : World) (env : PushEnv) (r : Request)
    (url : URL) (ext body : string) (a : addr) (m : ManifestID) (c : rtmpConnection)
    (seg : HLSSegment) :
  connections_allocated w ->
  rtmpConnections w !! m = Some a ->
  heap w !! a = Some c ->
  seg = {| seg_Data := body; seg_Name := path_Base (Path url);
           seg_SeqNo := default 0 (strconv_ParseUint
                                     (strings_TrimSuffix (path_Base (Path url)) ext));
           seg_DurationMs :=
             default 2000 (strconv_Atoi (h_ContentDuration (r_Header r))) |} ->
  heap (world_of (HandlePush_process w env r url ext body a m)) !! a
  = Some (add_bytes (e_processBytes env a seg).1 (e_processBytes env a seg).2
            (set_lastUsed (default (lastUsed c) (last (e_kicks env))) c))
  /\ forall a', a' <> a ->
       heap (world_of (HandlePush_process w env r url ext body a m)) !! a'
       = heap w !! a'.
Proof.
  intros Hwf Ha Hc Hseg. unfold HandlePush_process.
  destruct (kicker_run m (e_kicks env) [] w Hwf)
    as (w1 & -> & _ & _ & _ & Hcx & Hother).
  specialize (Hcx a c Ha Hc).
  assert (Hothers : forall a', a' <> a -> heap w1 !! a' = heap w !! a').
  { intros a' Hne. apply Hother. rewrite Ha. congruence. }
  match goal with |- context [processSegment w1 env a ?s] =>
    change s with seg || (replace s with seg by (rewrite Hseg; reflexivity))
  end.
  unfold processSegment. rewrite Hcx.
  destruct (e_processBytes env a seg) as [sb tb]. cbn [fst snd].
  set (c' := add_bytes sb tb _).
  assert (Hfinal : heap (set_heap (<[a := c']> (heap w1)) w1) !! a = Some c'
                   /\ forall a', a' <> a ->
                        heap (set_heap (<[a := c']> (heap w1)) w1) !! a' = heap w !! a').
  { cbn. split.
    - apply list_lookup_insert_eq. eapply lookup_lt_Some; eauto.
    - intros a' Hne. rewrite list_lookup_insert_ne by congruence. now apply Hothers. }
  destruct (e_processSegment env a seg) as [urls|err]; [|exact Hfinal].
  destruct (e_ctxDone env); [exact Hfinal|].
  destruct (length urls =? 0)%nat; [exact Hfinal|].
  now rewrite respond_frame.
Qed.

(** X5. A push for a stream that is registered (its path names a
    manifest id which, resolved through [internalManifests], has a
    connection) changes nothing but the [lastUsed] and the two byte
    counters of that connection: the webhook is not called, the two
    maps of the registry, the reapers, the profile arrays and the other
    connection objects stay as they are.  If the request is not turned
    down for its method, body, extension or manifest id, the [lastUsed]
    of that connection becomes the time of the last tick of the kicker,
    or the time of the request where the kicker did not tick, and its
    counters grow by what [processSegment] adds for the segment of the
    request. *)
Theorem registered_push_only_refreshes (w : World) (env : PushEnv) (r : Request)
    (a : addr) (c : rtmpConnection) :
  connections_allocated w ->
  rtmpConnections w !! resolve w (parseManifestID (Path (r_URL r))) = Some a ->
  heap w !! a = Some c ->
  only_usage w (world_of (HandlePush w env r))
  /\ (forall a', a' <> a -> heap (world_of (HandlePush w env r)) !! a' = heap w !! a')
  /\ (forall body,
        (Method r = "POST" \/ Method r = "PUT") ->
        r_Body r = inl body ->
        ProfileExtensionFormat (path_Ext (Path (r_URL r))) <> FormatNone ->
        parseManifestID (Path (r_URL r)) <> "" ->
        heap (world_of (HandlePush w env r)) !! a
        = Some (add_bytes (e_processBytes env a (segment_of r body)).1
                          (e_processBytes env a (segment_of r body)).2
                  (set_lastUsed (default (e_now env) (last (e_kicks env))) c))).
Proof.
  intros Hwf Ha Hc. unfold HandlePush. cbn [Path].
  destruct (negb (String.eqb (Method r) "POST") && negb (String.eqb (Method r) "PUT"))
    eqn:Hm.
  { split; [apply only_usage_refl|]. split; [reflexivity|].
    intros body [E|E]; rewrite E in Hm; discriminate. }
  destruct (r_Body r) as [body|err].
  2:{ split; [apply only_usage_refl|]. split; [reflexivity|]. intros b _ Hb. discriminate. }
  destruct (Z.eqb_spec FormatNone (ProfileExtensionFormat (path_Ext (Path (r_URL r)))))
    as [Hfmt|Hfmt].
  { split; [apply only_usage_refl|]. split; [reflexivity|].
    intros b _ _ Hne. congruence. }
  destruct (String.eqb_spec (parseManifestID (Path (r_URL r))) "") as [Hmid|Hmid].
  { split; [apply only_usage_refl|]. split; [reflexivity|].
    intros b _ _ _ Hne. congruence. }
  rewrite Ha.
  split.
  { eapply only_usage_trans; [apply alter_lastUsed|apply HandlePush_process_frame]. }
  match goal with
  | |- context [HandlePush_process ?w0 env r ?u ?x ?b a ?m] =>
      destruct (HandlePush_process_usage w0 env r u x b a m
                  (set_lastUsed (e_now env) c) (segment_of r b))
        as [Hthis Hothers];
      [now apply connections_allocated_lastUsed
      |exact Ha
      |cbn; rewrite list_lookup_alter_eq, Hc; reflexivity
      |reflexivity
      |]
  end.
  split.
  - intros a' Hne. rewrite (Hothers a' Hne). cbn.
    apply list_lookup_alter_ne. congruence.
  - intros b _ [= <-] _ _. exact Hthis.
Qed.

(** ** The reaper and the kicker *)

Lemma watchdog_tick_fresh (w : World) (intmid extmid : ManifestID) (now : Z)
    (a : addr) (c : rtmpConnection) :
  rtmpConnections w !! intmid = Some a ->
  heap w !! a = Some c ->
  now - lastUsed c <= httpPushTimeout w ->
  is_Some (internalManifests w !! extmid) \/ intmid = extmid ->
  watchdog_tick w intmid extmid now = Ok false w.
Proof.
  intros Ha Hc Hfresh Hbound. unfold watchdog_tick. rewrite Ha, Hc.
  assert (Hexit : bool_decide (internalManifests w !! extmid = None)
                  && negb (String.eqb intmid extmid) = false).
  { destruct Hbound as [[i Hi]| ->].
    - rewrite Hi. reflexivity.
    - rewrite String.eqb_refl. apply andb_false_r. }
  rewrite Hexit.
  destruct (httpPushTimeout w <? now - lastUsed c) eqn:Hlt; [lia|reflexivity].
Qed.

(** X6. A tick of the kicker protects the connection from the reaper:
    once the kicker has set [lastUsed] at time [t], a tick of the reaper
    at any time up to [httpPushTimeout] after [t] removes nothing and
    leaves the reaper running, for every reaper of that connection whose
    external identity is still bound (or is the internal one). *)
Theorem kicked_connection_survives (w : World) (m extmid : ManifestID) (t now : Z)
    (a : addr) (c : rtmpConnection) :
  rtmpConnections w !! m = Some a ->
  heap w !! a = Some c ->
  now - t <= httpPushTimeout w ->
  is_Some (internalManifests w !! extmid) \/ m = extmid ->
  exists w1,
    kicker_tick w m t = Ok tt w1
    /\ watchdog_tick w1 m extmid now = Ok false w1
    /\ rtmpConnections w1 !! m = Some a.
Proof.
  intros Ha Hc Hfresh Hbound.
  rewrite (kicker_tick_present _ _ _ _ _ Ha Hc).
  eexists. split; [reflexivity|]. split; [|exact Ha].
  apply (watchdog_tick_fresh _ m extmid now a (set_lastUsed t c)).
  - exact Ha.
  - cbn. apply list_lookup_insert_eq. eapply lookup_lt_Some; eauto.
  - exact Hfresh.
  - exact Hbound.
Qed.

Lemma watchdog_tick_idle (w : World) (intmid extmid : ManifestID) (now : Z)
    (a : addr) (c : rtmpConnection) (p : PlaylistManager) :
  rtmpConnections w !! intmid = Some a ->
  heap w !! a = Some c ->
  pl c = Some p ->
  resolve w extmid = intmid ->
  httpPushTimeout w < now - lastUsed c ->
  watchdog_tick w intmid extmid now
  = Ok true (set_registry (delete intmid (rtmpConnections w))
               (delete extmid (internalManifests w))
               (set_heap (<[a := end_connection c p]> (heap w)) w)).
Proof.
  intros Ha Hc Hp Hres Hlate. unfold watchdog_tick. rewrite Ha, Hc.
  assert (Hexit : bool_decide (internalManifests w !! extmid = None)
                  && negb (String.eqb intmid extmid) = false).
  { unfold resolve in Hres. destruct (internalManifests w !! extmid) as [i|].
    - reflexivity.
    - rewrite Hres, String.eqb_refl. apply andb_false_r. }
  rewrite Hexit.
  destruct (httpPushTimeout w <? now - lastUsed c) eqn:Hlt; [|lia].
  unfold removeRTMPStream. rewrite Hres, Ha, Hc, Hp. reflexivity.
Qed.

(** X7. The reaper removes an idle stream at the first tick that comes
    more than [httpPushTimeout] after its last use, and then returns:
    the ticks before leave the world as it is, the later ones are not
    looked at; the connection and the external entry are gone and the
    connection object is closed. *)
Theorem watchdog_reaps_idle (w : World) (intmid extmid : ManifestID)
    (early later : list Z) (now : Z) (a : addr) (c : rtmpConnection)
    (p : PlaylistManager) :
  rtmpConnections w !! intmid = Some a ->
  heap w !! a = Some c ->
  pl c = Some p ->
  resolve w extmid = intmid ->
  (forall t, t ∈ early -> t - lastUsed c <= httpPushTimeout w) ->
  httpPushTimeout w < now - lastUsed c ->
  exists w',
    watchdog w intmid extmid early = Ok false w
    /\ watchdog w intmid extmid (early ++ now :: later) = Ok true w'
    /\ rtmpConnections w' = delete intmid (rtmpConnections w)
    /\ internalManifests w' = delete extmid (internalManifests w)
    /\ heap w' = <[a := end_connection c p]> (heap w).
Proof.
  intros Ha Hc Hp Hres Hearly Hlate.
  assert (Hbound : is_Some (internalManifests w !! extmid) \/ intmid = extmid).
  { unfold resolve in Hres. destruct (internalManifests w !! extmid); eauto. }
  exists (set_registry (delete intmid (rtmpConnections w))
            (delete extmid (internalManifests w))
            (set_heap (<[a := end_connection c p]> (heap w)) w)).
  split; [|split; [|split; [|split]]]; [| |reflexivity..].
  - induction early as [|t early IH]; [reflexivity|].
    cbn [watchdog].
    rewrite (watchdog_tick_fresh w intmid extmid t a c Ha Hc);
      [|apply Hearly, elem_of_cons; auto|exact Hbound].
    apply IH. intros t' Ht'. apply Hearly, elem_of_cons. auto.
  - induction early as [|t early IH].
    + cbn [watchdog app].
      rewrite (watchdog_tick_idle w intmid extmid now a c p); auto.
    + cbn [watchdog app].
      rewrite (watchdog_tick_fresh w intmid extmid t a c Ha Hc);
        [|apply Hearly, elem_of_cons; auto|exact Hbound].
      apply IH. intros t' Ht'. apply Hearly, elem_of_cons. auto.
Qed.

Lemma watchdog_tick_keyed (w : World) (intmid extmid : ManifestID) (now : Z) :
  keyed w ->
  exists b w',
    watchdog_tick w intmid extmid now = Ok b w'
    /\ keyed w'
    /\ rtmpConnections w' ⊆ rtmpConnections w
    /\ (b = false -> w' = w).
Proof.
  intros Hk. unfold watchdog_tick.
  assert (Hlook : exists lastUsed0,
            match rtmpConnections w !! intmid with
            | Some a =>
                match heap w !! a with
                | Some cxn => Some (Some (lastUsed cxn))
                | None => None
                end
            | None => Some None
            end = Some lastUsed0).
  { destruct (rtmpConnections w !! intmid) as [a|] eqn:Ha; [|eauto].
    destruct (Hk _ _ Ha) as (c & p & -> & _). eauto. }
  destruct Hlook as [lastUsed0 ->].
  destruct (_ && _); [exists true, w; repeat split; auto; discriminate|].
  destruct (match lastUsed0 with Some t => _ | None => true end);
    [|exists false, w; repeat split; auto].
  destruct (removeRTMPStream_keyed w extmid Hk) as (res & w' & Hrm & Hk').
  pose proof (removeRTMPStream_registry w extmid) as Hsub.
  rewrite Hrm in *. cbn [world_of] in Hsub.
  exists true, w'. repeat split; auto. discriminate.
Qed.

(** X24. On a keyed registry the reaper never panics, whatever has
    happened to its connection in the meantime: every run of it ends or
    goes on waiting, keeps the registry keyed, adds no connection, and
    leaves the world as it was unless it has returned. *)
Theorem watchdog_is_safe (intmid extmid : ManifestID) (ticks : list Z) (w : World) :
  keyed w ->
  exists returned w',
    watchdog w intmid extmid ticks = Ok returned w'
    /\ keyed w'
    /\ rtmpConnections w' ⊆ rtmpConnections w
    /\ (returned = false -> w' = w).
Proof.
  revert w. induction ticks as [|now ticks IH]; intros w Hk; cbn [watchdog].
  - exists false, w. repeat split; auto.
  - destruct (watchdog_tick_keyed w intmid extmid now Hk) as (b & w1 & -> & Hk1 & Hsub & Hsame).
    destruct b.
    + exists true, w1. repeat split; auto.
    + rewrite (Hsame eq_refl) in *. apply IH. exact Hk.
Qed.

(** ** Publishing over RTMP *)

Lemma removeRTMPStream_registered (w : World) (m : ManifestID) (a : addr)
    (c : rtmpConnection) (p : PlaylistManager) :
  internalManifests w !! m = None ->
  rtmpConnections w !! m = Some a -> heap w !! a = Some c -> pl c = Some p ->
  removeRTMPStream w m
  = Ok None (set_registry (delete m (rtmpConnections w)) (internalManifests w)
               (set_heap (<[a := end_connection c p]> (heap w)) w)).
Proof.
  intros Him Ha Hc Hp. unfold removeRTMPStream, resolve.
  rewrite Him, Ha, Hc, Hp. cbn. rewrite (delete_id (internalManifests w)) by exact Him.
  reflexivity.
Qed.

(** X8. Publishing a stream under a manifest id that is neither
    registered nor bound as an external id registers it, and makes it
    the last manifest; publishing again under that id, with whatever
    other parameters, fails with [errAlreadyExists] and changes nothing;
    ending a stream of that id gives back
    the two maps of the registry as they were before, and leaves the
    connection object closed. *)
Theorem rtmp_publish_then_end (w : World) (rtmpStrm : RTMPVideoStream)
    (params0 : StreamParameters) (nonce0 now : Z)
    (rtmpStrm' : RTMPVideoStream) (params1 params2 : StreamParameters)
    (nonce1 now1 : Z) :
  is_Some (NodeStorage w) ->
  (forall p l, exists caps, JobCapabilities p l = inl caps) ->
  rtmpConnections w !! p_ManifestID params0 = None ->
  internalManifests w !! p_ManifestID params0 = None ->
  p_ManifestID params1 = p_ManifestID params0 ->
  p_ManifestID params2 = p_ManifestID params0 ->
  exists w1 w2 c,
    gotRTMPStreamHandler w rtmpStrm (AppParameters params0) nonce0 now = Ok None w1
    /\ rtmpConnections w1 = <[p_ManifestID params0 := length (heap w)]> (rtmpConnections w)
    /\ LastManifestID w1 = p_ManifestID params0
    /\ gotRTMPStreamHandler w1 rtmpStrm' (AppParameters params1) nonce1 now1
       = Ok (Some errAlreadyExists) w1
    /\ endRTMPStreamHandler w1 (AppParameters params2) = Ok None w2
    /\ rtmpConnections w2 = rtmpConnections w
    /\ internalManifests w2 = internalManifests w
    /\ heap w2 !! length (heap w) = Some c
    /\ mid c = p_ManifestID params0
    /\ strm_closed (stream c) = true
    /\ sm_cleaned (sessManager c) = true.
Proof.
  intros Hst Hcaps Hnone Him Hmid1 Hmid2.
  destruct (registerConnection_success w rtmpStrm params0 nonce0 now Hst Hcaps Hnone)
    as (c & h & Hreg & Hbuilt).
  destruct Hbuilt as (Hmid & _ & _ & (p & Hp & _) & _).
  set (w1 := set_last (p_ManifestID params0) h
               (set_registry
                  (<[p_ManifestID params0 := length (heap w)]> (rtmpConnections w))
                  (internalManifests w) (set_heap (heap w ++ [c]) w))) in *.
  assert (Hc1 : heap w1 !! length (heap w) = Some c).
  { cbn. rewrite lookup_app_r, Nat.sub_diag by lia. reflexivity. }
  assert (Ha1 : rtmpConnections w1 !! p_ManifestID params0 = Some (length (heap w))).
  { cbn. apply lookup_insert_eq. }
  exists w1. eexists. exists (end_connection c p).
  split.
  { unfold gotRTMPStreamHandler. cbn [streamParams]. rewrite Hreg, Hc1. reflexivity. }
  split; [reflexivity|]. split; [reflexivity|].
  split.
  { unfold gotRTMPStreamHandler, registerConnection. cbn [streamParams].
    change (NodeStorage w1) with (NodeStorage w). destruct Hst as [ns ->].
    match goal with |- context [JobCapabilities ?q ?l] =>
      destruct (Hcaps q l) as [caps ->]
    end.
    rewrite Hmid1, Ha1. reflexivity. }
  split.
  { unfold endRTMPStreamHandler. cbn [streamParams]. rewrite Hmid2.
    apply removeRTMPStream_registered; eauto. }
  cbn. rewrite delete_insert_eq, delete_id by exact Hnone.
  repeat split; auto.
  apply list_lookup_insert_eq. rewrite length_app. cbn. lia.
Qed.

(** ** What the play handlers see of a published stream *)

Lemma registerConnection_new (w w' : World) (rtmpStrm : RTMPVideoStream)
    (appData : option StreamParameters) (nonce0 now : Z) (cxn : option addr) :
  registerConnection w rtmpStrm appData nonce0 now = (cxn, None, w') ->
  exists params0 c p h,
    appData = Some params0
    /\ rtmpConnections w !! p_ManifestID params0 = None
    /\ cxn = Some (length (heap w))
    /\ w' = set_last (p_ManifestID params0) h
              (set_registry
                 (<[p_ManifestID params0 := length (heap w)]> (rtmpConnections w))
                 (internalManifests w) (set_heap (heap w ++ [c]) w))
    /\ mid c = p_ManifestID params0 /\ stream c = rtmpStrm
    /\ pl c = Some p /\ pl_mid p = p_ManifestID params0 /\ pl_cleaned p = false
    /\ h = MakeStreamID (p_ManifestID params0) (profile c)
    /\ Name (profile c) = "source" /\ VFormat (profile c) = p_Format params0.
Proof.
  unfold registerConnection.
  destruct appData as [params0|]; [|discriminate].
  destruct (NodeStorage w) as [nodeStorage|]; [|discriminate].
  destruct (JobCapabilities _ _) as [caps|msg]; [|discriminate].
  destruct (rtmpConnections w !! p_ManifestID params0) as [oldCxn|] eqn:Hold;
    [discriminate|].
  unfold registerConnection_commit. cbn [rtmpConnections set_heap]. rewrite Hold.
  intros [= <- <-]. eexists params0, _, _, _.
  split; [reflexivity|]. split; [exact Hold|]. split; [reflexivity|].
  split; [reflexivity|]. repeat split.
  cbn. destruct (String.eqb (p_Resolution params0) ""); reflexivity.
Qed.

Section Playlists.
Variables MasterPlaylist MediaPlaylist : Type.
Variable GetHLSMasterPlaylist : PlaylistManager -> MasterPlaylist.
Variable GetHLSMediaPlaylist : PlaylistManager -> string -> option MediaPlaylist.
Variable strings_ToLower : string -> string.

(** X9. Once [gotRTMPStreamHandler] has accepted a stream, the play
    handlers serve it: the RTMP play handler gives that stream for every
    path that parses to its manifest id, [LastManifestID],
    [LastHLSStreamID] and [LatestPlaylist] name it, and the master playlist handler serves
    the playlist of its manager, for a path that parses to the manifest
    id without rendition and, where the current manifest is exposed,
    for the path [/stream/current.m3u8] in any case of letters. *)
Theorem published_stream_is_played (w w1 : World) (rtmpStrm : RTMPVideoStream)
    (params0 : StreamParameters) (nonce0 now : Z) :
  gotRTMPStreamHandler w rtmpStrm (AppParameters params0) nonce0 now = Ok None w1 ->
  LastManifestID w1 = p_ManifestID params0
  /\ (exists vProfile,
        LastHLSStreamID w1 = MakeStreamID (p_ManifestID params0) vProfile
        /\ Name vProfile = "source" /\ VFormat vProfile = p_Format params0)
  /\ (forall url, parseManifestID (Path url) = p_ManifestID params0 ->
        getRTMPStreamHandler w1 url = Play rtmpStrm)
  /\ exists p,
       LatestPlaylist w1 = Play (Some p)
       /\ pl_mid p = p_ManifestID params0
       /\ pl_cleaned p = false
       /\ (forall url,
             parseStreamID (Path url)
             = {| sid_ManifestID := p_ManifestID params0; sid_Rendition := "" |} ->
             getHLSMasterPlaylistHandler MasterPlaylist GetHLSMasterPlaylist
               strings_ToLower w1 false url
             = Play (GetHLSMasterPlaylist p))
       /\ (forall url,
             strings_ToLower (Path url) = "/stream/current.m3u8" ->
             getHLSMasterPlaylistHandler MasterPlaylist GetHLSMasterPlaylist
               strings_ToLower w1 true url
             = Play (GetHLSMasterPlaylist p)).
Proof.
  unfold gotRTMPStreamHandler. cbn [streamParams].
  destruct (registerConnection w rtmpStrm (Some params0) nonce0 now)
    as [[cxn err] w'] eqn:Hreg.
  destruct err as [e|]; [destruct cxn; discriminate|].
  destruct (registerConnection_new _ _ _ _ _ _ _ Hreg)
    as (params1 & c & p & h & [= <-] & Hnone & -> & -> & Hmid & Hstrm & Hp & Hpm & Hcl
        & Hh & Hname & Hfmt).
  match goal with |- context [heap ?w0 !! _] => set (w2 := w0) end.
  assert (Hc : heap w2 !! length (heap w) = Some c).
  { cbn. rewrite lookup_app_r, Nat.sub_diag by lia. reflexivity. }
  assert (Ha : rtmpConnections w2 !! p_ManifestID params0 = Some (length (heap w))).
  { cbn. apply lookup_insert_eq. }
  rewrite Hc. intros [= <-].
  split; [reflexivity|]. split; [exists (profile c); auto|]. split.
  { intros url Hurl. unfold getRTMPStreamHandler. now rewrite Hurl, Ha, Hc, Hstrm. }
  exists p. split.
  { unfold LatestPlaylist. change (lastManifestID w2) with (p_ManifestID params0).
    now rewrite Ha, Hc, Hp. }
  split; [exact Hpm|]. split; [exact Hcl|]. split.
  - intros url Hurl. unfold getHLSMasterPlaylistHandler. cbn [andb].
    rewrite Hurl. cbn [sid_Rendition sid_ManifestID nonempty String.eqb negb].
    now rewrite Ha, Hc, Hp, Hpm, String.eqb_refl.
  - intros url Hurl. unfold getHLSMasterPlaylistHandler. cbn [andb].
    rewrite Hurl, String.eqb_refl.
    change (LastManifestID w2) with (p_ManifestID params0).
    now rewrite Ha, Hc, Hp, Hpm, String.eqb_refl.
Qed.

(** X10. With a keyed registry the two HLS playlist handlers never meet
    a nil connection.  Without the current manifest exposed, the master
    playlist handler serves a playlist exactly when the path carries no
    rendition and its manifest id is registered, and what it serves is
    the master playlist of that connection; the media playlist handler
    serves exactly the media playlists that the manager of the
    registered connection has for the rendition of the path. *)
Theorem hls_playlists_of_registered (w : World) (url : URL) :
  keyed w ->
  let sid := parseStreamID (Path url) in
  let master := getHLSMasterPlaylistHandler MasterPlaylist GetHLSMasterPlaylist
                  strings_ToLower w false url in
  let media := getHLSMediaPlaylistHandler MediaPlaylist GetHLSMediaPlaylist w url in
  master <> NilConnection
  /\ media <> NilConnection
  /\ (forall mp, master = Play mp <->
        sid_Rendition sid = ""
        /\ exists a c p,
             rtmpConnections w !! sid_ManifestID sid = Some a
             /\ heap w !! a = Some c /\ pl c = Some p
             /\ mp = GetHLSMasterPlaylist p)
  /\ (forall mp, media = Play mp <->
        exists a c p,
          rtmpConnections w !! sid_ManifestID sid = Some a
          /\ heap w !! a = Some c /\ pl c = Some p
          /\ GetHLSMediaPlaylist p (sid_Rendition sid) = Some mp).
Proof.
  intros Hk sid master media. subst master media.
  unfold getHLSMasterPlaylistHandler, getHLSMediaPlaylistHandler. cbn [andb].
  fold sid. unfold nonempty.
  assert (Hmedia : forall a c p,
            rtmpConnections w !! sid_ManifestID sid = Some a ->
            heap w !! a = Some c -> pl c = Some p ->
            forall mp,
              match GetHLSMediaPlaylist p (sid_Rendition sid) with
              | Some q => Play q
              | None => ErrNotFound
              end = Play mp <->
              exists a' c' p',
                rtmpConnections w !! sid_ManifestID sid = Some a'
                /\ heap w !! a' = Some c' /\ pl c' = Some p'
                /\ GetHLSMediaPlaylist p' (sid_Rendition sid) = Some mp).
  { intros a c p Ha Hc Hp mp. split.
    - destruct (GetHLSMediaPlaylist p (sid_Rendition sid)) as [q|] eqn:Hq; [|discriminate].
      intros [= <-]. exists a, c, p. auto.
    - intros (a' & c' & p' & Ha' & Hc' & Hp' & Hq).
      rewrite Ha in Ha'. injection Ha' as <-.
      rewrite Hc in Hc'. injection Hc' as <-. rewrite Hp in Hp'. injection Hp' as <-.
      now rewrite Hq. }
  destruct (rtmpConnections w !! sid_ManifestID sid) as [a|] eqn:Ha.
  - destruct (Hk _ _ Ha) as (c & p & Hc & Hm & Hp & Hpm). rewrite Hc, Hp.
    specialize (Hmedia a c p eq_refl Hc Hp).
    destruct (String.eqb_spec (sid_Rendition sid) "") as [Hr|Hr]; cbn [negb].
    + rewrite Ha, Hc, Hp, Hpm, String.eqb_refl. cbn [negb].
      split; [discriminate|]. split; [destruct (GetHLSMediaPlaylist _ _); discriminate|].
      split; [|exact Hmedia].
      intros mp. split.
      * intros [= <-]. split; [exact Hr|]. exists a, c, p. auto.
      * intros (_ & a' & c' & p' & [= <-] & Hc' & Hp' & ->).
        rewrite Hc in Hc'. injection Hc' as <-. rewrite Hp in Hp'. now injection Hp' as <-.
    + split; [discriminate|]. split; [destruct (GetHLSMediaPlaylist _ _); discriminate|].
      split; [|exact Hmedia].
      intros mp. split; [discriminate|]. intros [? _]. contradiction.
  - split.
    { destruct (negb _); [discriminate|]. rewrite Ha. discriminate. }
    split; [discriminate|]. split.
    + intros mp. split.
      * destruct (negb _); [discriminate|]. rewrite Ha. discriminate.
      * intros (_ & a & c & p & Hfalse & _). discriminate.
    + intros mp. split; [discriminate|]. intros (a & c & p & Hfalse & _). discriminate.
Qed.

(** ** GetNodeStatus *)

Variable RemoteTranscoderInfo : Type.
Variables LivepeerVersion runtime_Version runtime_GOARCH runtime_GOOS : string.

Lemma status_streams_spec (w : World) (conns : list (string * addr)) :
  NoDup conns.*1 ->
  (forall k a, (k, a) ∈ conns ->
     exists c p, heap w !! a = Some c /\ pl c = Some p /\ pl_mid p = k) ->
  forall (m : gmap string MasterPlaylist) (si : gmap string NodeStreamInfo),
  exists m' si',
    status_streams MasterPlaylist GetHLSMasterPlaylist w conns m si = Some (m', si')
    /\ (forall k,
          m' !! k = match (list_to_map conns : gmap string addr) !! k with
                    | Some a => heap w !! a ≫= fun c => GetHLSMasterPlaylist <$> pl c
                    | None => m !! k
                    end)
    /\ (forall k,
          si' !! k = match (list_to_map conns : gmap string addr) !! k with
                     | Some a =>
                         (fun c => {| SourceBytes := sourceBytes c;
                                      TranscodedBytes := transcodedBytes c |})
                           <$> heap w !! a
                     | None => si !! k
                     end).
Proof.
  induction conns as [|[k0 a0] conns IH]; intros Hnd Hall m si.
  - exists m, si. repeat split.
  - cbn [fmap list_fmap fst] in Hnd. apply NoDup_cons in Hnd as [Hnotin Hnd].
    destruct (Hall k0 a0) as (c & p & Hc & Hp & Hpm); [apply elem_of_cons; auto|].
    cbn [status_streams]. rewrite Hc, Hp, Hpm.
    destruct (IH Hnd (fun k a H => Hall k a (proj2 (elem_of_cons _ _ _) (or_intror H)))
                (<[k0 := GetHLSMasterPlaylist p]> m)
                (<[k0 := {| SourceBytes := sourceBytes c;
                            TranscodedBytes := transcodedBytes c |}]> si))
      as (m' & si' & -> & Hm' & Hsi').
    exists m', si'. split; [reflexivity|].
    assert (Hrest : (list_to_map conns : gmap string addr) !! k0 = None)
      by (now apply not_elem_of_list_to_map_1).
    split; intros k; [rewrite Hm'|rewrite Hsi'];
      cbn [list_to_map foldr uncurry fst snd];
      (destruct (decide (k = k0)) as [->|Hne];
       [rewrite Hrest, !lookup_insert_eq, ?Hc; cbn; now rewrite ?Hp
       |rewrite (lookup_insert_ne (list_to_map conns)) by congruence;
        destruct (list_to_map conns !! k);
        [reflexivity|now rewrite lookup_insert_ne by congruence]]).
Qed.

Lemma foldl_insert_spec (ims : list (string * string)) :
  NoDup ims.*1 ->
  forall acc : gmap string string,
    foldl (fun res kv => <[fst kv := snd kv]> res) acc ims
    = list_to_map ims ∪ acc.
Proof.
  induction ims as [|[k v] ims IH]; intros Hnd acc.
  - cbn. now rewrite (left_id_L ∅ (∪)).
  - cbn [fmap list_fmap fst] in Hnd. apply NoDup_cons in Hnd as [Hnotin Hnd].
    cbn [foldl list_to_map foldr uncurry fst snd]. rewrite IH by exact Hnd.
    apply map_eq. intros k'.
    assert (Hrest : (list_to_map ims : gmap string string) !! k = None)
      by (now apply not_elem_of_list_to_map_1).
    destruct (decide (k' = k)) as [->|Hne].
    + rewrite lookup_union_r by exact Hrest.
      rewrite lookup_insert_eq. symmetry. apply lookup_union_Some_l, lookup_insert_eq.
    + rewrite !lookup_union, !lookup_insert_ne by congruence. reflexivity.
Qed.

(** X11. On a keyed registry [GetNodeStatus] does not panic, and its
    answer does not depend on the order in which Go ranges over the two
    maps: it reports the external identities as the server holds them,
    and for every registered manifest id, and no other, the byte
    counters and the master playlist of its connection. *)
Theorem GetNodeStatus_reports_registry (w : World)
    (node : LivepeerNode RemoteTranscoderInfo)
    (conns : list (string * addr)) (ims : list (string * string)) :
  keyed w ->
  conns ≡ₚ map_to_list (rtmpConnections w) ->
  ims ≡ₚ map_to_list (internalManifests w) ->
  exists st,
    GetNodeStatus MasterPlaylist GetHLSMasterPlaylist RemoteTranscoderInfo
      LivepeerVersion runtime_Version runtime_GOARCH runtime_GOOS
      w node conns ims = Some st
    /\ InternalManifests st = internalManifests w
    /\ (forall k,
          StreamInfo st !! k
          = rtmpConnections w !! k ≫= fun a =>
              (fun c => {| SourceBytes := sourceBytes c;
                           TranscodedBytes := transcodedBytes c |}) <$> heap w !! a)
    /\ (forall k,
          Manifests st !! k
          = rtmpConnections w !! k ≫= fun a =>
              heap w !! a ≫= fun c => GetHLSMasterPlaylist <$> pl c)
    /\ dom (StreamInfo st) = dom (rtmpConnections w)
    /\ dom (Manifests st) = dom (rtmpConnections w).
Proof.
  intros Hk Hconns Hims.
  assert (Hnd : NoDup conns.*1).
  { rewrite Hconns. apply NoDup_fst_map_to_list. }
  assert (Hnd' : NoDup ims.*1).
  { rewrite Hims. apply NoDup_fst_map_to_list. }
  assert (Hmap : (list_to_map conns : gmap string addr) = rtmpConnections w).
  { rewrite (list_to_map_proper conns (map_to_list (rtmpConnections w)) Hnd Hconns).
    apply list_to_map_to_list. }
  assert (Hall : forall k a, (k, a) ∈ conns ->
            exists c p, heap w !! a = Some c /\ pl c = Some p /\ pl_mid p = k).
  { intros k a Hin. rewrite Hconns in Hin. apply elem_of_map_to_list in Hin.
    destruct (Hk _ _ Hin) as (c & p & Hc & _ & Hp & Hpm). eauto. }
  destruct (status_streams_spec w conns Hnd Hall ∅ ∅) as (m' & si' & Hs & Hm' & Hsi').
  unfold GetNodeStatus. rewrite Hs. eexists. split; [reflexivity|].
  cbn [InternalManifests StreamInfo Manifests].
  assert (Hinfo : forall k,
            si' !! k
            = rtmpConnections w !! k ≫= fun a =>
                (fun c => {| SourceBytes := sourceBytes c;
                             TranscodedBytes := transcodedBytes c |}) <$> heap w !! a).
  { intros k. rewrite Hsi', Hmap. destruct (rtmpConnections w !! k); reflexivity. }
  assert (Hman : forall k,
            m' !! k
            = rtmpConnections w !! k ≫= fun a =>
                heap w !! a ≫= fun c => GetHLSMasterPlaylist <$> pl c).
  { intros k. rewrite Hm', Hmap. destruct (rtmpConnections w !! k); reflexivity. }
  split.
  { rewrite foldl_insert_spec by exact Hnd'. rewrite (right_id_L ∅ (∪)).
    rewrite (list_to_map_proper ims (map_to_list (internalManifests w)) Hnd' Hims).
    apply list_to_map_to_list. }
  split; [exact Hinfo|]. split; [exact Hman|].
  split; apply set_eq; intros k; rewrite !elem_of_dom, ?Hinfo, ?Hman;
    (destruct (rtmpConnections w !! k) as [a|] eqn:Ha; cbn;
     [destruct (Hk _ _ Ha) as (c & p & Hc & _ & Hp & _); rewrite Hc; cbn;
      rewrite ?Hp; cbn; split; eauto
     |split; intros [? ?]; discriminate]).
Qed.

End Playlists.

(** ** getPlaylistsFromStore *)

Lemma extended_by_nil (m : string) (st : PlaylistFiles) :
  is_Some (filesMap st !! m) -> extended_by m [] st st.
Proof.
  intros [l Hl]. unfold extended_by. cbn. rewrite !app_nil_r, Hl. cbn.
  repeat split. symmetry. now apply insert_id.
Qed.

Lemma extended_by_app (m : string) (fs gs : list FileInfo) (st1 st2 st3 : PlaylistFiles) :
  extended_by m fs st1 st2 -> extended_by m gs st2 st3 ->
  extended_by m (fs ++ gs) st1 st3.
Proof.
  intros (Hj1 & Hf1 & Ht1) (Hj2 & Hf2 & Ht2). unfold extended_by.
  rewrite Hj2, Hj1, Hf2, Hf1, Ht2, Ht1, Hj1.
  rewrite lookup_insert_eq. cbn [default].
  rewrite insert_insert_eq, !fmap_app, foldl_app, !length_app, length_fmap.
  rewrite seq_app, !app_assoc. repeat split.
Qed.

Lemma extended_by_is_Some (m : string) (fs : list FileInfo) (st st' : PlaylistFiles) :
  extended_by m fs st st' -> is_Some (filesMap st' !! m).
Proof. intros (_ & -> & _). rewrite lookup_insert_eq. eauto. Qed.

Lemma add_playlist_extended (m : string) (st : PlaylistFiles) (plf : FileInfo) :
  extended_by m [plf] st (add_playlist m st plf).
Proof.
  unfold extended_by, add_playlist. cbn.
  repeat split. destruct (Z.ltb_spec (latestPlaylistTime st) (fi_LastModified plf)); lia.
Qed.

Lemma foldl_add_playlist_extended (m : string) (fs : list FileInfo) :
  forall st, is_Some (filesMap st !! m) ->
    extended_by m fs st (foldl (add_playlist m) st fs).
Proof.
  induction fs as [|plf fs IH]; intros st Hst; [now apply extended_by_nil|].
  cbn [foldl]. change (plf :: fs) with ([plf] ++ fs).
  eapply extended_by_app; [apply add_playlist_extended|].
  apply IH. eapply extended_by_is_Some, add_playlist_extended.
Qed.

Lemma playlist_pages_extended (m : string) (page : PageInfo) :
  forall st st', is_Some (filesMap st !! m) ->
    playlist_pages m page st = inl st' ->
    extended_by m (page_files page) st st'.
Proof.
  induction page as [dirs fs|dirs fs next IH|dirs fs err]; intros st st' Hst;
    cbn [playlist_pages Files page_files].
  - intros [= <-]. now apply foldl_add_playlist_extended.
  - intros Hnext. eapply extended_by_app; [now apply foldl_add_playlist_extended|].
    apply IH; [|exact Hnext].
    eapply extended_by_is_Some. now apply foldl_add_playlist_extended.
  - discriminate.
Qed.

Lemma playlist_dirs_extended (ListFiles : string -> string -> PageInfo + string)
    (m : string) (dirs : list string) :
  forall st st', is_Some (filesMap st !! m) ->
    playlist_dirs ListFiles m dirs st = inl st' ->
    extended_by m (concat (dir_files ListFiles <$> dirs)) st st'.
Proof.
  induction dirs as [|d dirs IH]; intros st st' Hst; cbn [playlist_dirs].
  - intros [= <-]. now apply extended_by_nil.
  - cbn [fmap list_fmap concat]. unfold dir_files at 1.
    destruct (ListFiles (d +:+ "playlist_") "") as [page|err]; [|discriminate].
    destruct (playlist_pages m page st) as [st1|e] eqn:Hpages; [|discriminate].
    intros Hrest. pose proof (playlist_pages_extended m page st st1 Hst Hpages) as H1.
    eapply extended_by_app; [exact H1|].
    apply IH; [|exact Hrest]. eapply extended_by_is_Some; eauto.
Qed.

Lemma store_files_app (ListFiles : string -> string -> PageInfo + string)
    (l1 l2 : list string) :
  store_files ListFiles (l1 ++ l2) = store_files ListFiles l1 ++ store_files ListFiles l2.
Proof. unfold store_files. now rewrite fmap_app, concat_app. Qed.

Lemma store_files_snoc (ListFiles : string -> string -> PageInfo + string)
    (l : list string) (m : string) :
  store_files ListFiles (l ++ [m]) = store_files ListFiles l ++ manifest_files ListFiles m.
Proof. rewrite store_files_app. unfold store_files at 2. cbn. now rewrite app_nil_r. Qed.

Lemma playlist_manifests_listed (ListFiles : string -> string -> PageInfo + string)
    (manifests : list string) :
  forall done st st',
    listed_so_far ListFiles done st ->
    playlist_manifests ListFiles manifests st = inl st' ->
    listed_so_far ListFiles (done ++ manifests) st'.
Proof.
  induction manifests as [|m manifests IH]; intros done st st' Hst;
    cbn [playlist_manifests].
  - intros [= <-]. now rewrite app_nil_r.
  - set (st0 := {| filesMap := <[m := []]> (filesMap st); jsonFiles := jsonFiles st;
                   latestPlaylistTime := latestPlaylistTime st |}).
    destruct (ListFiles (m +:+ "/") "/") as [filesPage|err] eqn:Hlist; [|discriminate].
    destruct (playlist_dirs ListFiles m (Directories filesPage) st0) as [st1|e] eqn:Hdirs;
      [|discriminate].
    intros Hrest.
    replace (done ++ m :: manifests) with ((done ++ [m]) ++ manifests)
      by now rewrite <- app_assoc.
    apply (IH (done ++ [m]) st1 st'); [|exact Hrest].
    assert (Hst0 : is_Some (filesMap st0 !! m)) by (cbn; rewrite lookup_insert_eq; eauto).
    pose proof (playlist_dirs_extended ListFiles m _ st0 st1 Hst0 Hdirs) as (Hj & Hf & Ht).
    assert (Hfiles : concat (dir_files ListFiles <$> Directories filesPage)
                     = manifest_files ListFiles m).
    { unfold manifest_files. now rewrite Hlist. }
    rewrite Hfiles in Hj, Hf, Ht. cbn in Hj, Hf, Ht.
    rewrite lookup_insert_eq, insert_insert_eq in Hf. cbn in Hf.
    destruct Hst as (Hj0 & Ht0 & Hdom & Hidx).
    unfold listed_so_far. rewrite !store_files_snoc, !fmap_app, foldl_app.
    split; [now rewrite Hj, Hj0|]. split; [now rewrite Ht, Ht0|]. split.
    + intros m'. rewrite Hf, elem_of_app, list_elem_of_singleton, <- Hdom.
      destruct (decide (m' = m)) as [->|Hne].
      * rewrite lookup_insert_eq. split; eauto.
      * rewrite lookup_insert_ne by congruence. split; [auto|]. intros [|]; [auto|done].
    + intros pre m' post Hsplit Hnotin. rewrite Hf.
      destruct post as [|x post _] using rev_ind.
      * apply app_inj_tail in Hsplit as [-> ->].
        rewrite lookup_insert_eq, Hj0, length_fmap. reflexivity.
      * rewrite app_comm_cons, app_assoc in Hsplit.
        apply app_inj_tail in Hsplit as [-> ->].
        rewrite lookup_insert_ne.
        -- apply (Hidx pre m' post eq_refl). intros Hin. apply Hnotin, elem_of_app. auto.
        -- intros ->. apply Hnotin, elem_of_app. right. apply list_elem_of_singleton.
           reflexivity.
Qed.

Lemma foldl_max_le (l : list Z) :
  forall a, a <= foldl Z.max a l /\ (forall t, t ∈ l -> t <= foldl Z.max a l)
            /\ (foldl Z.max a l = a \/ foldl Z.max a l ∈ l).
Proof.
  induction l as [|x l IH]; intros a; cbn [foldl].
  - split; [lia|]. split; [intros t Ht; now apply elem_of_nil in Ht|auto].
  - destruct (IH (Z.max a x)) as (Hle & Hall & Hor). split; [lia|]. split.
    + intros t [->|Ht]%elem_of_cons; [lia|auto].
    + destruct Hor as [->|Hin]; [|right; apply elem_of_cons; auto].
      destruct (Z.max_spec a x) as [[_ ->]|[_ ->]]; [right; apply elem_of_cons|]; auto.
Qed.

(** X12. When [getPlaylistsFromStore] succeeds, the list of json files
    it returns is the names of the playlist files that the store lists
    under the manifests, in the order of the manifests, directories and
    pages; the keys of the map it returns are the manifests asked for;
    and the entry of a manifest is the run of consecutive positions, in
    that list, of the files of its listing (for a manifest that is
    asked for twice, of its last listing).  So every index in the map
    is a valid position in the list of files. *)
Theorem getPlaylistsFromStore_indexes
    (ListFiles : string -> string -> PageInfo + string) (manifests : list string)
    (found : PlaylistFiles) :
  getPlaylistsFromStore ListFiles manifests = inl found ->
  jsonFiles found = fi_Name <$> store_files ListFiles manifests
  /\ (forall m, is_Some (filesMap found !! m) <-> m ∈ manifests)
  /\ (forall pre m post, manifests = pre ++ m :: post -> m ∉ post ->
        filesMap found !! m
        = Some (seq (length (store_files ListFiles pre))
                    (length (manifest_files ListFiles m))))
  /\ (forall m idxs i, filesMap found !! m = Some idxs -> i ∈ idxs ->
        (i < length (jsonFiles found))%nat).
Proof.
  intros Hget. unfold getPlaylistsFromStore in Hget.
  assert (H0 : listed_so_far ListFiles []
                 {| filesMap := ∅; jsonFiles := []; latestPlaylistTime := time_zero |}).
  { unfold listed_so_far. cbn. repeat split.
    - intros [? Hm]. rewrite lookup_empty in Hm. discriminate.
    - intros Hin. now apply elem_of_nil in Hin.
    - intros pre m post Hsplit. now destruct pre. }
  pose proof (playlist_manifests_listed ListFiles manifests [] _ found H0 Hget)
    as (Hj & _ & Hdom & Hidx).
  cbn [app] in *. split; [exact Hj|]. split; [exact Hdom|]. split; [exact Hidx|].
  intros m idxs i Hm Hi.
  assert (Hin : m ∈ manifests) by (apply Hdom; eauto).
  assert (Hlast : exists pre post, manifests = pre ++ m :: post /\ m ∉ post).
  { clear -Hin. induction manifests as [|x l IH]; [now apply elem_of_nil in Hin|].
    destruct (decide (m ∈ l)) as [Hl|Hl].
    - destruct (IH Hl) as (pre & post & -> & Hpost). now exists (x :: pre), post.
    - apply elem_of_cons in Hin as [->|]; [|done]. now exists [], l. }
  destruct Hlast as (pre & post & Hsplit & Hpost).
  rewrite (Hidx pre m post Hsplit Hpost) in Hm. injection Hm as <-.
  apply elem_of_seq in Hi. rewrite Hj, length_fmap, Hsplit.
  change (m :: post) with ([m] ++ post).
  rewrite !store_files_app, !length_app. unfold store_files at 2. cbn.
  rewrite app_nil_r. lia.
Qed.

(** X13. When [getPlaylistsFromStore] succeeds, the time it returns is
    the latest modification time among the playlist files listed, and
    the zero time where none is later than it. *)
Theorem getPlaylistsFromStore_latest
    (ListFiles : string -> string -> PageInfo + string) (manifests : list string)
    (found : PlaylistFiles) :
  getPlaylistsFromStore ListFiles manifests = inl found ->
  time_zero <= latestPlaylistTime found
  /\ (forall f, f ∈ store_files ListFiles manifests ->
        fi_LastModified f <= latestPlaylistTime found)
  /\ (latestPlaylistTime found = time_zero
      \/ exists f, f ∈ store_files ListFiles manifests
                   /\ latestPlaylistTime found = fi_LastModified f).
Proof.
  intros Hget. unfold getPlaylistsFromStore in Hget.
  assert (H0 : listed_so_far ListFiles []
                 {| filesMap := ∅; jsonFiles := []; latestPlaylistTime := time_zero |}).
  { unfold listed_so_far. cbn. repeat split.
    - intros [? Hm]. rewrite lookup_empty in Hm. discriminate.
    - intros Hin. now apply elem_of_nil in Hin.
    - intros pre m post Hsplit. now destruct pre. }
  pose proof (playlist_manifests_listed ListFiles manifests [] _ found H0 Hget)
    as (_ & Ht & _).
  cbn [app] in Ht. rewrite Ht.
  destruct (foldl_max_le (fi_LastModified <$> store_files ListFiles manifests) time_zero)
    as (Hle & Hall & Hor).
  split; [exact Hle|]. split.
  - intros f Hf. apply Hall. apply list_elem_of_fmap. eauto.
  - destruct Hor as [->|Hin]; [auto|right].
    apply list_elem_of_fmap in Hin as (f & Heq & Hf). eauto.
Qed.

(** ** HandleRecordings *)

Section Recordings.
Variable TypeByExtension : string -> string.

Lemma HandleRecordings_wellformed (w : World) (cache : AuthCache)
    (env : RecordingsEnv) (r : RecordingsRequest) :
  recordings_wellformed r ->
  HandleRecordings TypeByExtension w cache env r
  = let pp := strings_Split (rq_Path r) slash in
    let serve w resp :=
      HandleRecordings_serve TypeByExtension w env (path_Ext (rq_Path r))
        (recordings_manifestID r) (String.concat "/" (drop 2 pp))
        (String.eqb (Values_Get (rq_Query r) "finalize") "true")
        (bool_decide (is_Some (rq_Query r !! "finalize")))
        (String.eqb (nth 3 pp "") "index.m3u8")
        (if String.eqb (nth 3 pp "") "index.m3u8" then ""
         else hd "" (strings_Split (nth 3 pp "") dot)) resp in
    match cache_Get cache (recordings_manifestID r) (re_getNow env) with
    | Some cresp => (serve w (Some cresp), w, cache)
    | None =>
        match authenticateStream w (re_post env) (rq_URL r) with
        | (inr err, w1) =>
            (RecStatus (if strings_Contains err "not found" then 404 else 403), w1, cache)
        | (inl (Some resp0), w1) =>
            (serve w1 (Some resp0), w1,
             cache_SetDefault cache (recordings_manifestID r) resp0 (re_setNow env))
        | (inl None, w1) => (serve w1 None, w1, cache)
        end
    end.
Proof.
  intros (Hm & Hext & Hlen). unfold HandleRecordings, recordings_manifestID.
  rewrite Hm. cbn [String.eqb Ascii.eqb negb Bool.eqb].
  assert (Hx : negb (String.eqb (path_Ext (rq_Path r)) ".m3u8")
               && negb (String.eqb (path_Ext (rq_Path r)) ".ts") = false).
  { destruct Hext as [-> | ->]; reflexivity. }
  rewrite Hx.
  assert (Hl : (length (strings_Split (rq_Path r) slash) <? 4)%nat = false)
    by (apply Nat.ltb_ge; exact Hlen).
  rewrite Hl. cbv zeta.
  destruct (cache_Get cache _ (re_getNow env)) as [cresp|]; [reflexivity|].
  destruct (authenticateStream w (re_post env) (rq_URL r)) as [[[resp0|]|err] w1];
    try reflexivity.
  destruct (strings_Contains err "not found"); reflexivity.
Qed.

Lemma HandleRecordings_serve_status (w : World) (env : RecordingsEnv)
    (ext manifestID requestFileName : string)
    (finalize finalizeSet returnMasterPlaylist : bool) (track : string)
    (resp : option authWebhookResponse) :
  HandleRecordings_serve TypeByExtension w env ext manifestID requestFileName
    finalize finalizeSet returnMasterPlaylist track resp <> RecStatus 405.
Proof.
  unfold HandleRecordings_serve.
  destruct (recordings_session w resp manifestID) as [sess|code] eqn:Hs.
  - destruct (re_ReadData env sess requestFileName) as [| |[body|]]; try discriminate;
      (destruct resp as [resp0|]; [|discriminate];
       destruct (getPlaylistsFromStore _ _) as [found|]; [|discriminate];
       destruct (length (jsonFiles found) =? 0)%nat; discriminate).
  - unfold recordings_session in Hs.
    destruct (match resp with Some _ => _ | None => _ end);
      [destruct (ParseOSURL _ _)|destruct (RecordStorage w)]; try discriminate;
      injection Hs as <-; discriminate.
Qed.

(** X14. A request for a recording is answered with 405 exactly when
    its method is not GET.  A request that fails the checks made before
    authentication (its method, an extension other than [.m3u8] and
    [.ts], a path of fewer than four elements) is answered with 405 or
    400, and neither the webhook nor the cache of its answers is
    touched. *)
Theorem HandleRecordings_validation (w : World) (cache : AuthCache)
    (env : RecordingsEnv) (r : RecordingsRequest) :
  ((HandleRecordings TypeByExtension w cache env r).1.1 = RecStatus 405
   <-> rq_Method r <> "GET")
  /\ (~ recordings_wellformed r ->
      HandleRecordings TypeByExtension w cache env r
      = (RecStatus (if String.eqb (rq_Method r) "GET" then 400 else 405), w, cache)).
Proof.
  destruct (String.eqb_spec (rq_Method r) "GET") as [Hm|Hm].
  2:{ unfold HandleRecordings.
      rewrite (proj2 (String.eqb_neq _ _) Hm). cbn. split; [tauto|reflexivity]. }
  destruct (decide (recordings_wellformed r)) as [Hwf|Hnwf].
  - split; [|tauto]. split; [|congruence].
    rewrite (HandleRecordings_wellformed _ _ _ _ Hwf). cbv zeta.
    destruct (cache_Get cache _ _) as [cresp|]; cbn [fst].
    { intros H. now apply HandleRecordings_serve_status in H. }
    destruct (authenticateStream w (re_post env) (rq_URL r)) as [[[resp0|]|err] w1];
      cbn [fst]; try (intros H; now apply HandleRecordings_serve_status in H).
    destruct (strings_Contains err "not found"); discriminate.
  - assert (Hres : HandleRecordings TypeByExtension w cache env r = (RecStatus 400, w, cache)).
    { unfold HandleRecordings. rewrite Hm. cbn [String.eqb Ascii.eqb negb Bool.eqb].
      destruct (String.eqb_spec (path_Ext (rq_Path r)) ".m3u8") as [He1|He1];
        destruct (String.eqb_spec (path_Ext (rq_Path r)) ".ts") as [He2|He2];
        cbn [negb andb]; try reflexivity;
        (destruct (Nat.ltb_spec (length (strings_Split (rq_Path r) slash)) 4);
         [reflexivity|]; exfalso; apply Hnwf; repeat split; auto). }
    rewrite Hres. split; [|reflexivity]. cbn. split; [discriminate|congruence].
Qed.

(** X15. The answer of the webhook is cached for an hour under the
    manifest id: after a well-formed request for which the webhook has
    given a response, a well-formed request for the same manifest id
    that comes within the hour is served from the cache, without any
    call of the webhook and without change to the cache. *)
Theorem recordings_auth_cached (w w1 : World) (cache : AuthCache)
    (env1 env2 : RecordingsEnv) (r1 r2 : RecordingsRequest)
    (resp : authWebhookResponse) :
  recordings_wellformed r1 -> recordings_wellformed r2 ->
  recordings_manifestID r2 = recordings_manifestID r1 ->
  cache_Get cache (recordings_manifestID r1) (re_getNow env1) = None ->
  authenticateStream w (re_post env1) (rq_URL r1) = (inl (Some resp), w1) ->
  re_getNow env2 <= re_setNow env1 + time_Hour ->
  exists res1 cache1 res2,
    HandleRecordings TypeByExtension w cache env1 r1 = (res1, w1, cache1)
    /\ cache_Get cache1 (recordings_manifestID r1) (re_getNow env2) = Some resp
    /\ HandleRecordings TypeByExtension w1 cache1 env2 r2 = (res2, w1, cache1).
Proof.
  intros Hwf1 Hwf2 Hsame Hmiss Hauth Htime.
  rewrite (HandleRecordings_wellformed _ _ _ _ Hwf1). cbv zeta.
  rewrite Hmiss, Hauth.
  eexists _, _, _. split; [reflexivity|].
  assert (Hhit : cache_Get
                   (cache_SetDefault cache (recordings_manifestID r1) resp (re_setNow env1))
                   (recordings_manifestID r1) (re_getNow env2) = Some resp).
  { unfold cache_Get, cache_SetDefault. rewrite lookup_insert_eq.
    destruct (Z.ltb_spec (re_setNow env1 + time_Hour) (re_getNow env2)); [lia|reflexivity]. }
  split; [exact Hhit|].
  rewrite (HandleRecordings_wellformed _ _ _ _ Hwf2). cbv zeta.
  rewrite Hsame, Hhit. reflexivity.
Qed.

(** X16. Without a response of the webhook (none is configured, or it
    answers 200 with an empty body) the handler can serve the files
    that the record store holds and nothing else: where the file asked
    for cannot be read it dereferences the nil response and panics,
    instead of building the playlist.  With a response it never
    panics. *)
Theorem recordings_without_response_panics (w : World) (cache : AuthCache)
    (env : RecordingsEnv) (r : RecordingsRequest) :
  recordings_wellformed r ->
  cache_Get cache (recordings_manifestID r) (re_getNow env) = None ->
  let auth := authenticateStream w (re_post env) (rq_URL r) in
  let res := (HandleRecordings TypeByExtension w cache env r).1.1 in
  let read d :=
    re_ReadData env (NewSession d (recordings_manifestID r))
      (String.concat "/" (drop 2 (strings_Split (rq_Path r) slash))) in
  (auth.1 = inl None ->
   forall d, RecordStorage w = Some d ->
     read d <> ReadCanceled ->
     (forall body, read d <> ReadFile (Some body)) ->
     res = RecPanic)
  /\ (res = RecPanic -> auth.1 = inl None).
Proof.
  intros Hwf Hmiss auth res read. subst auth res read.
  rewrite (HandleRecordings_wellformed _ _ _ _ Hwf). cbv zeta. rewrite Hmiss.
  destruct (authenticateStream w (re_post env) (rq_URL r)) as [[[resp0|]|err] w1] eqn:Hauth;
    cbn [fst].
  - split; [discriminate|]. unfold HandleRecordings_serve.
    destruct (recordings_session w1 (Some resp0) _) as [sess|code]; [|discriminate].
    destruct (re_ReadData env sess _) as [| |[body|]]; try discriminate;
      (destruct (getPlaylistsFromStore _ _) as [found|]; [|discriminate];
       destruct (length (jsonFiles found) =? 0)%nat; discriminate).
  - split; [|reflexivity]. intros _ d Hd Hnc Hnf.
    destruct (authenticateStream_frame _ _ _ _ _ Hauth) as ((_ & _ & _ & _ & Hrs & _) & _).
    unfold HandleRecordings_serve, recordings_session. rewrite Hrs, Hd.
    destruct (re_ReadData env _ _) as [| |[body|]] eqn:Hread; try reflexivity.
    + now contradiction Hnc.
    + now contradiction (Hnf body).
  - split; [discriminate|]. destruct (strings_Contains err "not found"); discriminate.
Qed.

End Recordings.

(** ** jsonProfileToVideoProfile *)

Lemma scaled_shift (q s e : Z) :
  0 <= q -> 0 <= s ->
  scaled (q * 2 ^ s) e
  = if 0 <=? e + s then q * 2 ^ (e + s) else Z.quot q (2 ^ (- (e + s))).
Proof.
  intros Hq Hs. unfold scaled.
  destruct (Z.leb_spec 0 e) as [He|He], (Z.leb_spec 0 (e + s)) as [Hes|Hes]; try lia.
  - rewrite Z.pow_add_r by lia. ring.
  - replace (2 ^ s) with (2 ^ (e + s) * 2 ^ (- e))
      by (rewrite <- Z.pow_add_r by lia; f_equal; lia).
    rewrite Z.mul_assoc. apply Z.div_mul. apply Z.pow_nonzero; lia.
  - replace (2 ^ (- e)) with (2 ^ (- (e + s)) * 2 ^ s)
      by (rewrite <- Z.pow_add_r by lia; f_equal; lia).
    rewrite Z.div_mul_cancel_r by (apply Z.pow_nonzero; lia).
    symmetry. apply Z.quot_div_nonneg; [exact Hq|]. apply Z.pow_pos_nonneg; lia.
Qed.

Lemma scaled_nonneg (p e : Z) : 0 <= p -> 0 <= scaled p e.
Proof.
  intros Hp. unfold scaled. destruct (Z.leb_spec 0 e).
  - apply Z.mul_nonneg_nonneg; [exact Hp|]. apply Z.pow_nonneg; lia.
  - apply Z.div_pos; [exact Hp|]. apply Z.pow_pos_nonneg; lia.
Qed.

(** The conversion of a finite value that is not negative. *)
Lemma int64_of_scaled (q s e : Z) :
  0 <= q -> 0 <= s ->
  int64_of_float64 (Finite q (e + s))
  = if scaled (q * 2 ^ s) e <? 2 ^ 63 then scaled (q * 2 ^ s) e else - 2 ^ 63.
Proof.
  intros Hq Hs. pose proof (scaled_nonneg (q * 2 ^ s) e) as Hn.
  rewrite scaled_shift in * by assumption.
  unfold int64_of_float64.
  set (t := if 0 <=? e + s then _ else _) in *.
  assert (0 <= t) as Ht.
  { apply Hn. apply Z.mul_nonneg_nonneg; [exact Hq|]. apply Z.pow_nonneg; lia. }
  replace (- 2 ^ 63 <=? t) with true by (symmetry; apply Z.leb_le; lia).
  reflexivity.
Qed.

(** A value of [2 ^ 1024] or more is beyond every int64. *)
Lemma scaled_overflow (q s e : Z) :
  0 < q -> 0 <= s -> 1024 <= Z.log2 q + (e + s) ->
  2 ^ 63 <= scaled (q * 2 ^ s) e.
Proof.
  intros Hq Hs Hbig.
  pose proof (Z.log2_spec q Hq) as [Hlo _].
  pose proof (Z.log2_nonneg q) as Hl.
  assert (Hle : scaled (2 ^ Z.log2 q * 2 ^ s) e <= scaled (q * 2 ^ s) e).
  { unfold scaled. assert (0 < 2 ^ s) by (apply Z.pow_pos_nonneg; lia).
    destruct (Z.leb_spec 0 e).
    - apply Z.mul_le_mono_nonneg_r; [apply Z.pow_nonneg; lia|nia].
    - apply Z.div_le_mono; [apply Z.pow_pos_nonneg; lia|nia]. }
  rewrite <- Z.pow_add_r in Hle by lia.
  replace (2 ^ (Z.log2 q + s)) with (1 * 2 ^ (Z.log2 q + s)) in Hle by lia.
  rewrite scaled_shift in Hle by lia.
  replace (0 <=? e + (Z.log2 q + s)) with true in Hle by (symmetry; apply Z.leb_le; lia).
  assert (2 ^ 63 <= 2 ^ (e + (Z.log2 q + s))) by (apply Z.pow_le_mono_r; lia).
  lia.
Qed.

Lemma nearest_even_unique (p s P1 P2 : Z) :
  nearest_even p s P1 -> nearest_even p s P2 -> P1 = P2.
Proof.
  unfold nearest_even. destruct (Z.leb_spec s 0) as [Hs|Hs]; [congruence|].
  intros (Hm1 & Hn1 & He1) (Hm2 & Hn2 & He2).
  assert (HT : 0 < 2 ^ s) by (apply Z.pow_pos_nonneg; lia).
  set (T := 2 ^ s) in *.
  apply Z.div_exact in Hm1, Hm2; try lia.
  set (a := P1 / T) in *. set (b := P2 / T) in *.
  assert (Hab : a = b \/ a = b + 1 \/ b = a + 1) by nia.
  destruct Hab as [Hab|[Hab|Hab]]; [congruence| |].
  - exfalso. assert (Z.even a = true) by (apply He1; nia).
    assert (Z.even b = true) by (apply He2; nia).
    rewrite Hab, Z.even_add in *. destruct (Z.even b); discriminate.
  - exfalso. assert (Z.even a = true) by (apply He1; nia).
    assert (Z.even b = true) by (apply He2; nia).
    rewrite Hab, Z.even_add in *. destruct (Z.even a); discriminate.
Qed.

Lemma gop_of_product (m e : Z) :
  0 < m ->
  gop_of_float (Finite m e)
    (int64_of_float64 (float64_mul (Finite m e) (float64_of_int64 time_Second))).
Proof.
  intros Hm. split; [exact Hm|].
  replace (float64_of_int64 time_Second) with (Finite 1000000000 0) by reflexivity.
  cbn [float64_mul]. rewrite Z.add_0_r.
  set (p := m * 1000000000). assert (Hp : 0 < p) by (unfold p; lia).
  unfold round64, rne53. cbv zeta. rewrite (Z.abs_eq p) by lia. fold p.
  set (s := Z.max (Z.log2 p - 52) (- 1074 - e)).
  destruct (Z.leb_spec s 0) as [Hs|Hs].
  - exists p. split; [unfold nearest_even; replace (s <=? 0) with true by (symmetry; apply Z.leb_le; exact Hs); reflexivity|].
    pose proof (int64_of_scaled p 0 e ltac:(lia) ltac:(lia)) as Hconv.
    rewrite Z.pow_0_r, Z.mul_1_r, Z.add_0_r in Hconv.
    rewrite Z.abs_eq by lia.
    destruct (Z.leb_spec 1024 (Z.log2 p + e)) as [Hbig|Hbig].
    + replace (negb (p =? 0)) with true by (symmetry; apply negb_true_iff, Z.eqb_neq; lia).
      cbn [andb int64_of_float64].
      pose proof (scaled_overflow p 0 e Hp ltac:(lia) ltac:(lia)) as Hov.
      rewrite Z.pow_0_r, Z.mul_1_r in Hov.
      replace (scaled p e <? 2 ^ 63) with false by (symmetry; apply Z.ltb_ge; exact Hov).
      reflexivity.
    + rewrite andb_false_r. exact Hconv.
  - set (q := p / 2 ^ s). set (r := p mod 2 ^ s).
    set (q' := if (2 ^ (s - 1) <? r) || (r =? 2 ^ (s - 1)) && Z.odd q then q + 1 else q).
    assert (H2s : 0 < 2 ^ s) by (apply Z.pow_pos_nonneg; lia).
    assert (Hq0 : 0 <= q) by (apply Z.div_pos; lia).
    assert (Hr : 0 <= r < 2 ^ s) by (apply Z.mod_pos_bound; lia).
    assert (Hpqr : p = 2 ^ s * q + r) by (apply Z.div_mod; lia).
    assert (Hhalf : 2 ^ s = 2 * 2 ^ (s - 1)).
    { replace s with (1 + (s - 1)) at 1 by lia. rewrite Z.pow_add_r by lia. reflexivity. }
    assert (Hq' : 0 <= q' /\ nearest_even p s (q' * 2 ^ s)).
    { unfold nearest_even.
      replace (s <=? 0) with false by (symmetry; apply Z.leb_gt; exact Hs).
      rewrite Z.mod_mul, Z.div_mul by lia.
      unfold q'. destruct (2 ^ (s - 1) <? r) eqn:Hlt; cbn [orb].
      - apply Z.ltb_lt in Hlt. split; [lia|]. split; [reflexivity|]. split; lia.
      - apply Z.ltb_ge in Hlt. destruct (r =? 2 ^ (s - 1)) eqn:Heq; cbn [andb].
        + apply Z.eqb_eq in Heq. destruct (Z.odd q) eqn:Hodd.
          * split; [lia|]. split; [reflexivity|]. split; [lia|]. intros _.
            rewrite Z.even_add, <- Z.negb_odd, Hodd. reflexivity.
          * split; [lia|]. split; [reflexivity|]. split; [lia|]. intros _.
            rewrite <- Z.negb_odd, Hodd. reflexivity.
        + apply Z.eqb_neq in Heq. split; [lia|]. split; [reflexivity|]. split; lia. }
    destruct Hq' as [Hq'0 Hnear].
    exists (q' * 2 ^ s). split; [exact Hnear|].
    rewrite Z.sgn_pos by exact Hp. rewrite Z.mul_1_l.
    destruct (Z.eq_dec q' 0) as [Hz|Hnz].
    + rewrite Hz. cbn [Z.eqb negb andb]. apply int64_of_scaled; lia.
    + replace (negb (q' =? 0)) with true by (symmetry; apply negb_true_iff, Z.eqb_neq; lia).
      rewrite Z.abs_eq by lia. cbn [andb].
      destruct (Z.leb_spec 1024 (Z.log2 q' + (e + s))) as [Hbig|Hbig].
      * cbn [int64_of_float64].
        pose proof (scaled_overflow q' s e ltac:(lia) ltac:(lia) Hbig) as Hov.
        replace (scaled (q' * 2 ^ s) e <? 2 ^ 63) with false
          by (symmetry; apply Z.ltb_ge; exact Hov).
        reflexivity.
      * apply int64_of_scaled; lia.
Qed.

Lemma gop_of_float_unique (f : float64) (g1 g2 : Duration) :
  gop_of_float f g1 -> gop_of_float f g2 -> g1 = g2.
Proof.
  destruct f as [m e|negative|]; cbn [gop_of_float].
  - intros (_ & P1 & Hn1 & ->) (_ & P2 & Hn2 & ->).
    now rewrite (nearest_even_unique _ _ _ _ Hn1 Hn2).
  - intros (_ & ->) (_ & ->). reflexivity.
  - intros -> ->. reflexivity.
Qed.

(** The GOP that the loop computes for one profile. *)
Lemma jsonProfile_gop_ok (g : string) (gop : Duration) :
  jsonProfile_gop g = inl gop <-> gop_of_string g gop.
Proof.
  unfold jsonProfile_gop, gop_of_string, nonempty.
  destruct (String.eqb_spec g "") as [->|Hne]; cbn [negb].
  { split.
    - intros [= <-]. auto.
    - intros [(_ & ->)|[(H & _)|(H & _)]]; [reflexivity|discriminate|congruence]. }
  destruct (String.eqb_spec g "intra") as [->|Hni].
  { split.
    - intros [= <-]. auto.
    - intros [(H & _)|[(_ & ->)|(_ & H & _)]]; [discriminate|reflexivity|congruence]. }
  assert (Hconv : forall f, le_zero f = false ->
            gop_of_float f (int64_of_float64
                              (float64_mul f (float64_of_int64 time_Second)))).
  { intros [m e|negative|] Hle; cbn [le_zero] in Hle.
    - apply gop_of_product. apply Z.leb_gt in Hle. lia.
    - subst negative. split; reflexivity.
    - reflexivity. }
  assert (Hpos : forall f gop', gop_of_float f gop' -> le_zero f = false).
  { intros [m e|negative|] gop'; cbn [gop_of_float le_zero].
    - intros (Hm & _). apply Z.leb_gt. lia.
    - now intros (-> & _).
    - reflexivity. }
  destruct (strconv_ParseFloat g) as [f|err] eqn:Hparse.
  - split.
    + destruct (le_zero f) eqn:Hle; [discriminate|]. intros [= <-].
      right; right. repeat split; auto. exists f. auto.
    + intros [(H & _)|[(H & _)|(_ & _ & f' & [= <-] & Hf)]]; [congruence..|].
      rewrite (Hpos _ _ Hf). f_equal.
      exact (gop_of_float_unique _ _ _ (Hconv _ (Hpos _ _ Hf)) Hf).
  - split; [discriminate|].
    intros [(H & _)|[(H & _)|(_ & _ & f' & [=] & _)]]; congruence.
Qed.

Lemma jsonProfile_gop_err (g : string) :
  (exists err, jsonProfile_gop g = inr err) <-> gop_rejected g.
Proof.
  unfold jsonProfile_gop, gop_rejected, nonempty.
  destruct (String.eqb_spec g "") as [->|Hne]; cbn [negb].
  { split; [intros [err [=]]|intros (H & _); congruence]. }
  destruct (String.eqb_spec g "intra") as [->|Hni].
  { split; [intros [err [=]]|intros (_ & H & _); congruence]. }
  destruct (strconv_ParseFloat g) as [[m e|negative|]|err]; cbn [le_zero].
  - destruct (Z.leb_spec m 0) as [Hm|Hm].
    + split; [auto|eauto].
    + split; [intros [err [=]]|intros (_ & _ & H); lia].
  - destruct negative.
    + split; [auto|eauto].
    + split; [intros [err [=]]|intros (_ & _ & [=])].
  - split; [intros [err [=]]|intros (_ & _ & [])].
  - split; [auto|eauto].
Qed.

Lemma json_profile_converts_unique (profile : JSONProfile) (p1 p2 : VideoProfile) :
  json_profile_converts profile p1 -> json_profile_converts profile p2 -> p1 = p2.
Proof.
  intros (N1 & B1 & F1 & D1 & R1 & E1 & G1 & V1) (N2 & B2 & F2 & D2 & R2 & E2 & G2 & V2).
  apply jsonProfile_gop_ok in G1, G2.
  destruct p1, p2; cbn [Name Bitrate Framerate FramerateDen Resolution Profile GOP
                        VFormat] in *.
  f_equal; congruence.
Qed.

Lemma jsonProfileToVideoProfile_loop_spec (ps : list JSONProfile) :
  forall (acc res : list VideoProfile),
    jsonProfileToVideoProfile_loop ps acc = inl res
    <-> exists qs, Forall2 json_profile_converts ps qs /\ res = acc ++ qs.
Proof.
  induction ps as [|profile ps IH]; intros acc res; cbn [jsonProfileToVideoProfile_loop].
  - split.
    + intros [= <-]. exists []. split; [constructor|now rewrite app_nil_r].
    + intros (qs & Hqs & ->). apply Forall2_nil_inv_l in Hqs as ->.
      now rewrite app_nil_r.
  - destruct (jsonProfile_gop (jp_GOP profile)) as [gop|err] eqn:Hgop.
    2:{ split; [discriminate|]. intros (qs & Hqs & _).
        apply Forall2_cons_inv_l in Hqs as (q & qs' & Hq & _ & _).
        destruct Hq as (_ & _ & _ & _ & _ & _ & Hg & _).
        apply jsonProfile_gop_ok in Hg. congruence. }
    destruct (EncoderProfileNameToValue (jp_Profile profile)) as [enc|err] eqn:Henc.
    2:{ split; [discriminate|]. intros (qs & Hqs & _).
        apply Forall2_cons_inv_l in Hqs as (q & qs' & Hq & _ & _).
        destruct Hq as (_ & _ & _ & _ & _ & He & _). congruence. }
    match goal with
    | |- jsonProfileToVideoProfile_loop _ (_ ++ [?q]) = _ <-> _ => set (prof := q)
    end.
    assert (Hprof : json_profile_converts profile prof).
    { unfold json_profile_converts, prof; cbn.
      repeat split; auto. now apply jsonProfile_gop_ok. }
    rewrite IH. split.
    + intros (qs & Hqs & ->). exists (prof :: qs). split.
      * constructor; [exact Hprof|exact Hqs].
      * now rewrite <- app_assoc.
    + intros (qs & Hqs & ->).
      apply Forall2_cons_inv_l in Hqs as (q & qs' & Hq & Hqs' & ->).
      exists qs'. split; [exact Hqs'|].
      rewrite (json_profile_converts_unique _ _ _ Hq Hprof).
      now rewrite <- app_assoc.
Qed.

Lemma jsonProfileToVideoProfile_loop_err (ps : list JSONProfile) :
  forall (acc : list VideoProfile),
    (exists err, jsonProfileToVideoProfile_loop ps acc = inr err)
    <-> exists profile,
          profile ∈ ps
          /\ (gop_rejected (jp_GOP profile)
              \/ exists err, EncoderProfileNameToValue (jp_Profile profile) = inr err).
Proof.
  induction ps as [|profile ps IH]; intros acc; cbn [jsonProfileToVideoProfile_loop].
  - split; [intros [err [=]]|]. intros (profile & Hin & _).
    now apply elem_of_nil in Hin.
  - destruct (jsonProfile_gop (jp_GOP profile)) as [gop|err] eqn:Hgop.
    2:{ split; [|eauto]. intros _. exists profile. split; [apply elem_of_cons; auto|].
        left. apply jsonProfile_gop_err. eauto. }
    destruct (EncoderProfileNameToValue (jp_Profile profile)) as [enc|err] eqn:Henc.
    2:{ split; [|eauto]. intros _. exists profile. split; [apply elem_of_cons; auto|].
        right. eauto. }
    rewrite IH. split.
    + intros (profile' & Hin & Hrej). exists profile'.
      split; [apply elem_of_cons; auto|exact Hrej].
    + intros (profile' & Hin & Hrej).
      apply elem_of_cons in Hin as [->|Hin]; [|eauto].
      exfalso. destruct Hrej as [Hrej|[err Herr]]; [|congruence].
      apply jsonProfile_gop_err in Hrej as [err Herr]. congruence.
Qed.

(** X17. [jsonProfileToVideoProfile] converts the profiles of a webhook
    response one by one and in order.  It succeeds with the list [ps]
    exactly when [ps] has, for each profile of the response, the video
    profile it stands for: its name or a generated one, its bitrate, its
    frame rate, its resolution, its encoder profile, no format, and as
    GOP zero for no GOP, the intra-only constant for "intra", and
    otherwise the integer part, in nanoseconds, of the seconds given
    times [10 ^ 9], the product rounded to a binary64 to the nearest
    with ties to even; a product of [2 ^ 63] nanoseconds or more, a NaN
    and the positive infinity give the least int64, a negative GOP.  It
    fails exactly when some profile of the response has an encoder
    profile that does not convert, or a GOP that is neither empty nor
    "intra" and is no number, zero, below zero or the negative
    infinity. *)
Theorem jsonProfileToVideoProfile_converts (resp : authWebhookResponse) :
  (forall ps, jsonProfileToVideoProfile resp = inl ps
              <-> Forall2 json_profile_converts (r_Profiles resp) ps)
  /\ ((exists err, jsonProfileToVideoProfile resp = inr err)
      <-> exists profile,
            profile ∈ r_Profiles resp
            /\ (gop_rejected (jp_GOP profile)
                \/ exists err,
                     EncoderProfileNameToValue (jp_Profile profile) = inr err)).
Proof.
  split.
  - intros ps. unfold jsonProfileToVideoProfile.
    rewrite jsonProfileToVideoProfile_loop_spec. cbn [app]. split.
    + now intros (qs & Hqs & ->).
    + intros Hqs. now exists ps.
  - apply jsonProfileToVideoProfile_loop_err.
Qed.

(** ** The identity that the stream-id handler gives *)

(** X18. The stream parameters that [createRTMPStreamIDHandler] returns
    never carry an empty manifest id or an empty stream key, as long as
    the random generators give none; they carry no resolution, no
    format and no capabilities yet.  Without a webhook the manifest id
    is the one of the path, or the random one where the path has
    none. *)
Theorem stream_parameters_identity (w w' : World) (env : PushEnv) (url : URL)
    (params0 : StreamParameters) :
  e_RandomManifestID env <> "" ->
  e_RandomKey env <> "" ->
  createRTMPStreamIDHandler w env url = (Some params0, w') ->
  p_ManifestID params0 <> ""
  /\ p_RtmpKey params0 <> ""
  /\ p_Resolution params0 = ""
  /\ p_Format params0 = FormatNone
  /\ p_Capabilities params0 = None
  /\ (AuthWebhookURL w = "" ->
      p_ManifestID params0
      = if String.eqb (parseManifestID (Path url)) ""
        then e_RandomManifestID env else parseManifestID (Path url)).
Proof.
  intros Hrm Hrk. unfold createRTMPStreamIDHandler.
  destruct (alloc_array [] w) as [r0 w0] eqn:Halloc.
  assert (Hurl : AuthWebhookURL w0 = AuthWebhookURL w) by (now injection Halloc as <- <-).
  destruct (authenticateStream w0 (e_post env) (URL_String url)) as [res w1] eqn:Hauth.
  destruct res as [resp|err]; [|discriminate].
  destruct (resolve_auth w1 (Some r0) resp) as [rs w2] eqn:Hres.
  destruct rs as [rs|]; [|discriminate].
  assert (Hnohook : AuthWebhookURL w = "" -> rs_mid rs = "").
  { intros Hno. unfold authenticateStream in Hauth. rewrite Hurl, Hno in Hauth.
    cbn in Hauth. injection Hauth as <- <-. cbn in Hres. now injection Hres as <- <-. }
  set (sid := parseStreamID (Path url)) in *.
  assert (Hne : forall s t : string, t <> "" -> (if String.eqb s "" then t else s) <> "").
  { intros s t Ht. destruct (String.eqb_spec s ""); auto. }
  destruct (String.eqb_spec (rs_mid rs) "") as [Hmid|Hmid];
    (destruct (_ && _); [discriminate|]);
    (destruct (slice_append w2 None _) as [copy w3]);
    intros [= <- <-]; cbn;
    (split; [now apply Hne|]); (split; [now apply Hne|]);
    repeat (split; [reflexivity|]); intros Hno.
  - reflexivity.
  - now specialize (Hnohook Hno).
Qed.

(** ** NewLivepeerServer *)

Section NewServer.
Variables MasterPlaylist RemoteTranscoderInfo : Type.
Variable json_Unmarshal_Profiles : string -> list JSONProfile + string.

Lemma transcoding_profiles_nonempty (readFile : string -> string + string)
    (transcodingOptions : string) (profiles : list VideoProfile) :
  transcoding_profiles json_Unmarshal_Profiles readFile transcodingOptions = inl profiles ->
  profiles <> [].
Proof.
  unfold transcoding_profiles.
  destruct (match readFile transcodingOptions with inl _ => _ | inr _ => _ end)
    as [ps|err]; [|discriminate].
  destruct ps as [|p ps]; [discriminate|]. intros [= <-]. discriminate.
Qed.

(** X19. [NewLivepeerServer] either fails and changes nothing, which
    happens exactly when the node is a broadcaster whose transcoding
    options are given and yield an error or no profile; or it returns a
    server with an empty registry, RTMP enabled for a broadcaster only,
    the recordings served in any case and pushes served exactly for a
    broadcaster with HTTP ingest.  The default profiles are replaced
    only for a broadcaster with transcoding options, by a list that is
    not empty and lives in an array of its own; otherwise they are what
    they were. *)
Theorem NewLivepeerServer_configures (w : World) (readFile : string -> string + string)
    (rtmpAddr : string) (lpNode : LivepeerNode RemoteTranscoderInfo)
    (httpIngest : bool) (transcodingOptions : string) :
  let broadcaster := is_broadcaster (node_Type lpNode) in
  let options := broadcaster && nonempty transcodingOptions in
  match NewLivepeerServer RemoteTranscoderInfo json_Unmarshal_Profiles
          w readFile rtmpAddr lpNode httpIngest transcodingOptions with
  | (inr err, w') =>
      w' = w /\ options = true
      /\ transcoding_profiles json_Unmarshal_Profiles readFile transcodingOptions = inr err
  | (inl srv, w') =>
      rtmpConnections w' = ∅ /\ internalManifests w' = ∅ /\ keyed w'
      /\ heap w' = heap w /\ config_eq (set_BroadcastJobVideoProfiles
                                          (BroadcastJobVideoProfiles w) w') w
      /\ RtmpDisabled (srv_opts srv) = negb broadcaster
      /\ ("/recordings/", HandleRecordingsHandler) ∈ HTTPMux srv
      /\ (("/live/", HandlePushHandler) ∈ HTTPMux srv <-> broadcaster && httpIngest = true)
      /\ if options then
           exists profiles,
             transcoding_profiles json_Unmarshal_Profiles readFile transcodingOptions
             = inl profiles
             /\ profiles <> []
             /\ BroadcastJobVideoProfiles w' = Some (length (arrays w))
             /\ arrays w' = arrays w ++ [profiles]
             /\ slice_elems w' (BroadcastJobVideoProfiles w') = profiles
         else
           BroadcastJobVideoProfiles w' = BroadcastJobVideoProfiles w
           /\ arrays w' = arrays w
  end.
Proof.
  intros broadcaster options. unfold NewLivepeerServer. fold broadcaster. fold options.
  assert (Hmux : forall b : bool,
            ("/recordings/", HandleRecordingsHandler)
              ∈ (if b then [("/live/", HandlePushHandler)] else [])
                ++ [("/recordings/", HandleRecordingsHandler)]
            /\ (("/live/", HandlePushHandler)
                  ∈ (if b then [("/live/", HandlePushHandler)] else [])
                    ++ [("/recordings/", HandleRecordingsHandler)]
                <-> b = true)).
  { intros [|]; cbn; split.
    - apply elem_of_cons. right. apply list_elem_of_singleton. reflexivity.
    - split; [reflexivity|]. intros _. apply elem_of_cons. auto.
    - apply list_elem_of_singleton. reflexivity.
    - split; [|discriminate]. intros H. apply list_elem_of_singleton in H. discriminate. }
  assert (Hkeyed : forall w0, keyed (new_registry w0)).
  { intros w0 m a Ha. cbn in Ha. rewrite lookup_empty in Ha. discriminate. }
  destruct options.
  - destruct (transcoding_profiles _ readFile transcodingOptions) as [profiles|err] eqn:Hp.
    + cbn. destruct (Hmux (broadcaster && httpIngest)) as [H1 H2].
      split; [reflexivity|]. split; [reflexivity|]. split; [apply Hkeyed|].
      split; [reflexivity|]. split; [repeat split|]. split; [reflexivity|].
      split; [exact H1|]. split; [exact H2|].
      exists profiles. split; [reflexivity|].
      split; [eapply transcoding_profiles_nonempty; eauto|].
      split; [reflexivity|]. split; [reflexivity|].
      unfold slice_elems. cbn. rewrite lookup_app_r, Nat.sub_diag by lia. reflexivity.
    + auto.
  - cbn. destruct (Hmux (broadcaster && httpIngest)) as [H1 H2].
    split; [reflexivity|]. split; [reflexivity|]. split; [apply Hkeyed|].
    split; [reflexivity|]. split; [repeat split|]. split; [reflexivity|].
    split; [exact H1|]. split; [exact H2|]. split; reflexivity.
Qed.

End NewServer.

(** ** A path that has been pushed to is bound *)

Lemma removeRTMPStream_unbound (w : World) (extmid mid0 : ManifestID) :
  internalManifests w !! mid0 = None ->
  internalManifests (world_of (removeRTMPStream w extmid)) !! mid0 = None.
Proof.
  intros Hnone. unfold removeRTMPStream.
  destruct (rtmpConnections w !! resolve w extmid) as [a|]; [|exact Hnone].
  destruct (heap w !! a) as [cxn|]; [|exact Hnone].
  destruct (pl cxn) as [p|]; [|exact Hnone].
  cbn. apply lookup_delete_None. auto.
Qed.

Lemma HandlePush_collision_unbound (w : World) (env : PushEnv) (m mid0 : ManifestID) :
  internalManifests w !! mid0 = None ->
  internalManifests (world_of (HandlePush_collision w env m mid0)) !! mid0 = None.
Proof.
  intros Hnone. unfold HandlePush_collision.
  destruct (_ && _); [|exact Hnone].
  destruct (_ && _); [|exact Hnone].
  match goal with |- context [removeRTMPStream w ?e] =>
    pose proof (removeRTMPStream_unbound w e mid0 Hnone) as Hrm;
    destruct (removeRTMPStream w e); exact Hrm
  end.
Qed.

Lemma rebindExternal_bound (w w' : World) (a : addr) (mid0 m : ManifestID)
    (c : rtmpConnection) :
  heap w !! a = Some c ->
  rtmpConnections w !! mid c = Some a ->
  internalManifests w !! mid0 = None ->
  rebindExternal w a mid0 = Ok m w' ->
  m = mid c /\ rtmpConnections w' !! resolve w' mid0 = Some a
  /\ rtmpConnections w' !! m = Some a.
Proof.
  intros Hc Ha Hnone. unfold rebindExternal. rewrite Hc.
  destruct (String.eqb_spec (mid c) mid0) as [Heq|Hne]; cbn [negb]; intros [= <- <-].
  - unfold resolve. rewrite Hnone, <- Heq. auto.
  - unfold resolve. cbn. rewrite lookup_insert_eq. auto.
Qed.

Lemma HandlePush_register_bound (w w' : World) (env : PushEnv) (url : URL)
    (hdr : Header) (format : Z) (mid0 m : ManifestID) (cxn : addr) :
  keyed w ->
  internalManifests w !! mid0 = None ->
  HandlePush_register w env url hdr format mid0 = Ok (inr (cxn, m)) w' ->
  rtmpConnections w' !! resolve w' mid0 = Some cxn
  /\ rtmpConnections w' !! m = Some cxn.
Proof.
  intros Hk Hnone. unfold HandlePush_register.
  destruct (createRTMPStreamIDHandler w env url) as [appData w1] eqn:Hcreate.
  destruct (createRTMPStreamIDHandler_frame _ _ _ _ _ Hcreate) as (_ & Hr1 & _).
  pose proof (keyed_registry_eq _ _ Hr1 Hk) as Hk1.
  assert (Hn1 : internalManifests w1 !! mid0 = None).
  { destruct Hr1 as (_ & -> & _). exact Hnone. }
  destruct appData as [params0|]; [|discriminate].
  set (params1 := set_Resolution_Format (h_ContentResolution hdr) format params0).
  pose proof (HandlePush_collision_unbound w1 env (p_ManifestID params1) mid0 Hn1) as Hn2.
  destruct (HandlePush_collision_keyed w1 env (p_ManifestID params1) mid0 Hk1)
    as (w2 & Hcoll & Hk2 & _).
  rewrite Hcoll in *. cbn [world_of] in Hn2.
  set (w3 := set_output_formats w2 (p_Profiles params1) format).
  destruct (set_output_formats_frame w2 (p_Profiles params1) format) as (_ & Hr3 & _).
  assert (Hk3 : keyed w3) by (eapply keyed_registry_eq; eauto).
  assert (Hn3 : internalManifests w3 !! mid0 = None).
  { destruct Hr3 as (_ & Hi3 & _). unfold w3. rewrite Hi3. exact Hn2. }
  destruct (registerConnection w3 _ (Some params1) (e_nonce env) (e_regNow env))
    as [[cxn' err] w4] eqn:Hreg.
  destruct (registerConnection_keyed _ _ _ _ _ _ _ _ Hk3 Hreg) as [Hk4 Hcxn].
  destruct (registerConnection_frame _ _ _ _ _ _ _ _ Hreg) as (_ & _ & _ & Him4 & _).
  assert (Hn4 : internalManifests w4 !! mid0 = None) by (now rewrite Him4).
  assert (Hregd : forall a, cxn' = Some a ->
            exists c, heap w4 !! a = Some c /\ rtmpConnections w4 !! mid c = Some a).
  { intros a ->.
    apply registerConnection_cases in Hreg
      as [(Hf & _)|[(old & Hold & [= <-] & _ & ->)|(_ & [= ->] & _ & c & h & -> & Hb)]];
      [discriminate| |].
    - destruct (Hk3 _ _ Hold) as (c & p & Hc & Hm & _). exists c. now rewrite Hm.
    - destruct Hb as (Hm & _). exists c.
      cbn [heap rtmpConnections set_last set_registry set_heap]. rewrite Hm.
      rewrite lookup_app_r by apply Nat.le_refl.
      rewrite Nat.sub_diag, lookup_insert_eq. auto. }
  destruct err as [e|].
  - destruct cxn' as [a|].
    + destruct e; try discriminate.
      destruct (Hregd a eq_refl) as (c & Hc & Ha).
      destruct (rebindExternal w4 a mid0) as [m' w5|w5] eqn:Hrb; [|discriminate].
      intros [= <- <- <-].
      destruct (rebindExternal_bound _ _ _ _ _ _ Hc Ha Hn4 Hrb) as (_ & H1 & H2). auto.
    + destruct e; discriminate.
  - destruct cxn' as [a|]; [|discriminate].
    destruct (negb _); [discriminate|].
    destruct (Hregd a eq_refl) as (c & Hc & Ha). rewrite Hc.
    destruct (rebindExternal (add_watchdog (mid c, mid0) w4) a mid0) as [m' w5|w5] eqn:Hrb;
      [|discriminate].
    intros [= <- <- <-].
    destruct (rebindExternal_bound (add_watchdog (mid c, mid0) w4) _ _ _ _ _ Hc Ha Hn4 Hrb)
      as (_ & H1 & H2). auto.
Qed.

Lemma HandlePush_process_registry (w : World) (env : PushEnv) (r : Request)
    (url : URL) (ext body : string) (cxn : addr) (m : ManifestID) :
  rtmpConnections (world_of (HandlePush_process w env r url ext body cxn m))
  = rtmpConnections w
  /\ internalManifests (world_of (HandlePush_process w env r url ext body cxn m))
     = internalManifests w.
Proof.
  destruct (HandlePush_process_frame w env r url ext body cxn m)
    as (_ & _ & _ & Hr & Hi & _). auto.
Qed.

(** X20. A push that is answered with 200 or 503 leaves its path bound
    to a connection: on a keyed registry, and for a manifest id of the
    path that was not an external identity before, the identity that
    the path resolves to after the push is registered.  So the next push
    on that path finds the connection, and neither registers nor
    authenticates again. *)
Theorem answered_push_is_registered (w w' : World) (env : PushEnv) (r : Request)
    (resp : Response) :
  keyed w ->
  internalManifests w !! parseManifestID (Path (r_URL r)) = None ->
  HandlePush w env r = Ok resp w' ->
  status resp = 200 \/ status resp = 503 ->
  is_Some (rtmpConnections w' !! resolve w' (parseManifestID (Path (r_URL r)))).
Proof.
  intros Hk Hnone. unfold HandlePush. cbn [Path].
  destruct (_ && _); [intros [= <- _] [H|H]; discriminate|].
  destruct (r_Body r) as [body|]; [|intros [= <- _] [H|H]; discriminate].
  destruct (FormatNone =? _); [intros [= <- _] [H|H]; discriminate|].
  destruct (String.eqb _ ""); [intros [= <- _] [H|H]; discriminate|].
  set (mid0 := parseManifestID (Path (r_URL r))) in *.
  assert (Hres : resolve w mid0 = mid0) by (unfold resolve; now rewrite Hnone).
  rewrite Hres.
  destruct (rtmpConnections w !! mid0) as [cxn|] eqn:Hcxn.
  - intros Hp _.
    match type of Hp with HandlePush_process ?w0 env r ?u ?e ?b ?c ?m = _ =>
      destruct (HandlePush_process_registry w0 env r u e b c m) as [Hr Hi]
    end.
    rewrite Hp in Hr, Hi. cbn in Hr, Hi.
    unfold resolve. rewrite Hi, Hnone, Hr, Hcxn. eauto.
  - match goal with |- context [HandlePush_register w env ?u ?h ?f ?m] =>
      pose proof (HandlePush_register_bound w) as Hb;
      pose proof (HandlePush_register_status w) as Hst;
      destruct (HandlePush_register w env u h f m) as [[resp1|[cxn m2]] w1|w1] eqn:Hreg
    end; [| |discriminate].
    + intros [= <- _] [H|H]; rewrite (Hst _ _ _ _ _ _ _ Hreg) in H; discriminate.
    + intros Hp _. destruct (Hb _ _ _ _ _ _ _ _ Hk Hnone Hreg) as [H1 _].
      match type of Hp with HandlePush_process ?w0 env r ?u ?e ?b ?c ?m = _ =>
        destruct (HandlePush_process_registry w0 env r u e b c m) as [Hr Hi]
      end.
      rewrite Hp in Hr, Hi. cbn in Hr, Hi.
      unfold resolve in *. rewrite Hi, Hr. eauto.
Qed.

(** ** Pushes that are turned down at registration *)

Lemma authenticateStream_denied (w : World) (post : string -> PostOutcome) (url : string) :
  AuthWebhookURL w <> "" ->
  webhook_denies (post (json_Marshal [("url", url)])) ->
  exists err,
    authenticateStream w post url
    = (inr err, add_post (AuthWebhookURL w, json_Marshal [("url", url)]) w).
Proof.
  intros Hurl Hdeny. unfold authenticateStream.
  rewrite (proj2 (String.eqb_neq _ _) Hurl).
  destruct (post (json_Marshal [("url", url)])) as [err|code rbody]; [eauto|].
  cbn in Hdeny. destruct Hdeny as [Hcode|[Hbody Hparse]].
  - rewrite (proj2 (Z.eqb_neq _ _) Hcode). cbn. eauto.
  - destruct (code =? 200); cbn [negb]; [|eauto].
    assert (Hlen : (String.length rbody =? 0)%nat = false).
    { destruct rbody; [contradiction|reflexivity]. }
    rewrite Hlen.
    destruct (json_Unmarshal rbody) as [authResp|err]; [|eauto].
    rewrite Hparse. cbn. eauto.
Qed.

(** X21. A push for a stream that is not registered, which the webhook
    turns down, is answered with 500 and the message that no stream id
    could be created; the webhook has been sent the one request, and the
    registry and the connections are as before. *)
Theorem denied_push_registers_nothing (w : World) (env : PushEnv) (r : Request)
    (body : string) :
  let url := {| Scheme := "http"; Opaque := ""; Host := r_Host r;
                Path := Path (r_URL r); RawQuery := ""; Fragment := "" |} in
  Method r = "POST" \/ Method r = "PUT" ->
  r_Body r = inl body ->
  ProfileExtensionFormat (path_Ext (Path (r_URL r))) <> FormatNone ->
  parseManifestID (Path (r_URL r)) <> "" ->
  rtmpConnections w !! resolve w (parseManifestID (Path (r_URL r))) = None ->
  AuthWebhookURL w <> "" ->
  webhook_denies (e_post env (json_Marshal [("url", URL_String url)])) ->
  exists w',
    HandlePush w env r
    = Ok (http_Error ("Could not create stream ID: url=" +:+ URL_String url) 500) w'
    /\ registry_eq w w'
    /\ posts w' = posts w ++ [(AuthWebhookURL w, json_Marshal [("url", URL_String url)])].
Proof.
  intros url Hm Hbody Hfmt Hmid Hreg Hurl Hdeny. unfold HandlePush.
  assert (Hmeth : negb (String.eqb (Method r) "POST") && negb (String.eqb (Method r) "PUT")
                  = false).
  { destruct Hm as [-> | ->]; reflexivity. }
  rewrite Hmeth, Hbody. cbn [Path]. fold url.
  rewrite (proj2 (Z.eqb_neq _ _) (fun H => Hfmt (eq_sym H))).
  rewrite (proj2 (String.eqb_neq _ _) Hmid), Hreg.
  unfold HandlePush_register, createRTMPStreamIDHandler.
  cbn [alloc_array].
  set (w0 := set_arrays (arrays w ++ [[]]) w).
  destruct (authenticateStream_denied w0 (e_post env) (URL_String url) Hurl Hdeny)
    as [err ->].
  eexists. split; [reflexivity|]. repeat split.
Qed.

Lemma registerConnection_no_storage (w : World) (rtmpStrm : RTMPVideoStream)
    (appData : option StreamParameters) (nonce0 now : Z) :
  NodeStorage w = None ->
  exists err, registerConnection w rtmpStrm appData nonce0 now = (None, Some err, w)
              /\ err <> errAlreadyExists.
Proof.
  intros Hns. unfold registerConnection. rewrite Hns.
  destruct appData; eexists; split; try reflexivity; discriminate.
Qed.

Lemma HandlePush_register_no_storage (w : World) (env : PushEnv) (url : URL)
    (hdr : Header) (format : Z) (mid0 : ManifestID) :
  NodeStorage w = None ->
  rtmpConnections (world_of (HandlePush_register w env url hdr format mid0))
    ⊆ rtmpConnections w
  /\ forall res w',
       HandlePush_register w env url hdr format mid0 = Ok res w' ->
       exists resp, res = inl resp.
Proof.
  intros Hns. unfold HandlePush_register.
  destruct (createRTMPStreamIDHandler w env url) as [appData w1] eqn:Hcreate.
  destruct (createRTMPStreamIDHandler_frame _ _ _ _ _ Hcreate)
    as ((_ & _ & _ & Hns1 & _) & (Hr1 & _) & _).
  destruct appData as [params0|];
    [|cbn [world_of]; rewrite Hr1; split; [done|]; intros res w' [= <- _]; eauto].
  set (params1 := set_Resolution_Format (h_ContentResolution hdr) format params0).
  pose proof (HandlePush_collision_registry w1 env (p_ManifestID params1) mid0) as Hsub.
  pose proof (HandlePush_collision_frame w1 env (p_ManifestID params1) mid0)
    as ((_ & _ & _ & Hns2 & _) & _).
  rewrite Hr1 in Hsub.
  destruct (HandlePush_collision w1 env (p_ManifestID params1) mid0) as [[] w2|w2];
    cbn [world_of] in *; [|split; [exact Hsub|discriminate]].
  set (w3 := set_output_formats w2 (p_Profiles params1) format).
  destruct (set_output_formats_frame w2 (p_Profiles params1) format)
    as ((_ & _ & _ & Hns3 & _) & (Hr3 & _) & _).
  assert (Hnone : NodeStorage w3 = None) by (unfold w3; congruence).
  match goal with |- context [registerConnection w3 ?s ?d ?n ?t] =>
    destruct (registerConnection_no_storage w3 s d n t Hnone) as (err & -> & Hne)
  end.
  assert (Hsub3 : rtmpConnections w3 ⊆ rtmpConnections w)
    by (unfold w3; rewrite Hr3; exact Hsub).
  destruct err; try contradiction; cbn [world_of];
    (split; [exact Hsub3|]; intros res w' [= <- _]; eauto).
Qed.

(** X22. Without node storage no push registers a connection: the
    connections after a push are among those before it, and a push for
    a stream that is not registered is answered with 400, 405 or 500,
    never with 200 or 503. *)
Theorem no_storage_no_registration (w : World) (env : PushEnv) (r : Request) :
  NodeStorage w = None ->
  rtmpConnections (world_of (HandlePush w env r)) ⊆ rtmpConnections w
  /\ (rtmpConnections w !! resolve w (parseManifestID (Path (r_URL r))) = None ->
      forall resp w', HandlePush w env r = Ok resp w' ->
        status resp = 400 \/ status resp = 405 \/ status resp = 500).
Proof.
  intros Hns. unfold HandlePush. cbn [Path].
  destruct (_ && _); [split; [done|]; intros _ resp w' [= <- _]; auto|].
  destruct (r_Body r) as [body|]; [|split; [done|]; intros _ resp w' [= <- _]; auto].
  destruct (FormatNone =? _); [split; [done|]; intros _ resp w' [= <- _]; auto|].
  destruct (String.eqb _ ""); [split; [done|]; intros _ resp w' [= <- _]; auto|].
  destruct (rtmpConnections w !! _) as [cxn|] eqn:Hcxn.
  - split; [|discriminate].
    match goal with |- context [HandlePush_process ?w0 env r ?u ?e ?b ?c ?m] =>
      destruct (HandlePush_process_frame w0 env r u e b c m) as (_ & _ & _ & Hr & _)
    end. now rewrite Hr.
  - match goal with |- context [HandlePush_register w env ?u ?h ?f ?m] =>
      destruct (HandlePush_register_no_storage w env u h f m Hns) as [Hsub Hres];
      pose proof (HandlePush_register_status w) as Hst;
      destruct (HandlePush_register w env u h f m) as [[resp1|[cxn m2]] w1|w1] eqn:Hreg
    end; cbn [world_of] in *.
    + split; [exact Hsub|]. intros _ resp w' [= <- _]. right. right. eapply Hst; eauto.
    + destruct (Hres _ _ eq_refl) as [resp Hfalse]. discriminate.
    + split; [exact Hsub|]. discriminate.
Qed.

(** ** getHLSSegmentHandler *)

Lemma cut_at_hd (sep : ascii) (l : list ascii) :
  forall cur, exists pre post,
    hd [] (cut_at sep l cur) = rev cur ++ pre
    /\ (sep ∉ pre)
    /\ (l = pre \/ l = pre ++ sep :: post)
    /\ cut_at sep l cur <> [].
Proof.
  induction l as [|c l IH]; intros cur; cbn [cut_at].
  - exists [], []. rewrite app_nil_r. repeat split; auto.
    intros H. now apply elem_of_nil in H.
  - destruct (Ascii.eqb_spec c sep) as [->|Hne].
    + exists [], l. rewrite app_nil_r. cbn. repeat split; auto.
      intros H. now apply elem_of_nil in H.
    + destruct (IH (c :: cur)) as (pre & post & Hhd & Hnotin & Hl & Hnil).
      exists (c :: pre), post. rewrite Hhd. cbn [rev]. rewrite <- app_assoc. cbn.
      split; [reflexivity|]. split.
      * intros [Heq|Hin]%elem_of_cons; [congruence|contradiction].
      * split; [|exact Hnil]. destruct Hl as [-> | ->]; auto.
Qed.

Lemma string_of_list_ascii_app (l1 l2 : list ascii) :
  String.string_of_list_ascii (l1 ++ l2)
  = String.string_of_list_ascii l1 +:+ String.string_of_list_ascii l2.
Proof.
  induction l1 as [|c l1 IH]; [reflexivity|].
  cbn [app String.string_of_list_ascii]. rewrite IH. reflexivity.
Qed.

Section Segments.
Variable MemoryOS_GetSession : OSDriver -> string -> option OSSession.
Variable MemorySession_GetData : OSSession -> string -> option string.

(** X23. The handler of HLS segments serves nothing but data that is
    not empty, held by the memory node storage in the session named by
    the segment name, once the stream prefix is removed, up to its
    first slash. *)
Theorem hls_segment_from_memory_session (w : World) (url : URL) (data : string) :
  getHLSSegmentHandler MemoryOS_GetSession MemorySession_GetData w url = Play data ->
  let segName := cleanStreamPrefix (Path url) in
  data <> "" /\ segName <> ""
  /\ exists storage os session rest,
       NodeStorage w = Some storage /\ drv_memory storage = true
       /\ MemoryOS_GetSession storage session = Some os
       /\ MemorySession_GetData os segName = Some data
       /\ (slash ∉ String.list_ascii_of_string session)
       /\ (segName = session \/ segName = session +:+ "/" +:+ rest).
Proof.
  intros Hplay. cbv zeta. unfold getHLSSegmentHandler in Hplay.
  set (segName := cleanStreamPrefix (Path url)) in *.
  destruct (String.eqb_spec segName "") as [Hempty|Hne]; [discriminate|].
  destruct (NodeStorage w) as [storage|]; [|discriminate].
  unfold strings_SplitN2 in Hplay.
  destruct (cut_at_hd slash (String.list_ascii_of_string segName) [])
    as (pre & post & Hhd & Hnotin & Hl & Hnil).
  destruct (cut_at slash (String.list_ascii_of_string segName) []) as [|p0 ps] eqn:Hcut;
    [contradiction|].
  cbn [rev app hd] in Hhd. subst p0. cbn [fmap list_fmap] in Hplay.
  destruct (drv_memory storage) eqn:Hmem; [|discriminate]. cbn [negb] in Hplay.
  destruct (MemoryOS_GetSession storage _) as [os|] eqn:Hos; [|discriminate].
  destruct (MemorySession_GetData os segName) as [d|] eqn:Hd; [|discriminate].
  destruct d as [|c d]; [discriminate|]. injection Hplay as <-.
  split; [discriminate|]. split; [exact Hne|].
  exists storage, os, (String.string_of_list_ascii pre), (String.string_of_list_ascii post).
  rewrite String.list_ascii_of_string_of_list_ascii.
  repeat split; auto.
  destruct Hl as [Hl|Hl]; [left|right].
  - now rewrite <- Hl, String.string_of_list_ascii_of_string.
  - rewrite <- (String.string_of_list_ascii_of_string segName), Hl.
    rewrite string_of_list_ascii_app. reflexivity.
Qed.

End Segments.

End HandlerProperties.

(** * The properties of the handlers on the server of the test suite *)

Section HandlerExamples.
Import Std Samples.
Local Open Scope list_scope.

Lemma keyed_empty (w : World) : rtmpConnections w = ∅ -> keyed w.
Proof. intros He m a Ha. rewrite He, lookup_empty in Ha. discriminate. Qed.

Lemma keyed_after_mani : keyed after_mani.
Proof. apply HandlePush_keyed, keyed_empty. reflexivity. Qed.

Lemma pushes_keep_keyed_witness :
  keyed (pushes setupServer three_pushes)
  /\ connections_allocated (pushes setupServer three_pushes).
Proof.
  apply (pushes_keep_keyed setupServer three_pushes).
  apply keyed_empty. reflexivity.
Defined.

Lemma HandlePush_panics_enumerated_witness :
  (httpPushTimeout setupServer <= 0
   /\ rtmpConnections setupServer
        !! resolve setupServer
             (parseManifestID (Path (r_URL (push_multipart "/live/mani/17.ts"))))
      = None)
  \/ (h_Accept (r_Header (push_multipart "/live/mani/17.ts")) = "multipart/mixed"
      /\ exists cxn c seg urls,
           e_processSegment (env_transcoded three_urls) cxn seg = inl urls
           /\ heap (world_of overflowing) !! cxn = Some c
           /\ (length (slice_elems (world_of overflowing) (p_Profiles (params c)))
               < length urls)%nat).
Proof.
  apply (HandlePush_panics_enumerated setupServer (world_of overflowing)
           (env_transcoded three_urls) (push_multipart "/live/mani/17.ts")).
  - apply keyed_empty. reflexivity.
  - vm_compute. reflexivity.
Defined.

(** With a push timeout of zero the first push of a stream panics in
    [time.NewTicker]: the connection is registered by then, and no
    reaper is started. *)
Lemma ticker_panics :
  exists w',
    HandlePush (without_timeout setupServer) (env0 no_hook 100 7) (push "/live/seg/0.ts")
    = Panicked w'
    /\ rtmpConnections w' !! "seg" = Some 0%nat
    /\ internalManifests w' = ∅
    /\ watchdogs w' = [].
Proof. eexists. vm_compute. repeat split; reflexivity. Qed.

Lemma HandlePush_status_codes_witness :
  (status multipart_response = 200 \/ status multipart_response = 400
   \/ status multipart_response = 405
   \/ status multipart_response = 500 \/ status multipart_response = 503)
  /\ (status multipart_response = 405 <->
      Method (push_multipart "/live/mani/17.ts") <> "POST"
      /\ Method (push_multipart "/live/mani/17.ts") <> "PUT")
  /\ (status multipart_response = 400 <->
      (Method (push_multipart "/live/mani/17.ts") = "POST"
       \/ Method (push_multipart "/live/mani/17.ts") = "PUT")
      /\ (exists body, r_Body (push_multipart "/live/mani/17.ts") = inl body)
      /\ (ProfileExtensionFormat
            (path_Ext (Path (r_URL (push_multipart "/live/mani/17.ts")))) = FormatNone
          \/ parseManifestID (Path (r_URL (push_multipart "/live/mani/17.ts"))) = ""))
  /\ (status multipart_response = 400 \/ status multipart_response = 405 ->
      after_mani = setupServer).
Proof.
  apply (HandlePush_status_codes setupServer after_mani (env_transcoded two_urls)
           (push_multipart "/live/mani/17.ts") multipart_response).
  vm_compute. reflexivity.
Defined.

Lemma HandlePush_session_cap_witness :
  MaxSessions after_mani = MaxSessions setupServer
  /\ Z.of_nat (size (rtmpConnections after_mani)) <= MaxSessions setupServer.
Proof.
  apply (HandlePush_session_cap setupServer (env_transcoded two_urls)
           (push_multipart "/live/mani/17.ts")).
  - reflexivity.
  - vm_compute. discriminate.
Defined.

Lemma registered_push_only_refreshes_witness :
  let w' := world_of (HandlePush after_mani (env_transcoded two_urls)
                        (push_multipart "/live/mani/18.ts")) in
  only_usage after_mani w'
  /\ (forall a', a' <> 0%nat -> heap w' !! a' = heap after_mani !! a')
  /\ heap w' !! 0%nat
     = Some (add_bytes 12 22 (set_lastUsed 160 (conn_at after_mani 0))).
Proof.
  destruct (registered_push_only_refreshes after_mani (env_transcoded two_urls)
              (push_multipart "/live/mani/18.ts") 0%nat (conn_at after_mani 0))
    as (H1 & H2 & H3).
  - apply keyed_allocated, keyed_after_mani.
  - vm_compute. reflexivity.
  - vm_compute. reflexivity.
  - split; [exact H1|]. split; [exact H2|].
    apply (H3 "InsteadOf.TS").
    + left. reflexivity.
    + reflexivity.
    + vm_compute. discriminate.
    + vm_compute. discriminate.
Defined.

(** The byte counters of the stream after the two pushes: two bodies of
    12 bytes, two renditions of 22. *)
Lemma counters_after_two_pushes :
  sourceBytes (conn_at after_mani 0) = 12
  /\ transcodedBytes (conn_at after_mani 0) = 22
  /\ sourceBytes (conn_at (world_of (HandlePush after_mani (env_transcoded two_urls)
                                       (push_multipart "/live/mani/18.ts"))) 0) = 24
  /\ transcodedBytes (conn_at (world_of (HandlePush after_mani (env_transcoded two_urls)
                                           (push_multipart "/live/mani/18.ts"))) 0) = 44.
Proof. repeat split; vm_compute; reflexivity. Qed.

Lemma kicked_connection_survives_witness :
  exists w1,
    kicker_tick after_mani "mani" 1000 = Ok tt w1
    /\ watchdog_tick w1 "mani" "mani" (1000 + 60 * time_Second) = Ok false w1
    /\ rtmpConnections w1 !! "mani" = Some 0%nat.
Proof.
  apply (kicked_connection_survives after_mani "mani" "mani" 1000
           (1000 + 60 * time_Second) 0%nat (conn_at after_mani 0)).
  - vm_compute. reflexivity.
  - vm_compute. reflexivity.
  - vm_compute. discriminate.
  - right. reflexivity.
Defined.

Lemma watchdog_reaps_idle_witness :
  exists w',
    watchdog after_mani "mani" "mani" [160 + 60 * time_Second] = Ok false after_mani
    /\ watchdog after_mani "mani" "mani"
         ([160 + 60 * time_Second] ++ (161 + 60 * time_Second) :: [200 * time_Second])
       = Ok true w'
    /\ rtmpConnections w' = delete "mani" (rtmpConnections after_mani)
    /\ internalManifests w' = delete "mani" (internalManifests after_mani)
    /\ heap w' = <[0%nat := end_connection (conn_at after_mani 0) (the_playlist "mani")]>
                   (heap after_mani).
Proof.
  apply (watchdog_reaps_idle after_mani "mani" "mani" [160 + 60 * time_Second]
           [200 * time_Second] (161 + 60 * time_Second) 0%nat (conn_at after_mani 0)
           (the_playlist "mani")).
  - vm_compute. reflexivity.
  - vm_compute. reflexivity.
  - vm_compute. reflexivity.
  - vm_compute. reflexivity.
  - intros t Ht. apply list_elem_of_singleton in Ht. subst t. vm_compute. discriminate.
  - vm_compute. reflexivity.
Defined.

Lemma watchdog_is_safe_witness :
  exists returned w',
    watchdog after_mani "gone" "mani" [100 * time_Second; 200 * time_Second]
    = Ok returned w'
    /\ keyed w'
    /\ rtmpConnections w' ⊆ rtmpConnections after_mani
    /\ (returned = false -> w' = after_mani).
Proof.
  apply (watchdog_is_safe "gone" "mani" [100 * time_Second; 200 * time_Second] after_mani).
  apply keyed_after_mani.
Defined.

Lemma rtmp_publish_then_end_witness :
  exists w1 w2 c,
    gotRTMPStreamHandler setupServer basic_stream (AppParameters (params_of "rtmp")) 7 100
    = Ok None w1
    /\ rtmpConnections w1
       = <[p_ManifestID (params_of "rtmp") := length (heap setupServer)]>
           (rtmpConnections setupServer)
    /\ LastManifestID w1 = p_ManifestID (params_of "rtmp")
    /\ gotRTMPStreamHandler w1 basic_stream (AppParameters (params_of "rtmp")) 8 200
       = Ok (Some errAlreadyExists) w1
    /\ endRTMPStreamHandler w1 (AppParameters (params_of "rtmp")) = Ok None w2
    /\ rtmpConnections w2 = rtmpConnections setupServer
    /\ internalManifests w2 = internalManifests setupServer
    /\ heap w2 !! length (heap setupServer) = Some c
    /\ mid c = p_ManifestID (params_of "rtmp")
    /\ strm_closed (stream c) = true
    /\ sm_cleaned (sessManager c) = true.
Proof.
  apply (rtmp_publish_then_end setupServer basic_stream (params_of "rtmp") 7 100
           basic_stream (params_of "rtmp") (params_of "rtmp") 8 200).
  - eexists. reflexivity.
  - intros p l. eexists. reflexivity.
  - reflexivity.
  - reflexivity.
  - reflexivity.
  - reflexivity.
Defined.

Lemma published_stream_is_played_witness :
  LastManifestID published = "rtmp"
  /\ (exists vProfile,
        LastHLSStreamID published = MakeStreamID "rtmp" vProfile
        /\ Name vProfile = "source" /\ VFormat vProfile = FormatMPEGTS)
  /\ (forall url, parseManifestID (Path url) = "rtmp" ->
        getRTMPStreamHandler published url = Play basic_stream)
  /\ exists p,
       LatestPlaylist published = Play (Some p)
       /\ pl_mid p = "rtmp"
       /\ pl_cleaned p = false
       /\ (forall url,
             parseStreamID (Path url)
             = {| sid_ManifestID := "rtmp"; sid_Rendition := "" |} ->
             getHLSMasterPlaylistHandler string master_of lower published false url
             = Play (master_of p))
       /\ (forall url,
             lower (Path url) = "/stream/current.m3u8" ->
             getHLSMasterPlaylistHandler string master_of lower published true url
             = Play (master_of p)).
Proof.
  apply (published_stream_is_played string master_of lower setupServer published
           basic_stream (params_of "rtmp") 7 100).
  vm_compute. reflexivity.
Defined.

(** The master playlist of the published stream is served under the
    path of the current manifest, in capitals too, and under its own
    path; its media playlist under the path of the rendition. *)
Lemma published_playlists :
  getHLSMasterPlaylistHandler string master_of lower published true
    (url_of "/Stream/CURRENT.m3u8") = Play "rtmp"
  /\ getHLSMasterPlaylistHandler string master_of lower published false
       (url_of "/stream/rtmp.m3u8") = Play "rtmp"
  /\ getHLSMasterPlaylistHandler string master_of lower published false
       (url_of "/stream/rtmp/source.m3u8") = ErrNotFound
  /\ getHLSMediaPlaylistHandler string media_of published
       (url_of "/stream/rtmp/source.m3u8") = Play "rtmp/source"
  /\ getHLSMediaPlaylistHandler string media_of ended
       (url_of "/stream/rtmp/source.m3u8") = ErrNotFound.
Proof. vm_compute. repeat split. Qed.

Lemma hls_playlists_of_registered_witness :
  let sid := parseStreamID (Path (url_of "/stream/mani/source.m3u8")) in
  let master := getHLSMasterPlaylistHandler string master_of lower after_mani false
                  (url_of "/stream/mani/source.m3u8") in
  let media := getHLSMediaPlaylistHandler string media_of after_mani
                 (url_of "/stream/mani/source.m3u8") in
  master <> NilConnection
  /\ media <> NilConnection
  /\ (forall mp, master = Play mp <->
        sid_Rendition sid = ""
        /\ exists a c p,
             rtmpConnections after_mani !! sid_ManifestID sid = Some a
             /\ heap after_mani !! a = Some c /\ pl c = Some p
             /\ mp = master_of p)
  /\ (forall mp, media = Play mp <->
        exists a c p,
          rtmpConnections after_mani !! sid_ManifestID sid = Some a
          /\ heap after_mani !! a = Some c /\ pl c = Some p
          /\ media_of p (sid_Rendition sid) = Some mp).
Proof.
  apply (hls_playlists_of_registered string string master_of media_of lower after_mani
           (url_of "/stream/mani/source.m3u8")).
  apply keyed_after_mani.
Defined.

Lemma GetNodeStatus_reports_registry_witness :
  exists st,
    GetNodeStatus string master_of unit "0.5.13" "go1.15" "amd64" "linux"
      after_mani broadcaster
      (map_to_list (rtmpConnections after_mani))
      (map_to_list (internalManifests after_mani)) = Some st
    /\ InternalManifests st = internalManifests after_mani
    /\ (forall k,
          StreamInfo st !! k
          = rtmpConnections after_mani !! k ≫= fun a =>
              (fun c => {| SourceBytes := sourceBytes c;
                           TranscodedBytes := transcodedBytes c |})
                <$> heap after_mani !! a)
    /\ (forall k,
          Manifests st !! k
          = rtmpConnections after_mani !! k ≫= fun a =>
              heap after_mani !! a ≫= fun c => master_of <$> pl c)
    /\ dom (StreamInfo st) = dom (rtmpConnections after_mani)
    /\ dom (Manifests st) = dom (rtmpConnections after_mani).
Proof.
  apply (GetNodeStatus_reports_registry string master_of unit "0.5.13" "go1.15" "amd64"
           "linux" after_mani broadcaster).
  - apply keyed_after_mani.
  - reflexivity.
  - reflexivity.
Defined.

Lemma getPlaylistsFromStore_indexes_witness :
  jsonFiles found_playlists = fi_Name <$> store_files listing ["old"; "mani"]
  /\ (forall m, is_Some (filesMap found_playlists !! m) <-> m ∈ ["old"; "mani"])
  /\ (forall pre m post, ["old"; "mani"] = pre ++ m :: post -> m ∉ post ->
        filesMap found_playlists !! m
        = Some (seq (length (store_files listing pre))
                    (length (manifest_files listing m))))
  /\ (forall m idxs i, filesMap found_playlists !! m = Some idxs -> i ∈ idxs ->
        (i < length (jsonFiles found_playlists))%nat).
Proof.
  apply (getPlaylistsFromStore_indexes listing ["old"; "mani"] found_playlists).
  vm_compute. reflexivity.
Defined.

(** The store of the example: three playlists of the manifest mani,
    none of the manifest old, the latest of time 900. *)
Lemma found_playlists_are :
  jsonFiles found_playlists
  = ["mani/s1/playlist_1.json"; "mani/s1/playlist_2.json"; "mani/s2/playlist_1.json"]
  /\ filesMap found_playlists !! "mani" = Some [0; 1; 2]%nat
  /\ filesMap found_playlists !! "old" = Some []
  /\ latestPlaylistTime found_playlists = 900.
Proof. vm_compute. repeat split. Qed.

Lemma getPlaylistsFromStore_latest_witness :
  time_zero <= latestPlaylistTime found_playlists
  /\ (forall f, f ∈ store_files listing ["old"; "mani"] ->
        fi_LastModified f <= latestPlaylistTime found_playlists)
  /\ (latestPlaylistTime found_playlists = time_zero
      \/ exists f, f ∈ store_files listing ["old"; "mani"]
                   /\ latestPlaylistTime found_playlists = fi_LastModified f).
Proof.
  apply (getPlaylistsFromStore_latest listing ["old"; "mani"] found_playlists).
  vm_compute. reflexivity.
Defined.

Lemma recordings_auth_cached_witness :
  exists res1 cache1 res2,
    HandleRecordings mime_of hooked ∅ (recordings_env (hook "mani") 1000)
      (recording "/recordings/mani/index.m3u8") = (res1, authenticated.2, cache1)
    /\ cache_Get cache1 (recordings_manifestID (recording "/recordings/mani/index.m3u8"))
         (1000 + time_Hour) = Some mani_response
    /\ HandleRecordings mime_of authenticated.2 cache1
         (recordings_env (fun _ => PostError "unreachable") (1000 + time_Hour))
         (recording "/recordings/mani/source.m3u8") = (res2, authenticated.2, cache1).
Proof.
  apply (recordings_auth_cached mime_of hooked authenticated.2 ∅
           (recordings_env (hook "mani") 1000)
           (recordings_env (fun _ => PostError "unreachable") (1000 + time_Hour))
           (recording "/recordings/mani/index.m3u8")
           (recording "/recordings/mani/source.m3u8") mani_response).
  - repeat split; [left; vm_compute; reflexivity|vm_compute; lia].
  - repeat split; [left; vm_compute; reflexivity|vm_compute; lia].
  - vm_compute. reflexivity.
  - reflexivity.
  - vm_compute. reflexivity.
  - vm_compute. discriminate.
Defined.

Lemma recordings_without_response_panics_witness :
  let w := with_record_storage setupServer in
  let env := recordings_env no_hook 1000 in
  let r := recording "/recordings/mani/index.m3u8" in
  (HandleRecordings mime_of w ∅ env r).1.1 = RecPanic
  /\ ((HandleRecordings mime_of w ∅ env r).1.1 = RecPanic ->
      (authenticateStream w (re_post env) (rq_URL r)).1 = inl None).
Proof.
  intros w env r.
  destruct (recordings_without_response_panics mime_of w ∅ env r) as [H1 H2].
  - repeat split; [left; vm_compute; reflexivity|vm_compute; lia].
  - reflexivity.
  - split; [|exact H2].
    apply (H1 eq_refl {| drv_uri := "memory://record"; drv_memory := true |} eq_refl).
    + discriminate.
    + discriminate.
Defined.

Lemma stream_parameters_identity_witness :
  exists params0,
    created.1 = Some params0
    /\ p_ManifestID params0 <> ""
    /\ p_RtmpKey params0 <> ""
    /\ p_Resolution params0 = ""
    /\ p_Format params0 = FormatNone
    /\ p_Capabilities params0 = None
    /\ (AuthWebhookURL setupServer = "" ->
        p_ManifestID params0
        = if String.eqb (parseManifestID "/live/seg/0.ts") ""
          then e_RandomManifestID (env0 no_hook 100 7)
          else parseManifestID "/live/seg/0.ts").
Proof.
  exists (default (params_of "") created.1). split; [vm_compute; reflexivity|].
  apply (stream_parameters_identity setupServer created.2 (env0 no_hook 100 7)
           {| Scheme := "http"; Opaque := ""; Host := "example.com";
              Path := "/live/seg/0.ts"; RawQuery := ""; Fragment := "" |}).
  - discriminate.
  - discriminate.
  - vm_compute. reflexivity.
Defined.

Lemma answered_push_is_registered_witness :
  is_Some (rtmpConnections after_mani
             !! resolve after_mani
                  (parseManifestID (Path (r_URL (push_multipart "/live/mani/17.ts"))))).
Proof.
  apply (answered_push_is_registered setupServer after_mani (env_transcoded two_urls)
           (push_multipart "/live/mani/17.ts") multipart_response).
  - apply keyed_empty. reflexivity.
  - reflexivity.
  - vm_compute. reflexivity.
  - left. vm_compute. reflexivity.
Defined.

Lemma denied_push_registers_nothing_witness :
  let env := env0 (fun _ => PostResponse 403 "denied") 100 7 in
  let url := {| Scheme := "http"; Opaque := ""; Host := "example.com";
                Path := "/live/seg/0.ts"; RawQuery := ""; Fragment := "" |} in
  exists w',
    HandlePush hooked env (push "/live/seg/0.ts")
    = Ok (http_Error ("Could not create stream ID: url=" +:+ URL_String url) 500) w'
    /\ registry_eq hooked w'
    /\ posts w' = posts hooked
                  ++ [(AuthWebhookURL hooked, json_Marshal [("url", URL_String url)])].
Proof.
  intros env url.
  apply (denied_push_registers_nothing hooked env (push "/live/seg/0.ts") "").
  - left. reflexivity.
  - reflexivity.
  - vm_compute. discriminate.
  - vm_compute. discriminate.
  - vm_compute. reflexivity.
  - discriminate.
  - left. discriminate.
Defined.

Lemma no_storage_no_registration_witness :
  let w := without_storage setupServer in
  rtmpConnections (world_of (HandlePush w (env0 no_hook 100 7) (push "/live/seg/0.ts")))
    ⊆ rtmpConnections w
  /\ (rtmpConnections w !! resolve w (parseManifestID "/live/seg/0.ts") = None ->
      forall resp w', HandlePush w (env0 no_hook 100 7) (push "/live/seg/0.ts") = Ok resp w' ->
        status resp = 400 \/ status resp = 405 \/ status resp = 500).
Proof.
  intros w.
  apply (no_storage_no_registration w (env0 no_hook 100 7) (push "/live/seg/0.ts")).
  reflexivity.
Defined.

(** The test of the storage error: the push is answered with 500 and
    the name of the error. *)
Lemma storage_error :
  exists w',
    HandlePush (without_storage setupServer) (env0 no_hook 100 7) (push "/live/seg/0.ts")
    = Ok (http_Error "http push error url=http://example.com/live/seg/0.ts err=ErrStorage"
            500) w'.
Proof. eexists. vm_compute. reflexivity. Qed.

Lemma hls_segment_from_memory_session_witness :
  let segName := cleanStreamPrefix "/stream/mani/source/0.ts" in
  "segment data" <> "" /\ segName <> ""
  /\ exists storage os session rest,
       NodeStorage setupServer = Some storage /\ drv_memory storage = true
       /\ memory_session storage session = Some os
       /\ memory_data os segName = Some "segment data"
       /\ (slash ∉ String.list_ascii_of_string session)
       /\ (segName = session \/ segName = session +:+ "/" +:+ rest).
Proof.
  apply (hls_segment_from_memory_session memory_session memory_data setupServer
           (url_of "/stream/mani/source/0.ts") "segment data").
  vm_compute. reflexivity.
Defined.

(** The GOPs of a webhook profile: two seconds; a number of seconds that
    an int64 of nanoseconds cannot hold, a NaN and the positive infinity,
    which all give the least int64; zero, the negative infinity and a
    word, which are refused. *)
Lemma gop_values :
  jsonProfile_gop "2" = inl 2000000000
  /\ jsonProfile_gop "9223372037" = inl (- 9223372036854775808)
  /\ jsonProfile_gop "NaN" = inl (- 9223372036854775808)
  /\ jsonProfile_gop "+Inf" = inl (- 9223372036854775808)
  /\ jsonProfile_gop "0" = inr "invalid gop value"
  /\ jsonProfile_gop "-Inf" = inr "invalid gop value"
  /\ jsonProfile_gop "abc" = inr "invalid syntax".
Proof. vm_compute. repeat split; reflexivity. Qed.

End HandlerExamples.
